(** * portable_python.builder: build orchestration engine

    A shallow embedding of [src/portable_python/builder/__init__.py]
    (classes [SupportedPythonVersions], [AvailableBuilders], [TargetSystem],
    [BuildSetup], [ModuleBuilder] and what [PythonBuilder] overrides) together
    with the module declarations of [src/portable_python/builder/db.py].

    Python strings are modelled as [string] (bytes, compared by code point),
    dictionaries whose order is observable as association lists, the process
    environment as a [gmap], and the side effects of the build (logging
    handlers, folders, external tools, exceptions) through a state-and-exception
    monad over an explicit [State]. *)

From Stdlib Require Import String Ascii List Bool Arith Lia DecimalString.
From stdpp Require Import base list gmap strings sorting.

Local Open Scope string_scope.
Local Open Scope list_scope.
Local Open Scope nat_scope.

(** ** Python built-ins used by the source *)

Module Py.

(** [s.startswith(p)] *)
Definition startswith (s p : string) : bool := String.prefix p s.

(** [s[n:]] *)
Fixpoint slice_from (n : nat) (s : string) : string :=
  match n, s with
  | 0, _ => s
  | S n', String _ t => slice_from n' t
  | S _, EmptyString => EmptyString
  end.

(** [s.endswith(suf)] *)
Definition endswith (s suf : string) : bool :=
  (String.length suf <=? String.length s)%nat
  && String.eqb (slice_from (String.length s - String.length suf) s) suf.

Definition upper_char (c : ascii) : ascii :=
  let n := nat_of_ascii c in
  if (97 <=? n)%nat && (n <=? 122)%nat then ascii_of_nat (n - 32) else c.

Definition lower_char (c : ascii) : ascii :=
  let n := nat_of_ascii c in
  if (65 <=? n)%nat && (n <=? 90)%nat then ascii_of_nat (n + 32) else c.

Fixpoint map_chars (f : ascii → ascii) (s : string) : string :=
  match s with
  | EmptyString => EmptyString
  | String c t => String (f c) (map_chars f t)
  end.

(** [s.upper()] and [s.lower()] on ASCII text *)
Definition upper : string → string := map_chars upper_char.
Definition lower : string → string := map_chars lower_char.

(** [s.replace(a, b)] for one-character [a] and [b] *)
Definition replace_char (a b : ascii) : string → string :=
  map_chars (λ c, if Ascii.eqb c a then b else c).

(** [c in s] for a character [c] *)
Fixpoint contains (c : ascii) (s : string) : bool :=
  match s with
  | EmptyString => false
  | String a t => Ascii.eqb a c || contains c t
  end.

(** [s.partition(sep)] for a one-character separator: the text before the
    first separator, the separator when found, and the text after it. *)
Fixpoint partition (sep : ascii) (s : string) : string * string * string :=
  match s with
  | EmptyString => (EmptyString, EmptyString, EmptyString)
  | String c t =>
      if Ascii.eqb c sep then (EmptyString, String sep EmptyString, t)
      else let '(h, m, tl) := partition sep t in (String c h, m, tl)
  end.

(** [s.split(sep)] for a one-character separator *)
Fixpoint split (sep : ascii) (s : string) : list string :=
  match s with
  | EmptyString => [EmptyString]
  | String c t =>
      if Ascii.eqb c sep then EmptyString :: split sep t
      else match split sep t with
           | h :: r => String c h :: r
           | [] => [String c EmptyString]
           end
  end.

(** [sep.join(l)] *)
Definition join (sep : string) (l : list string) : string := String.concat sep l.

(** [str(n)] for a non-negative integer *)
Definition str_of_nat (n : nat) : string := NilZero.string_of_uint (Nat.to_uint n).

(** [f"{n:02}"]: decimal, padded with zeros on the left to a width of two *)
Definition format_02 (n : nat) : string :=
  let d := str_of_nat n in
  if (String.length d <? 2)%nat then "0" +:+ d else d.

(** [sorted(names)] on strings: ascending code-point order *)
Definition sorted (l : list string) : list string := merge_sort String.le l.

(** Truthiness of a string and of an optional string *)
Definition truthy_str (s : string) : bool := negb (String.eqb s "").
Definition truthy_opt (o : option string) : bool :=
  match o with Some s => truthy_str s | None => false end.

(** [a or b] on strings, where [None] and [""] are falsy *)
Definition or_else (a : option string) (b : string) : string :=
  match a with
  | Some s => if truthy_str s then s else b
  | None => b
  end.

End Py.

(** The Python values that reach [runez.flattened] and [runez.joined] in this
    program: [None], a string, or a (possibly nested) sequence: list, tuple or
    the values of a generator. *)
#[warnings="-register-all"]
Inductive pyval : Type :=
| PNone
| PStr (s : string)
| PSeq (items : list pyval).

Definition truthy (v : pyval) : bool :=
  match v with
  | PNone => false
  | PStr s => Py.truthy_str s
  | PSeq items => match items with [] => false | _ => true end
  end.

(** ** The [runez] helpers the builder calls *)

Module Runez.

(** The [keep_empty] argument: [True], [False] or [None]. *)
Inductive keep_empty := KeepTrue | KeepFalse | KeepNone.

(** A flattened item is a string or a kept [None]. *)
Definition leaf := option string.

Definition push (unique : bool) (result : list leaf) (x : leaf) : list leaf :=
  if unique && bool_decide (x ∈ result) then result else result ++ [x].

Definition flatten_piece (keep : keep_empty) (unique : bool)
    (result : list leaf) (piece : string) : list leaf :=
  match keep with
  | KeepNone => if String.eqb piece "" then result else push unique result (Some piece)
  | _ => push unique result (Some piece)
  end.

Definition pieces (split : option ascii) (s : string) : list string :=
  match split with
  | Some sep => Py.split sep s
  | None => [s]
  end.

(** Modelled from the spec: [runez.flattened] belongs to the [runez] library,
    which is not part of [src/]. The spec describes the call
    [flattened(names, keep_empty=None, split=",")] as "the explicit
    comma-separated/flattened list of names, deduplicated, order preserved,
    empty entries discarded"; the model is the library's accumulator loop:
    nested sequences are walked left to right, strings are cut at [split],
    [keep_empty=None] drops [None] and empty strings, [keep_empty=False]
    drops [None] only, and a value already accumulated is appended again
    unless the call asks for [unique]: none of the program's calls does, so
    repeated values are kept. *)
Fixpoint _flatten (keep : keep_empty) (split : option ascii) (unique : bool)
    (result : list leaf) (value : pyval) : list leaf :=
  match value with
  | PNone =>
      match keep with
      | KeepTrue => push unique result None
      | _ => result
      end
  | PSeq items =>
      fold_left (λ acc item, _flatten keep split unique acc item) items result
  | PStr s =>
      fold_left (flatten_piece keep unique) (pieces split s) result
  end.

Definition flattened (value : pyval) (keep : keep_empty) (split : option ascii)
    (unique : bool) : list leaf :=
  _flatten keep split unique [] value.

(** [runez.stringified]: the text of a value, ["None"] for [None]. *)
Definition stringified (x : leaf) : string :=
  match x with Some s => s | None => "None" end.

(** Modelled from the spec: [runez.joined] is not part of [src/]. Per the
    spec, fragments are joined with the delimiter in yield order and
    "empty/falsy fragments are discarded" under [keep_empty=None]; the
    library flattens its arguments (without uniqueness) and joins their
    texts. *)
Definition joined (value : pyval) (delimiter : string) (keep : keep_empty)
    (stringify : leaf → string) : string :=
  Py.join delimiter (stringify <$> flattened value keep None false).

(** [runez.plural(items, word)]: the count followed by the word, in the plural
    unless there is exactly one item. *)
Definition plural (n : nat) (word : string) : string :=
  Py.str_of_nat n +:+ " " +:+ word +:+ (if Nat.eqb n 1 then "" else "s").

End Runez.

(** ** Versions and python specs *)

Module Version.

(** Modelled from the spec: [runez.pyenv.Version] is not part of [src/]. A
    version is either text that does not parse (malformed) or its numeric
    components with an optional pre-release marker such as [("rc", 1)];
    a final version is a well-formed one without pre-release marker. *)
Inductive t : Type :=
| Malformed (text : string)
| Parsed (components : list nat) (prerelease : option (string * nat)).

#[global] Instance eq_dec : EqDecision t.
Proof. solve_decision. Defined.

Definition is_valid (v : t) : bool :=
  match v with Malformed _ => false | Parsed _ _ => true end.

Definition is_final (v : t) : bool :=
  match v with Parsed _ None => true | _ => false end.

(** [version.text], also what [str(version)] gives: the components separated
    by dots, followed by the pre-release marker *)
Definition text (v : t) : string :=
  match v with
  | Malformed text => text
  | Parsed components prerelease =>
      Py.join "." (Py.str_of_nat <$> components)
      +:+ match prerelease with
          | Some (kind, n) => kind +:+ Py.str_of_nat n
          | None => ""
          end
  end.

End Version.

(** [runez.pyenv.PythonSpec]: the text of the spec, its family, and its version
    when the text names one. *)
Record PythonSpec := mkPythonSpec {
  spec_text : string;
  spec_family : string;
  spec_version : option Version.t;
}.

(** Modelled from the spec: [PythonSpec.to_spec] belongs to [runez], which is
    not part of [src/]. Per the spec "only malformed/non-final specs or
    unsupported families are fatal": the library reads no version from a
    pre-release text such as ["3.10.0rc1"] and leaves the version [None]
    there, so that the well-formed version of a spec it builds is final. *)
Definition to_spec_built (spec : PythonSpec) : Prop :=
  ∀ v, spec_version spec = Some v → Version.is_valid v = true →
       Version.is_final v = true.

(** ** The host, exceptions, events and the mutable state *)

(** What the program reads from the machine it runs on: [platform.machine()],
    [platform.system()], [os.pathsep], the terminal colouring [runez.red] and
    the absolute path of a path, [runez.to_path(path).absolute()]. *)
Record Host := mkHost {
  machine : string;
  system : string;
  pathsep : string;
  red : string → string;
  absolute : string → string;
}.

(** [SystemExit] as raised by [runez.abort], or any other exception. *)
Inductive exn : Type :=
| Abort (message : string)
| Failure (what : string).

Inductive log_level := DEBUG | INFO | WARNING.

(** Calls that leave the process: the download of a tarball, its decompression
    and the programs started through [runez.run]. *)
Inductive ext_call : Type :=
| XDownload (url path : string)
| XDecompress (path dest : string)
| XRun (cwd : string) (argv : list string).

(** What the outside world answers to an external call: success, with the
    folders the tool created, or an exception. *)
Inductive ext_result : Type :=
| XOk (created : list string)
| XRaise (e : exn).

Inductive event : Type :=
| EvLog (level : log_level) (message : string)
| EvPrint (text : string)
| EvCall (self method : string)
| EvEnsureFolder (path : string) (clean : bool)
| EvDelete (path : string)
| EvSetenv (key value : string)
| EvAddHandler (h : nat)
| EvRemoveHandler (h : nat)
| EvExternal (c : ext_call).

Record State := mkState {
  host : Host;
  dryrun : bool;                      (* runez.DRYRUN *)
  environ : gmap string string;       (* os.environ *)
  root_handlers : list nat;           (* logging.root.handlers, by object id *)
  log_handler : gmap nat nat;         (* builder object id -> its _log_handler *)
  log_counter : nat;                  (* BuildSetup._log_counter *)
  dirs : gset string;                 (* existing folders *)
  files : gset string;                (* existing files *)
  next_id : nat;                      (* next fresh object id *)
  externals : list ext_result;        (* answers to the coming external calls *)
  trace : list event;                 (* what happened so far, oldest first *)
}.

Definition set_environ (f : gmap string string → gmap string string) (s : State) : State :=
  mkState (host s) (dryrun s) (f (environ s)) (root_handlers s) (log_handler s)
    (log_counter s) (dirs s) (files s) (next_id s) (externals s) (trace s).
Definition set_root_handlers (f : list nat → list nat) (s : State) : State :=
  mkState (host s) (dryrun s) (environ s) (f (root_handlers s)) (log_handler s)
    (log_counter s) (dirs s) (files s) (next_id s) (externals s) (trace s).
Definition set_log_handler (f : gmap nat nat → gmap nat nat) (s : State) : State :=
  mkState (host s) (dryrun s) (environ s) (root_handlers s) (f (log_handler s))
    (log_counter s) (dirs s) (files s) (next_id s) (externals s) (trace s).
Definition set_log_counter (f : nat → nat) (s : State) : State :=
  mkState (host s) (dryrun s) (environ s) (root_handlers s) (log_handler s)
    (f (log_counter s)) (dirs s) (files s) (next_id s) (externals s) (trace s).
Definition set_dirs (f : gset string → gset string) (s : State) : State :=
  mkState (host s) (dryrun s) (environ s) (root_handlers s) (log_handler s)
    (log_counter s) (f (dirs s)) (files s) (next_id s) (externals s) (trace s).
Definition set_files (f : gset string → gset string) (s : State) : State :=
  mkState (host s) (dryrun s) (environ s) (root_handlers s) (log_handler s)
    (log_counter s) (dirs s) (f (files s)) (next_id s) (externals s) (trace s).
Definition set_next_id (f : nat → nat) (s : State) : State :=
  mkState (host s) (dryrun s) (environ s) (root_handlers s) (log_handler s)
    (log_counter s) (dirs s) (files s) (f (next_id s)) (externals s) (trace s).
Definition set_externals (f : list ext_result → list ext_result) (s : State) : State :=
  mkState (host s) (dryrun s) (environ s) (root_handlers s) (log_handler s)
    (log_counter s) (dirs s) (files s) (next_id s) (f (externals s)) (trace s).
Definition emit (e : event) (s : State) : State :=
  mkState (host s) (dryrun s) (environ s) (root_handlers s) (log_handler s)
    (log_counter s) (dirs s) (files s) (next_id s) (externals s) (trace s ++ [e]).

(** ** Computations: state passing with exceptions *)

Inductive outcome (A : Type) : Type :=
| Ret (a : A)
| Raise (e : exn).
Arguments Ret {A} a.
Arguments Raise {A} e.

Definition M (A : Type) : Type := State → outcome A * State.

Definition ret {A} (a : A) : M A := λ s, (Ret a, s).
Definition raise {A} (e : exn) : M A := λ s, (Raise e, s).
Definition bind {A B} (m : M A) (k : A → M B) : M B :=
  λ s, match m s with
       | (Ret a, s') => k a s'
       | (Raise e, s') => (Raise e, s')
       end.
Definition gets {A} (f : State → A) : M A := λ s, (Ret (f s), s).
Definition modify (f : State → State) : M unit := λ s, (Ret tt, f s).

(** [try: body finally: cleanup]: the cleanup runs on every exit of the body; an
    exception raised by the cleanup replaces the body's outcome. *)
Definition try_finally {A} (body : M A) (cleanup : M unit) : M A :=
  λ s, match body s with
       | (r, s1) =>
           match cleanup s1 with
           | (Ret _, s2) => (r, s2)
           | (Raise e, s2) => (Raise e, s2)
           end
       end.

Declare Scope py_scope.
Delimit Scope py_scope with py.
Notation "x <- c1 ;; c2" := (bind c1 (λ x, c2))
  (at level 100, c1 at next level, right associativity) : py_scope.
Notation "c1 ;; c2" := (bind c1 (λ _, c2))
  (at level 100, right associativity) : py_scope.
Local Open Scope py_scope.

(** [for x in l: body x] *)
Fixpoint for_each {A} (l : list A) (body : A → M unit) : M unit :=
  match l with
  | [] => ret tt
  | x :: rest => body x ;; for_each rest body
  end.

Definition when (b : bool) (m : M unit) : M unit := if b then m else ret tt.

(** [runez.abort(message)]: raises [SystemExit]. *)
Definition abort {A} (message : string) : M A := raise (Abort message).

Definition LOG (level : log_level) (message : string) : M unit :=
  modify (emit (EvLog level message)).

Definition called (self method : string) : M unit :=
  modify (emit (EvCall self method)).

Definition is_dir (path : string) (s : State) : bool := bool_decide (path ∈ dirs s).
Definition path_exists (path : string) (s : State) : bool :=
  bool_decide (path ∈ dirs s) || bool_decide (path ∈ files s).

(** [runez.ensure_folder(path, clean=clean)]: creates the folder and, when
    [clean], empties it; nothing is touched in dry-run mode. *)
Definition under (folder path : string) : bool := String.prefix (folder +:+ "/") path.

Definition ensure_folder (path : string) (clean : bool) : M unit :=
  modify (λ s,
    let s := emit (EvEnsureFolder path clean) s in
    if dryrun s then s
    else
      let s := if clean
               then set_files (filter (λ p, ¬ under path p))
                      (set_dirs (filter (λ p, ¬ under path p)) s)
               else s in
      set_dirs (λ d, {[path]} ∪ d) s).

(** [runez.delete(path)] on a file *)
Definition delete_file (path : string) : M unit :=
  modify (λ s,
    let s := emit (EvDelete path) s in
    if dryrun s then s else set_files (λ f, f ∖ {[path]}) s).

(** An external call: recorded, then answered by the next entry of
    [externals] (success without new folders when the list is exhausted). *)
Definition external (c : ext_call) : M unit :=
  λ s,
    let s1 := emit (EvExternal c) s in
    match externals s1 with
    | [] => (Ret tt, s1)
    | XOk created :: rest =>
        (Ret tt, set_dirs (λ d, list_to_set created ∪ d) (set_externals (λ _, rest) s1))
    | XRaise e :: rest => (Raise e, set_externals (λ _, rest) s1)
    end.

Definition fresh : M nat :=
  λ s, (Ret (next_id s), set_next_id S s).

(** ** Paths and a few more string helpers *)

Module Path.

(** [a / b] on [pathlib] paths *)
Definition join (a b : string) : string := a +:+ "/" +:+ b.

(** The text before the last ["/"], when there is one. *)
Fixpoint dirname (s : string) : option string :=
  match s with
  | EmptyString => None
  | String c t =>
      match dirname t with
      | Some d => Some (String c d)
      | None => if Ascii.eqb c "/" then Some EmptyString else None
      end
  end.

(** [path.parent] *)
Definition parent (s : string) : string := default "." (dirname s).

(** [os.path.basename(s)]: the text after the last ["/"] *)
Fixpoint basename (s : string) : string :=
  match s with
  | EmptyString => EmptyString
  | String c t =>
      match dirname t with
      | Some _ => basename t
      | None => if Ascii.eqb c "/" then t else s
      end
  end.

Fixpoint lstrip (c : ascii) (s : string) : string :=
  match s with
  | String a t => if Ascii.eqb a c then lstrip c t else s
  | EmptyString => EmptyString
  end.

(** [s.strip(c)] for a one-character [c] *)
Definition strip (c : ascii) (s : string) : string :=
  String.rev (lstrip c (String.rev (lstrip c s))).

Fixpoint format_go (include : string) (skip : nat) (s : string) : string :=
  match s with
  | EmptyString => EmptyString
  | String c t =>
      match skip with
      | S k => format_go include k t
      | 0 =>
          if String.prefix "{include}" s
          then include +:+ format_go include 8 t
          else String c (format_go include 0 t)
      end
  end.

(** [template.format(include=include)] for templates whose only replacement
    field is [{include}] *)
Definition format_include (template include : string) : string :=
  format_go include 0 template.

Fixpoint format_version_go (python_version : string) (skip : nat) (s : string) : string :=
  match s with
  | EmptyString => EmptyString
  | String c t =>
      match skip with
      | S k => format_version_go python_version k t
      | 0 =>
          if String.prefix "{python_version}" s
          then python_version +:+ format_version_go python_version 15 t
          else String c (format_version_go python_version 0 t)
      end
  end.

(** [template.format(python_version=python_version)] for templates whose only
    replacement field is [{python_version}] *)
Definition format_python_version (template python_version : string) : string :=
  format_version_go python_version 0 template.

End Path.

(** ** SupportedPythonVersions *)

Module SupportedPythonVersions.

(** [CPYTHON_VERSIONS], each line read by [Version] *)
Definition CPYTHON_VERSIONS : list Version.t :=
  [ Version.Parsed [3; 9; 6] None;
    Version.Parsed [3; 9; 5] None;
    Version.Parsed [3; 8; 9] None;
    Version.Parsed [3; 7; 9] None;
    Version.Parsed [3; 6; 9] None ].

Record PythonVersions := mkPythonVersions {
  pv_family : string;
  versions : list Version.t;
}.

Definition latest (fam : PythonVersions) : option Version.t := head (versions fam).

Record t := mk {
  family_list : list PythonVersions;
  family_by_name : gmap string PythonVersions;
}.

Definition _add (self : t) (family_name : string) (versions : list Version.t) : t :=
  let fam := mkPythonVersions family_name versions in
  mk (family_list self ++ [fam]) (<[family_name := fam]> (family_by_name self)).

Definition __init__ : t := _add (mk [] ∅) "cpython" CPYTHON_VERSIONS.

Definition all_family_names (self : t) : list string := pv_family <$> family_list self.

Definition family (self : t) (family_name : string) (fatal : bool)
    : M (option PythonVersions) :=
  let fam := family_by_name self !! family_name in
  if fatal && negb (bool_decide (is_Some fam))
  then abort ("Python family '" +:+ family_name +:+ "' is not yet supported")
  else ret fam.

Definition validate (self : t) (python_spec : PythonSpec) : M unit :=
  h <- gets host ;;
  when (match spec_version python_spec with
        | None => true
        | Some v => negb (Version.is_valid v)
        end)
    (abort ("Invalid python spec: " +:+ red h (spec_text python_spec))) ;;
  fam <- family self (spec_family python_spec) true ;;
  match fam, spec_version python_spec with
  | Some fam, Some v =>
      when (negb (bool_decide (v ∈ versions fam)))
        (LOG WARNING (spec_text python_spec
                      +:+ " is not in the supported list, your mileage may vary"))
  | _, _ => raise (Failure "AttributeError")
  end.

End SupportedPythonVersions.

(** ** TargetSystem *)

Record TargetSystem := mkTargetSystem {
  architecture : string;
  platform : string;
}.

Module Target.

Definition __init__ (h : Host) (target : option string) : TargetSystem :=
  let '(plat, arch) :=
    match target with
    | Some t =>
        if Py.truthy_str t
        then let '(plat, _, arch) := Py.partition "-" t in (Some plat, Some arch)
        else (None, None)
    | None => (None, None)
    end in
  mkTargetSystem (Py.or_else arch (machine h)) (Py.or_else plat (Py.lower (system h))).

Definition __repr__ (self : TargetSystem) : string :=
  platform self +:+ "-" +:+ architecture self.

Definition is_linux (self : TargetSystem) : bool := String.eqb (platform self) "linux".
Definition is_macos (self : TargetSystem) : bool := String.eqb (platform self) "darwin".

Definition sdk_folder (self : TargetSystem) : option string :=
  if is_macos self then Some "/Library/Developer/CommandLineTools/SDKs/MacOSX.sdk"
  else None.

Definition sys_include (self : TargetSystem) : string :=
  match sdk_folder self with
  | Some sdk => sdk +:+ "/usr/include"
  | None => "/usr/include"
  end.

(** [is_applicable(module)], on the module's [needs_platforms] ([None] as []) *)
Definition is_applicable (self : TargetSystem) (needs_platforms : list string) : bool :=
  match needs_platforms with
  | [] => true
  | _ => bool_decide (platform self ∈ needs_platforms)
  end.

End Target.

(** ** Module builder classes and the registry *)

(** What an exporter reads while it runs: the target, the folder where
    dependencies are installed and which folders exist. *)
Record Ctx := mkCtx {
  ctx_target : TargetSystem;
  ctx_deps : string;
  ctx_is_dir : string → bool;
}.

(** The attributes the builder looks up by name ([xenv_*] and
    [_do_*_compile]): a generator method (the values it yields when called), a
    plain value, or a build-step method running the configure/make protocol. *)
Inductive attr : Type :=
| Generator (yields : Ctx → list pyval)
| Data (value : pyval)
| BuildStep.

(** A class deriving from [ModuleBuilder]: its name and the attributes it
    sets or overrides. *)
Record ModuleClass := mkModuleClass {
  cls_name : string;                    (* __name__ *)
  needs_platforms : list string;        (* None as [] *)
  telltale : pyval;
  c_configure_cwd : option string;
  c_configure_program : string;
  c_configure_flags : list string;      (* yielded after the base class's prefix *)
  make_args : list string;
  make_install_args : list string;
  url : string;
  version : string;
  namespace : list (string * attr);     (* the xenv_* and _do_*_compile it defines *)
  is_python_builder : bool;             (* derives from PythonBuilder *)
}.

(** A builder object, once attached to its setup. *)
Record ModuleBuilder := mkModuleBuilder {
  oid : nat;
  cls : ModuleClass;
  build_folder : string;
}.

Fixpoint assoc {A} (name : string) (l : list (string * A)) : option A :=
  match l with
  | [] => None
  | (k, v) :: rest => if String.eqb k name then Some v else assoc name rest
  end.

Module AvailableBuilders.

(** [available]: a dictionary, in insertion order *)
Record t := mk {
  category : string;
  available : list (string * ModuleClass);
}.

Definition module_builder_name (c : ModuleClass) : string := Py.lower (cls_name c).

Fixpoint dict_set {A} (k : string) (v : A) (d : list (string * A)) : list (string * A) :=
  match d with
  | [] => [(k, v)]
  | (k', v') :: rest =>
      if String.eqb k' k then (k', v) :: rest else (k', v') :: dict_set k v rest
  end.

Definition declare (self : t) (decorated : ModuleClass) : t :=
  mk (category self) (dict_set (module_builder_name decorated) decorated (available self)).

Definition keys (self : t) : list string := fst <$> available self.

(** [get_builder(setup, name)]: a new object of the class registered under
    [name], attached to the setup whose build folder is given. *)
Definition get_builder (self : t) (setup_build_folder : string) (name : string)
    : M (option ModuleBuilder) :=
  match assoc name (available self) with
  | Some v =>
      id <- fresh ;;
      ret (Some (mkModuleBuilder id v
                   (Path.join (Path.join setup_build_folder "build")
                      (module_builder_name v))))
  | None => ret None
  end.

End AvailableBuilders.

(** ** BuildSetup: its fields, and the methods the builders call back *)

Record BuildSetup := mkBuildSetup {
  python_spec : PythonSpec;
  target_system : TargetSystem;
  setup_build_folder : string;          (* self.build_folder *)
  dist_folder : string;
  deps_folder : string;
  downloads_folder : string;
  logs_folder : string;
  module_builders : AvailableBuilders.t;
  python_builder : option ModuleBuilder;
  active_modules : list ModuleBuilder;
  skipped_modules : list ModuleBuilder;
  unknown_modules : list string;
  prefix : option string;               (* class attribute, None unless set *)
}.

(** The name of the log file of the [counter]-th compilation *)
Definition log_basename (counter : nat) (name : string) : string :=
  Py.format_02 counter +:+ "-" +:+ name +:+ ".log".

Definition _get_logs_path (self : BuildSetup) (name : string) : M string :=
  ensure_folder (logs_folder self) false ;;
  modify (set_log_counter S) ;;
  counter <- gets log_counter ;;
  let basename := log_basename counter name in
  let path := Path.join (logs_folder self) basename in
  delete_file path ;;
  ret path.

(** The body of [fix_lib_permissions] is commented out in the source. *)
Definition fix_lib_permissions (self : BuildSetup) : M unit := ret tt.

(** ** ModuleBuilder *)

Module ModuleBuilder.

Definition module_builder_name (self : ModuleBuilder) : string :=
  AvailableBuilders.module_builder_name (cls self).

(** [self.version] as text: the class's own; for a [PythonBuilder] the
    version of the setup's spec *)
Definition version (setup : BuildSetup) (self : ModuleBuilder) : string :=
  if is_python_builder (cls self)
  then match spec_version (python_spec setup) with
       | Some v => Version.text v
       | None => "None"
       end
  else version (cls self).

Definition __repr__ (setup : BuildSetup) (self : ModuleBuilder) : string :=
  module_builder_name self +:+ " " +:+ version setup self.

Definition context (setup : BuildSetup) (s : State) : Ctx :=
  mkCtx (target_system setup) (deps_folder setup) (λ path, is_dir path s).

Definition download_path (setup : BuildSetup) (self : ModuleBuilder) : string :=
  Path.join (downloads_folder setup) (Path.basename (url (cls self))).

Definition checked_deps_folder (c : Ctx) (path : string) : pyval :=
  let path := Path.join (ctx_deps c) path in
  if ctx_is_dir c path then PStr path else PNone.

Definition xenv_archflags (c : Ctx) : list pyval :=
  [PSeq [PStr "-arch"; PStr (architecture (ctx_target c))]].

Definition xenv_cpath (c : Ctx) : list pyval :=
  [ checked_deps_folder c "include";
    checked_deps_folder c "include/readline";
    checked_deps_folder c "include/uuid";
    checked_deps_folder c "include/openssl" ].

Definition xenv_library_path (c : Ctx) : list pyval := [checked_deps_folder c "lib"].

Definition xenv_ld_library_path (c : Ctx) : list pyval := [checked_deps_folder c "lib"].

Definition xenv_macosx_deployment_target (c : Ctx) : list pyval :=
  if Target.is_macos (ctx_target c) then [PStr "10.14"] else [].

Definition xenv_path (c : Ctx) : list pyval :=
  [checked_deps_folder c "bin"; PStr "/usr/bin"; PStr "/bin"].

Definition xenv_pkg_config_path (c : Ctx) : list pyval :=
  [checked_deps_folder c "lib/pkgconfig"].

(** The attributes of the base class that are looked up by name. *)
Definition base_namespace : list (string * attr) :=
  [ ("_do_darwin_compile", BuildStep);
    ("_do_linux_compile", BuildStep);
    ("xenv_archflags", Generator xenv_archflags);
    ("xenv_cpath", Generator xenv_cpath);
    ("xenv_library_path", Generator xenv_library_path);
    ("xenv_ld_library_path", Generator xenv_ld_library_path);
    ("xenv_macosx_deployment_target", Generator xenv_macosx_deployment_target);
    ("xenv_path", Generator xenv_path);
    ("xenv_pkg_config_path", Generator xenv_pkg_config_path) ].

(** [getattr(self, name, None)]: the class's own attribute first, then the
    base class's. *)
Definition getattr (self : ModuleBuilder) (name : string) : option attr :=
  match assoc name (namespace (cls self)) with
  | Some a => Some a
  | None => assoc name base_namespace
  end.

(** [dir(self)]: every attribute name once *)
Definition dir (self : ModuleBuilder) : list string :=
  remove_dups ((fst <$> namespace (cls self)) ++ (fst <$> base_namespace)).

Definition exported_env_vars (self : ModuleBuilder) : list string :=
  filter (λ name, Py.startswith name "xenv_") (Py.sorted (dir self)).

Definition skip_reason (self : ModuleBuilder) (target : TargetSystem) : option string :=
  match needs_platforms (cls self) with
  | [] => None
  | _ =>
      if negb (Target.is_applicable target (needs_platforms (cls self)))
      then Some (Runez.joined (PSeq (PStr <$> needs_platforms (cls self))) "/"
                   Runez.KeepTrue Runez.stringified +:+ " only")
      else None
  end.

(** [existing_telltale(target)] of the class: the first tell-tale file found *)
Definition existing_telltale (c : ModuleClass) (target : TargetSystem) (s : State)
    : option string :=
  head (filter (λ path, path_exists path s)
          ((λ t, Path.format_include (Runez.stringified t) (Target.sys_include target))
             <$> Runez.flattened (telltale c) Runez.KeepNone None false)).

(** [runez.run(program, *args)] from the folder [cwd] *)
Definition run (cwd : string) (argv : list string) : M unit :=
  match argv with
  | [] => raise (Failure "TypeError")
  | _ => external (XRun cwd argv)
  end.

(** [PythonBuilder.install_destdir] *)
Definition install_destdir (setup : BuildSetup) : string :=
  if Py.truthy_opt (prefix setup) then Path.join (setup_build_folder setup) "root"
  else setup_build_folder setup.

(** [c_configure_prefix]: the folder of dependencies; for a [PythonBuilder] the
    setup's prefix template filled in, or the text of the version: [None]
    stands for the [AttributeError] raised when the spec has no version. *)
Definition c_configure_prefix (setup : BuildSetup) (self : ModuleBuilder)
    : option string :=
  if is_python_builder (cls self)
  then if Py.truthy_opt (prefix setup)
       then Some (Path.format_python_version
                    (Path.strip "/" (default "" (prefix setup))) (version setup self))
       else Version.text <$> spec_version (python_spec setup)
  else Some (deps_folder setup).

(** [c_configure_args()]: the base class's prefix argument, then what the
    class yields after it *)
Definition c_configure_args (setup : BuildSetup) (self : ModuleBuilder)
    : option (list pyval) :=
  match c_configure_prefix setup self with
  | Some prefix =>
      Some ((if Py.truthy_str prefix
             then [PStr ("--prefix=/" +:+ Path.strip "/" prefix)] else [])
            ++ (PStr <$> c_configure_flags (cls self)))
  | None => None
  end.

(** The [args] of [run_configure]: the words of the configure program, then
    its arguments *)
Definition run_configure_args (setup : BuildSetup) (self : ModuleBuilder)
    : option (list string) :=
  match c_configure_args setup self with
  | Some args =>
      Some (Runez.stringified
              <$> Runez.flattened
                    (PSeq [ PSeq (PStr <$> String.words (c_configure_program (cls self)));
                            PSeq args ])
                    Runez.KeepNone None false)
  | None => None
  end.

Definition run_configure (setup : BuildSetup) (self : ModuleBuilder) (cwd : string)
    : M unit :=
  when (Py.truthy_str (c_configure_program (cls self)))
    (match run_configure_args setup self with
     | Some args => run cwd args
     | None => raise (Failure "AttributeError")
     end).

(** [make_install_args()]: the class's; for a [PythonBuilder] the staging
    root *)
Definition make_install_args (setup : BuildSetup) (self : ModuleBuilder) : list pyval :=
  if is_python_builder (cls self)
  then [PStr ("DESTDIR=" +:+ install_destdir setup)]
  else PStr <$> make_install_args (cls self).

(** The command lines of [run_make_install] *)
Definition make_command (self : ModuleBuilder) : list string :=
  "make" :: (Runez.stringified
               <$> Runez.flattened (PSeq (PStr <$> make_args (cls self)))
                     Runez.KeepNone None false).

Definition make_install_command (setup : BuildSetup) (self : ModuleBuilder)
    : list string :=
  "make" :: "install"
  :: (Runez.stringified
        <$> Runez.flattened (PSeq (make_install_args setup self))
              Runez.KeepNone None false).

Definition run_make_install (setup : BuildSetup) (self : ModuleBuilder) (cwd : string)
    : M unit :=
  run cwd (make_command self) ;;
  run cwd (make_install_command setup self).

(** The [folder] of [_do_linux_compile]: the unpacked source, or its
    sub-folder [c_configure_cwd] *)
Definition configure_folder (self : ModuleBuilder) : string :=
  match c_configure_cwd (cls self) with
  | Some sub => if Py.truthy_str sub then Path.join (build_folder self) sub
                else build_folder self
  | None => build_folder self
  end.

(** The body of [_do_linux_compile]: configure, make, make install, run from
    the unpacked source (or the sub-folder [c_configure_cwd] of it). *)
Definition configure_make (setup : BuildSetup) (self : ModuleBuilder) : M unit :=
  run_configure setup self (configure_folder self) ;;
  run_make_install setup self (configure_folder self).

Definition _do_linux_compile (setup : BuildSetup) (self : ModuleBuilder) : M unit :=
  called (module_builder_name self) "_do_linux_compile" ;;
  configure_make setup self.

Definition _do_darwin_compile (setup : BuildSetup) (self : ModuleBuilder) : M unit :=
  called (module_builder_name self) "_do_darwin_compile" ;;
  _do_linux_compile setup self.

(** Calling the build-step method found under [func_name] *)
Definition call_build_step (setup : BuildSetup) (self : ModuleBuilder)
    (func_name : string) : M unit :=
  if String.eqb func_name "_do_darwin_compile" then _do_darwin_compile setup self
  else if String.eqb func_name "_do_linux_compile" then _do_linux_compile setup self
  else (called (module_builder_name self) func_name ;; configure_make setup self).

Definition setenv (key value : string) : M unit :=
  LOG DEBUG ("env " +:+ key +:+ "=" +:+ value) ;;
  modify (set_environ (<[key := value]>)).

(** One round of the loop of [_setup_env] *)
Definition export_one (setup : BuildSetup) (self : ModuleBuilder) (func_name : string)
    : M unit :=
  h <- gets host ;;
  let name := Py.upper (Py.slice_from 5 func_name) in
  let delimiter := if Py.endswith name "PATH" then pathsep h else " " in
  match getattr self func_name with
  | None => raise (Failure "AttributeError")
  | Some value =>
      fragments <-
        match value with
        | Generator yields => c <- gets (context setup) ;; ret (Some (PSeq (yields c)))
        | BuildStep => call_build_step setup self func_name ;; ret (Some PNone)
        | Data v => ret (if truthy v then Some v else None)
        end ;;
      match fragments with
      | None => ret tt
      | Some v =>
          let value := Runez.joined v delimiter Runez.KeepNone Runez.stringified in
          when (Py.truthy_str value) (setenv name value)
      end
  end.

Definition _setup_env (setup : BuildSetup) (self : ModuleBuilder) : M unit :=
  called (module_builder_name self) "_setup_env" ;;
  for_each (exported_env_vars self) (export_one setup self).

Definition _prepare (self : ModuleBuilder) : M unit :=
  called (module_builder_name self) "_prepare".

Definition _finalize (setup : BuildSetup) (self : ModuleBuilder) : M unit :=
  called (module_builder_name self) "_finalize" ;;
  fix_lib_permissions setup.

Definition download (setup : BuildSetup) (self : ModuleBuilder) : M unit :=
  there <- gets (path_exists (download_path setup self)) ;;
  if there : bool then LOG INFO ("Already downloaded: " +:+ url (cls self))
  else
    external (XDownload (url (cls self)) (download_path setup self)) ;;
    modify (λ s, if dryrun s then s
                 else set_files (λ f, {[download_path setup self]} ∪ f) s).

Definition unpack (setup : BuildSetup) (self : ModuleBuilder) : M unit :=
  called (module_builder_name self) "unpack" ;;
  download setup self ;;
  external (XDecompress (download_path setup self) (build_folder self)) ;;
  modify (λ s, if dryrun s then s else set_dirs (λ d, {[build_folder self]} ∪ d) s).

(** [logging.root.addHandler] and [removeHandler] *)
Definition addHandler (h : nat) : M unit :=
  modify (λ s, set_root_handlers
                 (λ hs, if bool_decide (h ∈ hs) then hs else (hs ++ [h])%list)
                 (emit (EvAddHandler h) s)).

Fixpoint remove_first (h : nat) (hs : list nat) : list nat :=
  match hs with
  | [] => []
  | x :: rest => if Nat.eqb x h then rest else x :: remove_first h rest
  end.

Definition removeHandler (h : nat) : M unit :=
  modify (λ s, set_root_handlers (remove_first h) (emit (EvRemoveHandler h) s)).

(** [with self.captured_logs(): body]. [logging.FileHandler(logs_path)] opens
    the log file, which creates it. *)
Definition captured_logs (setup : BuildSetup) (self : ModuleBuilder) (body : M unit)
    : M unit :=
  try_finally
    (logs_path <- _get_logs_path setup (module_builder_name self) ;;
     there <- gets (is_dir (Path.parent logs_path)) ;;
     when there
       (h <- fresh ;;
        modify (set_files (λ f, {[logs_path]} ∪ f)) ;;
        modify (set_log_handler (<[oid self := h]>)) ;;
        addHandler h) ;;
     body)
    (h <- gets (λ s, log_handler s !! oid self) ;;
     match h with
     | Some h =>
         removeHandler h ;;
         modify (set_log_handler (delete (oid self)))
     | None => ret tt
     end).

Definition compile (setup : BuildSetup) (self : ModuleBuilder) (x_debug : bool)
    : M unit :=
  called (module_builder_name self) "compile" ;;
  modify (emit (EvPrint (module_builder_name self))) ;;
  captured_logs setup self
    (there <- gets (is_dir (build_folder self)) ;;
     when (negb x_debug || negb there)
       (unpack setup self ;;
        _setup_env setup self ;;
        _prepare self ;;
        h <- gets host ;;
        let func_name := "_do_" +:+ platform (target_system setup) +:+ "_compile" in
        match getattr self func_name with
        | None =>
            abort ("Compiling on platform '" +:+ red h (platform (target_system setup))
                   +:+ "' is not yet supported")
        | Some BuildStep => call_build_step setup self func_name
        | Some (Generator _) => ret tt
        | Some (Data v) =>
            if truthy v then raise (Failure "TypeError")
            else abort ("Compiling on platform '"
                        +:+ red h (platform (target_system setup))
                        +:+ "' is not yet supported")
        end) ;;
     _finalize setup self ;;
     LOG INFO ("Compiled " +:+ module_builder_name self +:+ " " +:+ version setup self)).

End ModuleBuilder.

(** ** BuildSetup *)

Module BuildSetup.

(** [AvailableBuilders.without_telltale(target)]: the registered names whose
    class has a tell-tale, applies to the target, and whose tell-tale file is
    absent. *)
Definition without_telltale (self : AvailableBuilders.t) (target : TargetSystem)
    (s : State) : list string :=
  fst <$> filter
            (λ item : string * ModuleClass,
               truthy (telltale item.2)
               && Target.is_applicable target (needs_platforms item.2)
               && negb (Py.truthy_opt (ModuleBuilder.existing_telltale item.2 target s)))
            (AvailableBuilders.available self).

Definition is_str (v : pyval) (text : string) : bool :=
  match v with PStr t => String.eqb t text | _ => false end.

Definition resolved_module_names (self : BuildSetup) (module_names : pyval)
    : M (list string) :=
  if is_str module_names "none" then ret []
  else if is_str module_names "all"
  then ret (AvailableBuilders.keys (module_builders self))
  else if negb (truthy module_names)
  then gets (without_telltale (module_builders self) (target_system self))
  else ret (omap id (Runez.flattened module_names Runez.KeepNone (Some ","%char) false)).

Definition add_unknown (self : BuildSetup) (name : string) : BuildSetup :=
  mkBuildSetup (python_spec self) (target_system self) (setup_build_folder self)
    (dist_folder self) (deps_folder self) (downloads_folder self) (logs_folder self)
    (module_builders self) (python_builder self)
    (active_modules self) (skipped_modules self) (unknown_modules self ++ [name])
    (prefix self).

Definition add_skipped (self : BuildSetup) (m : ModuleBuilder) : BuildSetup :=
  mkBuildSetup (python_spec self) (target_system self) (setup_build_folder self)
    (dist_folder self) (deps_folder self) (downloads_folder self) (logs_folder self)
    (module_builders self) (python_builder self)
    (active_modules self) (skipped_modules self ++ [m]) (unknown_modules self)
    (prefix self).

Definition add_active (self : BuildSetup) (m : ModuleBuilder) : BuildSetup :=
  mkBuildSetup (python_spec self) (target_system self) (setup_build_folder self)
    (dist_folder self) (deps_folder self) (downloads_folder self) (logs_folder self)
    (module_builders self) (python_builder self)
    (active_modules self ++ [m]) (skipped_modules self) (unknown_modules self)
    (prefix self).

(** One round of the loop [for name in modules] of the constructor *)
Definition classify (self : BuildSetup) (name : string) : M BuildSetup :=
  m <- AvailableBuilders.get_builder (module_builders self) (setup_build_folder self) name ;;
  match m with
  | None => ret (add_unknown self name)
  | Some m =>
      let skip_reason := ModuleBuilder.skip_reason m (target_system self) in
      if Py.truthy_opt skip_reason
      then LOG INFO ("Skipping " +:+ ModuleBuilder.__repr__ self m +:+ ": "
                     +:+ default "" skip_reason) ;;
           ret (add_skipped self m)
      else ret (add_active self m)
  end.

Fixpoint classify_all (self : BuildSetup) (modules : list string) : M BuildSetup :=
  match modules with
  | [] => ret self
  | name :: rest => self' <- classify self name ;; classify_all self' rest
  end.

(** The constructor. [supported], [module_builders], [python_builders] and
    [prefix] are the class attributes of the source. [runez.to_path] belongs
    to [runez]: with [no_spaces=True] it aborts on a path that holds a space
    (the message is the library's). *)
Definition __init__ (supported : SupportedPythonVersions.t)
    (module_builders python_builders : AvailableBuilders.t) (prefix : option string)
    (python_spec : PythonSpec) (modules : pyval)
    (build_folder dist_folder : string) (target : option string) : M BuildSetup :=
  SupportedPythonVersions.validate supported python_spec ;;
  h <- gets host ;;
  modify (set_log_counter (λ _, 0)) ;;
  let target_system := Target.__init__ h target in
  when (Py.contains " " build_folder)
    (abort ("Refusing path with space (not worth escaping all the things to make this work): '"
            +:+ build_folder +:+ "'")) ;;
  let build_folder := absolute h build_folder in
  let self_build_folder :=
    Path.join build_folder (Py.replace_char ":" "-" (spec_text python_spec)) in
  let dist_folder := absolute h dist_folder in
  python_builder <-
    AvailableBuilders.get_builder python_builders self_build_folder
      (spec_family python_spec) ;;
  let self :=
    mkBuildSetup python_spec target_system self_build_folder dist_folder
      (Path.join self_build_folder "deps") (Path.join build_folder "downloads")
      (Path.join self_build_folder "logs") module_builders python_builder [] [] []
      prefix in
  modules <- resolved_module_names self modules ;;
  classify_all self modules.

Definition is_active_module (self : BuildSetup) (name : string) : bool :=
  existsb (λ x, String.eqb name (ModuleBuilder.module_builder_name x))
    (active_modules self).

Definition compile (self : BuildSetup) (x_debug : bool) : M unit :=
  ensure_folder (setup_build_folder self) (negb x_debug) ;;
  h <- gets host ;;
  match unknown_modules self with
  | _ :: _ =>
      abort ("Unknown modules: "
             +:+ Runez.joined (PSeq (PStr <$> unknown_modules self)) ", "
                   Runez.KeepTrue (λ x, red h (Runez.stringified x)))
  | [] =>
      LOG INFO ("Compiling "
                +:+ Runez.plural (length (active_modules self)) "external module") ;;
      for_each (active_modules self) (λ m, ModuleBuilder.compile self m x_debug) ;;
      match python_builder self with
      | Some p => ModuleBuilder.compile self p x_debug
      | None => raise (Failure "AttributeError")
      end
  end.

End BuildSetup.

(** ** The modules declared in [builder/db.py] *)

Module Db.

Definition Gdbm : ModuleClass :=
  mkModuleClass "Gdbm" ["linux"] (PStr "{include}/gdbm.h") None "./configure"
    ["--enable-libgdbm-compat"] [] []
    "https://ftp.gnu.org/gnu/gdbm/gdbm-1.18.1.tar.gz" "1.18.1" [] false.

Definition Bdb : ModuleClass :=
  mkModuleClass "Bdb" [] PNone (Some "build_unix") "../dist/configure"
    ["--enable-dbm"] [] []
    "https://ftp.osuosl.org/pub/blfs/conglomeration/db/db-6.2.32.tar.gz" "6.2.32" []
    false.

Definition Sqlite : ModuleClass :=
  mkModuleClass "Sqlite" [] (PStr "{include}/sqlite3.h") None "./configure"
    [] [] []
    "https://github.com/sqlite/sqlite/archive/refs/tags/version-3.36.0.tar.gz"
    "3.36.0" [] false.

(** [BuildSetup.module_builders] once [db.py] is imported *)
Definition module_builders : AvailableBuilders.t :=
  AvailableBuilders.declare
    (AvailableBuilders.declare
       (AvailableBuilders.declare (AvailableBuilders.mk "external module" []) Gdbm)
       Bdb)
    Sqlite.

End Db.

(** ** Notions used to state the properties *)

(** Induction on values, through nested sequences *)
Fixpoint pyval_ind' (P : pyval → Prop) (HNone : P PNone) (HStr : ∀ s, P (PStr s))
    (HSeq : ∀ items, Forall P items → P (PSeq items)) (v : pyval) : P v :=
  match v with
  | PNone => HNone
  | PStr s => HStr s
  | PSeq items =>
      HSeq items
        ((fix go (l : list pyval) : Forall P l :=
            match l with
            | [] => List.Forall_nil P
            | x :: rest => List.Forall_cons P x rest (pyval_ind' P HNone HStr HSeq x) (go rest)
            end) items)
  end.

(** The strings of a value, left to right through nested sequences *)
Fixpoint leaves (v : pyval) : list string :=
  match v with
  | PNone => []
  | PStr s => [s]
  | PSeq items => flat_map leaves items
  end.

(** The non-empty strings of a value, in order *)
Definition kept_fragments (v : pyval) : list string :=
  filter (λ s, s ≠ "") (leaves v).

(** Duplicates removed, the first occurrence of each name kept in place *)
Fixpoint nub (l : list string) : list string :=
  match l with
  | [] => []
  | x :: rest => x :: filter (λ y, y ≠ x) (nub rest)
  end.

(** The names of an explicit module selection, as the spec words it: the
    comma-separated entries of the flattened request, without the empty ones,
    each name once ("deduplicated"), in order. *)
Definition explicit_names (module_names : pyval) : list string :=
  nub (filter (λ s, s ≠ "") (flat_map (Py.split ",") (leaves module_names))).

(** Where the constructor puts a requested name *)
Inductive placement : Type := Active | Skipped | Unknown.

#[global] Instance placement_eq_dec : EqDecision placement.
Proof. solve_decision. Defined.

(** The skip reason reported by a builder of the class [c] *)
Definition class_skip_reason (c : ModuleClass) (target : TargetSystem) : option string :=
  ModuleBuilder.skip_reason (mkModuleBuilder 0 c "") target.

(** The rule of the spec: unknown when the name is not registered, skipped when
    the registered builder reports a skip reason, active otherwise. *)
Definition placement_of (registry : AvailableBuilders.t) (target : TargetSystem)
    (name : string) : placement :=
  match assoc name (AvailableBuilders.available registry) with
  | None => Unknown
  | Some c =>
      match class_skip_reason c target with
      | Some _ => Skipped
      | None => Active
      end
  end.

(** Every class is registered under its own builder name, as [declare] does. *)
Definition declared (registry : AvailableBuilders.t) : Prop :=
  ∀ name c,
    assoc name (AvailableBuilders.available registry) = Some c →
    AvailableBuilders.module_builder_name c = name.

(** The names of the builders of a list *)
Definition builder_names (l : list ModuleBuilder) : list string :=
  ModuleBuilder.module_builder_name <$> l.

(** The variable an exporter feeds: its name without the prefix, in upper case *)
Definition exported_name (func_name : string) : string :=
  Py.upper (Py.slice_from 5 func_name).

(** The value made of the fragments kept: joined with the path-list separator
    when the variable's name ends in PATH, with one space otherwise. *)
Definition exported_value (h : Host) (name : string) (fragments : list string) : string :=
  Py.join (if Py.endswith name "PATH" then pathsep h else " ") fragments.

(** What an exporter produces *)
Definition fragments_of (a : attr) (c : Ctx) : pyval :=
  match a with
  | Generator yields => PSeq (yields c)
  | Data value => value
  | BuildStep => PNone
  end.

(** The environment after one exporter, as the spec words it: nothing is set
    when no non-empty fragment is left. *)
Definition export (h : Host) (c : Ctx) (self : ModuleBuilder)
    (env : gmap string string) (func_name : string) : gmap string string :=
  match ModuleBuilder.getattr self func_name with
  | None => env
  | Some a =>
      match kept_fragments (fragments_of a c) with
      | [] => env
      | fragments =>
          <[exported_name func_name
            := exported_value h (exported_name func_name) fragments]> env
      end
  end.

(** No attribute named [xenv_*] is a build-step method. *)
Definition exporters_only (self : ModuleBuilder) : Prop :=
  ∀ name, Py.startswith name "xenv_" = true →
          ModuleBuilder.getattr self name ≠ Some BuildStep.

(** A string without the separator ["-"] *)
Fixpoint no_dash (s : string) : Prop :=
  match s with
  | EmptyString => True
  | String c t => c ≠ "-"%char ∧ no_dash t
  end.

(** The outcome of a run is an abort ([SystemExit]) *)
Definition aborts {A} (r : outcome A * State) : Prop :=
  ∃ message, r.1 = Raise (Abort message).

(** The method calls recorded in a trace, as (object, method) pairs *)
Definition calls (t : list event) : list (string * string) :=
  omap (λ e, match e with EvCall self method => Some (self, method) | _ => None end) t.

(** The handlers attached to the logging root while a trace unfolds, and the
    largest number of them attached at once. *)
Definition replay_handler (active : list nat) (e : event) : list nat :=
  match e with
  | EvAddHandler h => if bool_decide (h ∈ active) then active else active ++ [h]
  | EvRemoveHandler h => ModuleBuilder.remove_first h active
  | _ => active
  end.

Fixpoint peak_handlers (active : list nat) (t : list event) : nat :=
  match t with
  | [] => length active
  | e :: rest => max (length active) (peak_handlers (replay_handler active e) rest)
  end.

Definition is_handler_event (e : event) : bool :=
  match e with
  | EvAddHandler _ | EvRemoveHandler _ => true
  | _ => false
  end.

(** The handler events of a trace *)
Definition handler_events (t : list event) : list event :=
  filter (λ e, is_handler_event e = true) t.

(** The handlers attached once a trace has unfolded *)
Definition replay_handlers (active : list nat) (t : list event) : list nat :=
  fold_left replay_handler t active.

(** Object ids are handed out in increasing order: every handler attached so far
    has an id below the next fresh one. *)
Definition handlers_fresh (s : State) : Prop :=
  ∀ h, h ∈ root_handlers s → h < next_id s.

(** A step that leaves the logging machinery alone: it extends the trace
    without handler events and keeps the root's handlers, the builders'
    handler references and the supply of object ids. *)
Definition quiet (s s' : State) : Prop :=
  (∃ new, trace s' = trace s ++ new ∧ handler_events new = [])
  ∧ root_handlers s' = root_handlers s
  ∧ log_handler s' = log_handler s
  ∧ next_id s' = next_id s.

Definition Quiet {A} (m : M A) : Prop := ∀ s, quiet s (m s).2.

(** The log files allocated to compilations of the modules named, in order *)
Fixpoint allocate_logs (self : BuildSetup) (names : list string) : M (list string) :=
  match names with
  | [] => ret []
  | name :: rest =>
      path <- _get_logs_path self name ;;
      paths <- allocate_logs self rest ;;
      ret (path :: paths)
  end.

(** ** Sample values *)

Module Sample.

Definition linux : Host :=
  mkHost "x86_64" "Linux" ":" (λ text, text)
    (λ path, if Py.startswith path "/" then path else "/home/user/" +:+ path).

Definition start : State := mkState linux false ∅ [] ∅ 0 ∅ ∅ 0 [] [].

Definition cpython_396 : PythonSpec :=
  mkPythonSpec "cpython:3.9.6" "cpython" (Some (Version.Parsed [3; 9; 6] None)).

(** A well-formed final version that is not in the supported list *)
Definition cpython_3100 : PythonSpec :=
  mkPythonSpec "cpython:3.10.0" "cpython" (Some (Version.Parsed [3; 10; 0] None)).

(** A release candidate: no version is read from its text *)
Definition cpython_3100rc1 : PythonSpec :=
  mkPythonSpec "cpython:3.10.0rc1" "cpython" None.

(** A class deriving from [PythonBuilder], without attributes of its own *)
Definition Cpython : ModuleClass :=
  mkModuleClass "Cpython" [] PNone None "./configure" [] [] []
    "https://www.python.org/ftp/python/3.9.6/Python-3.9.6.tar.xz" "" [] true.

Definition python_builders : AvailableBuilders.t :=
  AvailableBuilders.declare (AvailableBuilders.mk "python" []) Cpython.

Definition new_setup (modules : pyval) (target : option string) : M BuildSetup :=
  BuildSetup.__init__ SupportedPythonVersions.__init__ Db.module_builders
    python_builders None cpython_396 modules "/work/build" "/work/dist" target.

(** A setup as the constructor leaves it for the request ["bdb,zlib"] on
    linux: [bdb] is active, [zlib] is not registered. *)
Definition bdb : ModuleBuilder :=
  mkModuleBuilder 1 Db.Bdb "/work/build/cpython-3.9.6/build/bdb".

Definition python : ModuleBuilder :=
  mkModuleBuilder 0 Cpython "/work/build/cpython-3.9.6/build/cpython".

Definition setup_for (target : TargetSystem) (unknown : list string) : BuildSetup :=
  mkBuildSetup cpython_396 target "/work/build/cpython-3.9.6" "/work/dist"
    "/work/build/cpython-3.9.6/deps" "/work/build/downloads"
    "/work/build/cpython-3.9.6/logs" Db.module_builders (Some python) [bdb] []
    unknown None.

(** A machine where the dependencies' [lib] and [include] folders exist and
    [CPATH] and [CFLAGS] are already set *)
Definition with_deps : State :=
  mkState linux false
    (<["CPATH" := "/opt/include"]> (<["CFLAGS" := "-O2"]> ∅)) [] ∅ 0
    {[ "/work/build/cpython-3.9.6/deps/lib";
       "/work/build/cpython-3.9.6/deps/include" ]} ∅ 2 [] [].

(** A machine where the download succeeds and decompressing the tarball
    fails *)
Definition broken_tarball : State :=
  mkState linux false ∅ [7] ∅ 0 ∅ ∅ 8
    [XOk []; XRaise (Abort "decompress failed")] [].

Definition on_linux : TargetSystem := mkTargetSystem "x86_64" "linux".
Definition on_windows : TargetSystem := mkTargetSystem "x86_64" "windows".

End Sample.

(** ** Statements and relations used by the proofs *)

(** The claim C10 as it is worded: for an explicit (non-empty) target string
    without ["-"], or ending right after its first ["-"], the platform is the
    text before the separator and the architecture is the host's. *)
Definition target_fallback_as_stated : Prop :=
  ∀ (h : Host) (plat : string),
    no_dash plat →
    (plat ≠ "" →
       Target.__init__ h (Some plat) = mkTargetSystem (machine h) plat)
    ∧ Target.__init__ h (Some (plat +:+ "-")) = mkTargetSystem (machine h) plat.

(** The version of a spec is usable: present and well-formed. *)
Definition well_formed (spec : PythonSpec) : Prop :=
  ∃ v, spec_version spec = Some v ∧ Version.is_valid v = true.

(** The version of a spec is present, well-formed and final. *)
Definition final (spec : PythonSpec) : Prop :=
  ∃ v, spec_version spec = Some v ∧ Version.is_final v = true.

Definition supported_family (self : SupportedPythonVersions.t) (spec : PythonSpec) : Prop :=
  is_Some (SupportedPythonVersions.family_by_name self !! spec_family spec).

(** The paths [_get_logs_path] hands out when the counter stands at [counter] *)
Fixpoint expected_logs (folder : string) (counter : nat) (names : list string)
    : list string :=
  match names with
  | [] => []
  | name :: rest =>
      Path.join folder (log_basename (S counter) name)
      :: expected_logs folder (S counter) rest
  end.

Definition two_digits_ordered (i j : nat) : bool :=
  match Py.format_02 i, Py.format_02 j with
  | String c1 (String c2 ""), String d1 (String d2 "") =>
      match String.compare (String c1 (String c2 "")) (String d1 (String d2 "")) with
      | Lt => true
      | _ => false
      end
  | _, _ => false
  end.

(** The claim C2 as it is worded: with unknown modules, [compile] aborts and
    nothing else happens: no folder is created or cleared and no [compile] of a
    module or of the interpreter is called. *)
Definition fail_fast_as_stated : Prop :=
  ∀ (setup : BuildSetup) (x_debug : bool) (s : State),
    unknown_modules setup ≠ [] →
    let r := BuildSetup.compile setup x_debug s in
    aborts r
    ∧ dirs r.2 = dirs s ∧ files r.2 = files s
    ∧ calls (trace r.2) = calls (trace s).

(** The names of an explicit module selection, as the program computes them:
    the comma-separated entries of the flattened request, without the empty
    ones, in order, a repeated name as often as it is given. *)
Definition requested_names (module_names : pyval) : list string :=
  filter (λ s, s ≠ "") (flat_map (Py.split ",") (leaves module_names)).

(** The claim C5 as it is worded: a selection that is neither ["none"],
    ["all"] nor empty resolves to its entries with duplicates removed. *)
Definition explicit_selection_as_stated : Prop :=
  ∀ (self : BuildSetup) (module_names : pyval) (s : State),
    BuildSetup.is_str module_names "none" = false →
    BuildSetup.is_str module_names "all" = false →
    truthy module_names = true →
    (BuildSetup.resolved_module_names self module_names s).1
    = Ret (explicit_names module_names).

(** What one state keeps of another when only object ids and the trace move. *)
Definition same_world (s s' : State) : Prop :=
  host s' = host s ∧ dryrun s' = dryrun s ∧ dirs s' = dirs s ∧ files s' = files s.

(** What the loop adds to the three lists for the names it walks through. *)
Definition classified (self self' : BuildSetup) (names : list string) : Prop :=
  let place := placement_of (module_builders self) (target_system self) in
  let target := target_system self in
  module_builders self' = module_builders self
  ∧ target_system self' = target_system self
  ∧ python_builder self' = python_builder self
  ∧ unknown_modules self'
    = unknown_modules self ++ filter (λ n, place n = Unknown) names
  ∧ (∃ added,
       skipped_modules self' = skipped_modules self ++ added
       ∧ builder_names added = filter (λ n, place n = Skipped) names
       ∧ Forall (λ m, is_Some (ModuleBuilder.skip_reason m target)) added)
  ∧ (∃ added,
       active_modules self' = active_modules self ++ added
       ∧ builder_names added = filter (λ n, place n = Active) names
       ∧ Forall (λ m, ModuleBuilder.skip_reason m target = None) added).

(** What a run under [captured_logs] leaves of the logging machinery: its
    handler events are none, or the attachment of one new handler followed by
    its removal; the root's handlers and the builders' handler references are
    as before. *)
Definition released (s s' : State) : Prop :=
  (∃ new,
     trace s' = trace s ++ new
     ∧ (handler_events new = []
        ∨ handler_events new
          = [EvAddHandler (next_id s); EvRemoveHandler (next_id s)]))
  ∧ root_handlers s' = root_handlers s
  ∧ log_handler s' = log_handler s
  ∧ next_id s ≤ next_id s'.

(** A stretch of the run during which at most one handler more than at its
    start is attached at any time, and after which the attached handlers and
    the builders' handler references are those of the start. *)
Definition bracketed (s s' : State) : Prop :=
  (∃ new,
     trace s' = trace s ++ new
     ∧ replay_handlers (root_handlers s) new = root_handlers s
     ∧ peak_handlers (root_handlers s) new ≤ length (root_handlers s) + 1)
  ∧ root_handlers s' = root_handlers s
  ∧ log_handler s' = log_handler s
  ∧ next_id s ≤ next_id s'.

(** The external calls recorded in a trace, in order *)
Definition ext_calls (t : list event) : list ext_call :=
  omap (λ e, match e with EvExternal c => Some c | _ => None end) t.

(** No coming external call fails. *)
Definition all_ok (answers : list ext_result) : Prop :=
  ∀ e, XRaise e ∉ answers.

(** A stretch of a run in which the methods [cs] were called and the external
    calls [xs] were made, in these orders; the coming external calls still
    succeed, and the host and the dry-run mode are unchanged. *)
Definition ran (cs : list (string * string)) (xs : list ext_call) (s s' : State) : Prop :=
  calls (trace s') = calls (trace s) ++ cs
  ∧ ext_calls (trace s') = ext_calls (trace s) ++ xs
  ∧ all_ok (externals s')
  ∧ host s' = host s
  ∧ dryrun s' = dryrun s.

(** A computation that, as long as no external call fails, returns after the
    method calls [cs] and the external calls [xs]. *)
Definition Runs (m : M unit) (cs : list (string * string)) (xs : list ext_call) : Prop :=
  ∀ s, all_ok (externals s) → ∃ s', m s = (Ret tt, s') ∧ ran cs xs s s'.

(** The method calls of a build step found under [func_name] *)
Definition build_calls (self : ModuleBuilder) (func_name : string)
    : list (string * string) :=
  if String.eqb func_name "_do_darwin_compile"
  then [ (ModuleBuilder.module_builder_name self, "_do_darwin_compile");
         (ModuleBuilder.module_builder_name self, "_do_linux_compile") ]
  else [ (ModuleBuilder.module_builder_name self, func_name) ].

(** The external calls of the configure/make protocol: configure when a
    configure program is set, then make, then make install, all from the
    folder of [_do_linux_compile]. *)
Definition protocol_calls (setup : BuildSetup) (self : ModuleBuilder) : list ext_call :=
  (if Py.truthy_str (c_configure_program (cls self))
   then [XRun (ModuleBuilder.configure_folder self)
           (default [] (ModuleBuilder.run_configure_args setup self))]
   else [])
  ++ [ XRun (ModuleBuilder.configure_folder self) (ModuleBuilder.make_command self);
       XRun (ModuleBuilder.configure_folder self)
         (ModuleBuilder.make_install_command setup self) ].

(** The block of [ModuleBuilder.compile] that runs under
    [with self.captured_logs()], on its own *)
Definition compile_steps (setup : BuildSetup) (self : ModuleBuilder) (x_debug : bool)
    : M unit :=
  there <- gets (is_dir (build_folder self)) ;;
  when (negb x_debug || negb there)
    (ModuleBuilder.unpack setup self ;;
     ModuleBuilder._setup_env setup self ;;
     ModuleBuilder._prepare self ;;
     h <- gets host ;;
     let func_name := "_do_" +:+ platform (target_system setup) +:+ "_compile" in
     match ModuleBuilder.getattr self func_name with
     | None =>
         abort ("Compiling on platform '" +:+ red h (platform (target_system setup))
                +:+ "' is not yet supported")
     | Some BuildStep => ModuleBuilder.call_build_step setup self func_name
     | Some (Generator _) => ret tt
     | Some (Data v) =>
         if truthy v then raise (Failure "TypeError")
         else abort ("Compiling on platform '"
                     +:+ red h (platform (target_system setup))
                     +:+ "' is not yet supported")
     end) ;;
  ModuleBuilder._finalize setup self ;;
  LOG INFO ("Compiled " +:+ ModuleBuilder.module_builder_name self +:+ " "
            +:+ ModuleBuilder.version setup self).

(** The name of the build-step method of the setup's platform *)
Definition dispatch_name (setup : BuildSetup) : string :=
  "_do_" +:+ platform (target_system setup) +:+ "_compile".

(** What entering and leaving [captured_logs] keep: the method and external
    calls made, the coming answers, the host, the mode and the environment. *)
Definition kept (s s' : State) : Prop :=
  calls (trace s') = calls (trace s)
  ∧ ext_calls (trace s') = ext_calls (trace s)
  ∧ externals s' = externals s
  ∧ host s' = host s
  ∧ dryrun s' = dryrun s
  ∧ environ s' = environ s.

(** The method calls of a full compilation of one module, in order *)
Definition module_calls (setup : BuildSetup) (self : ModuleBuilder)
    : list (string * string) :=
  let name := ModuleBuilder.module_builder_name self in
  [(name, "compile"); (name, "unpack"); (name, "_setup_env"); (name, "_prepare")]
  ++ build_calls self (dispatch_name setup)
  ++ [(name, "_finalize")].

(** The external calls of a full compilation of one module after the
    download: decompress, then the configure/make protocol *)
Definition module_externals (setup : BuildSetup) (self : ModuleBuilder) : list ext_call :=
  XDecompress (ModuleBuilder.download_path setup self) (build_folder self)
  :: protocol_calls setup self.

(** The download of the module's tarball, made when the tarball is not there *)
Definition fetched (setup : BuildSetup) (self : ModuleBuilder) (s : State)
    : list ext_call :=
  if path_exists (ModuleBuilder.download_path setup self) s then []
  else [XDownload (url (cls self)) (ModuleBuilder.download_path setup self)].

(** The tarball does not lie in the logs folder, where [captured_logs] creates
    and deletes files. *)
Definition tarball_apart (setup : BuildSetup) (self : ModuleBuilder) : Prop :=
  Py.startswith (ModuleBuilder.download_path setup self) (logs_folder setup) = false.

(** When the class has a configure program, the command line of
    [run_configure] can be computed and is not empty. *)
Definition configurable (setup : BuildSetup) (self : ModuleBuilder) : Prop :=
  Py.truthy_str (c_configure_program (cls self)) = true →
  ∃ argv, ModuleBuilder.run_configure_args setup self = Some argv ∧ argv ≠ [].

(** A builder the base pipeline can build on the setup's platform: none of
    its [xenv_] attributes is a build step, it has a build step for the
    platform, and its configure command line, if any, is there. *)
Definition buildable (setup : BuildSetup) (self : ModuleBuilder) : Prop :=
  exporters_only self
  ∧ ModuleBuilder.getattr self (dispatch_name setup) = Some BuildStep
  ∧ configurable setup self.

(** The condition under which [compile] does not resume: outside debug mode,
    or when the build folder is not there and is not the logs folder, which
    [captured_logs] creates before the test. *)
Definition starts_afresh (setup : BuildSetup) (self : ModuleBuilder) (x_debug : bool)
    (s : State) : Prop :=
  x_debug = false
  ∨ (is_dir (build_folder self) s = false
     ∧ (dryrun s = true ∨ build_folder self ≠ logs_folder setup)).

(** The claim C8 as it is worded: in debug mode with the build folder there,
    [compile] calls [_finalize] only; otherwise the full sequence runs. *)
Definition debug_resume_as_stated : Prop :=
  ∀ (setup : BuildSetup) (self : ModuleBuilder) (x_debug : bool) (s : State),
    let r := ModuleBuilder.compile setup self x_debug s in
    let name := ModuleBuilder.module_builder_name self in
    (x_debug = true → is_dir (build_folder self) s = true →
     calls (trace r.2) = calls (trace s) ++ [(name, "compile"); (name, "_finalize")])
    ∧ (x_debug = false ∨ is_dir (build_folder self) s = false →
       calls (trace r.2) = calls (trace s) ++ module_calls setup self).

(** The folders among [subs], relative to the folder of dependencies, that
    exist *)
Definition existing_under (c : Ctx) (subs : list string) : list string :=
  filter (λ path, ctx_is_dir c path = true) (Path.join (ctx_deps c) <$> subs).

(** The environment once [name] is set to the fragments joined, and left as it
    is when there is no fragment *)
Definition set_joined (delimiter name : string) (fragments : list string)
    (env : gmap string string) : gmap string string :=
  match fragments with
  | [] => env
  | _ => <[name := Py.join delimiter fragments]> env
  end.

(** A builder attached to the setup whose build folder is [folder] *)
Definition attached_under (folder : string) (m : ModuleBuilder) : Prop :=
  build_folder m
  = Path.join (Path.join folder "build") (ModuleBuilder.module_builder_name m).

(** The builder objects a setup holds *)
Definition builders (setup : BuildSetup) : list ModuleBuilder :=
  option_list (python_builder setup) ++ skipped_modules setup ++ active_modules setup.

(** A setup as the constructor builds it: its logs and dependencies folders
    lie in its build folder, and its builders are distinct objects created
    before the next fresh one, each attached under the build folder. *)
Definition well_attached (setup : BuildSetup) (s : State) : Prop :=
  logs_folder setup = Path.join (setup_build_folder setup) "logs"
  ∧ deps_folder setup = Path.join (setup_build_folder setup) "deps"
  ∧ Forall (attached_under (setup_build_folder setup)) (builders setup)
  ∧ Forall (λ m, oid m < next_id s) (builders setup)
  ∧ NoDup (oid <$> builders setup).

(** The state in which [BuildSetup.compile] starts the first compilation, when
    no module is unknown: the build folder ensured, the number of modules
    logged *)
Definition build_start (setup : BuildSetup) (x_debug : bool) (s : State) : State :=
  emit (EvLog INFO ("Compiling "
                    +:+ Runez.plural (length (active_modules setup)) "external module"))
    (ensure_folder (setup_build_folder setup) (negb x_debug) s).2.

(** The compilations started over a stretch of trace: the builders whose
    [compile] was called, by name, in order *)
Definition compilations (t : list event) : list string :=
  omap (λ e, match e with
             | EvCall self method =>
                 if String.eqb method "compile" then Some self else None
             | _ => None
             end) t.

(** A step during which no [compile] is called *)
Definition inner (s s' : State) : Prop :=
  ∃ new, trace s' = trace s ++ new ∧ compilations new = [].

Definition Inner {A} (m : M A) : Prop := ∀ s, inner s (m s).2.

(** * Properties *)

(** ** TargetSystem *)

Lemma partition_no_dash (s : string) :
  no_dash s → Py.partition "-" s = (s, EmptyString, EmptyString).
Proof.
  induction s as [|c t IH]; simpl; [done|].
  intros [Hc Ht]. destruct (Ascii.eqb_spec c "-"%char); [done|].
  by rewrite (IH Ht).
Qed.

Lemma partition_at_dash (plat arch : string) :
  no_dash plat → Py.partition "-" (plat +:+ "-" +:+ arch) = (plat, "-", arch).
Proof.
  induction plat as [|c t IH]; simpl; [done|].
  intros [Hc Ht]. destruct (Ascii.eqb_spec c "-"%char); [done|].
  by rewrite (IH Ht).
Qed.

Lemma truthy_str_true (s : string) : s ≠ "" → Py.truthy_str s = true.
Proof. unfold Py.truthy_str. by destruct s. Qed.

(** C10, counterexample: for the target ["-"] the platform is not taken from
    the string, it is the host's system name in lower case. *)
Lemma target_dash_counterexample : ¬ target_fallback_as_stated.
Proof.
  intros H. destruct (H Sample.linux "" I) as [_ Heq].
  vm_compute in Heq. discriminate Heq.
Qed.

(** C10, amended: a target string whose text before the first ["-"] is not
    empty gives that text as platform; the architecture is the text after the
    first ["-"] (further ["-"] included), and the host's machine architecture
    when there is no ["-"] or nothing after it. When the text before the first
    ["-"] is empty, the platform is the host's system name in lower case. *)
Theorem target_explicit (h : Host) (plat arch : string) :
  (no_dash plat → plat ≠ "" →
   Target.__init__ h (Some plat) = mkTargetSystem (machine h) plat
   ∧ Target.__init__ h (Some (plat +:+ "-")) = mkTargetSystem (machine h) plat
   ∧ (arch ≠ "" →
      Target.__init__ h (Some (plat +:+ "-" +:+ arch)) = mkTargetSystem arch plat))
  ∧ Target.__init__ h (Some ("-" +:+ arch))
    = mkTargetSystem (if Py.truthy_str arch then arch else machine h)
        (Py.lower (system h)).
Proof.
  split.
  - intros Hd Hp. unfold Target.__init__.
    assert (Hplat : Py.truthy_str plat = true) by by apply truthy_str_true.
    repeat split.
    + rewrite Hplat, partition_no_dash by done. simpl. by rewrite Hplat.
    + rewrite truthy_str_true by (by destruct plat).
      change (plat +:+ "-") with (plat +:+ "-" +:+ "").
      rewrite partition_at_dash by done. simpl. by rewrite Hplat.
    + intros Ha. rewrite truthy_str_true by (by destruct plat).
      rewrite partition_at_dash by done. simpl.
      by rewrite Hplat, (truthy_str_true arch).
  - unfold Target.__init__.
    change (Py.truthy_str ("-" +:+ arch)) with true.
    change (Py.partition "-" ("-" +:+ arch)) with ("", "-", arch).
    reflexivity.
Qed.

Lemma target_explicit_witness :
  Target.__init__ Sample.linux (Some "linux") = mkTargetSystem "x86_64" "linux"
  ∧ Target.__init__ Sample.linux (Some "linux-") = mkTargetSystem "x86_64" "linux"
  ∧ Target.__init__ Sample.linux (Some "linux-arm-v7") = mkTargetSystem "arm-v7" "linux"
  ∧ Target.__init__ Sample.linux (Some "-arm-v7") = mkTargetSystem "arm-v7" "linux"
  ∧ Target.__init__ Sample.linux (Some "-") = mkTargetSystem "x86_64" "linux".
Proof.
  destruct (target_explicit Sample.linux "linux" "arm-v7") as [H H4].
  destruct (target_explicit Sample.linux "linux" "") as [_ H5].
  destruct H as (H1 & H2 & H3).
  - simpl. repeat split; discriminate.
  - discriminate.
  - split; [exact H1|]. split; [exact H2|]. split; [apply H3; discriminate|].
    split; [exact H4 | exact H5].
Defined.

(** ** SupportedPythonVersions.validate *)

Lemma well_formed_dec (spec : PythonSpec) :
  match spec_version spec with
  | None => true
  | Some v => negb (Version.is_valid v)
  end = false ↔ well_formed spec.
Proof.
  unfold well_formed. destruct (spec_version spec) as [v|]; simpl.
  - rewrite negb_false_iff. split; [eauto|]. by intros (? & [= <-] & ?).
  - split; [done|]. by intros (? & ? & ?).
Qed.

Lemma built_final (spec : PythonSpec) :
  to_spec_built spec → (final spec ↔ well_formed spec).
Proof.
  intros Hb. split; intros (v & Hv & H); exists v; (split; [done|]).
  - by destruct v as [|? []].
  - by apply Hb.
Qed.

(** C7: for a spec as [PythonSpec.to_spec] builds it (no version is read from
    a pre-release text), validation aborts exactly when the spec has no
    well-formed final version (none, or a malformed one) or its family is
    not supported; and for any spec, a well-formed final version of a
    supported family is accepted: silently when it is in the supported list,
    with a warning and nothing else when it is not. *)
Theorem validate_contract (self : SupportedPythonVersions.t) (spec : PythonSpec)
    (s : State) :
  (to_spec_built spec →
   (aborts (SupportedPythonVersions.validate self spec s)
    ↔ ¬ final spec ∨ ¬ supported_family self spec))
  ∧ (∀ v fam,
       spec_version spec = Some v → Version.is_final v = true →
       SupportedPythonVersions.family_by_name self !! spec_family spec = Some fam →
       SupportedPythonVersions.validate self spec s
       = (Ret tt,
          if bool_decide (v ∈ SupportedPythonVersions.versions fam) then s
          else emit (EvLog WARNING
                       (spec_text spec
                        +:+ " is not in the supported list, your mileage may vary"))
                 s)).
Proof.
  split.
  - intros Hb. rewrite (built_final spec Hb).
    unfold SupportedPythonVersions.validate, SupportedPythonVersions.family,
      supported_family, aborts, bind, gets, when, abort, raise, ret.
    pose proof (well_formed_dec spec) as Hwf.
    destruct (match spec_version spec with
              | None => true | Some v => negb (Version.is_valid v) end) eqn:Hbad; simpl.
    + split; [|eauto]. intros _. left. intros Hw. apply Hwf in Hw. discriminate Hw.
    + destruct (proj1 Hwf eq_refl) as (v & Hv & Hval).
      destruct (SupportedPythonVersions.family_by_name self !! spec_family spec)
        as [fam|] eqn:Hfam; simpl.
      * rewrite Hv. split.
        -- intros [message Hm]. unfold LOG, modify in Hm.
           destruct (negb _); simpl in Hm; discriminate Hm.
        -- intros [Hn | Hn]; exfalso; apply Hn; [exists v | ]; eauto.
      * split; [|eauto]. intros _. right. by intros [? ?].
  - intros v fam Hv Hfinal Hfam.
    unfold SupportedPythonVersions.validate, SupportedPythonVersions.family,
      bind, gets, when, abort, raise, ret.
    assert (Hval : Version.is_valid v = true) by (by destruct v as [|? []]).
    rewrite Hv, Hval, Hfam. simpl.
    by destruct (bool_decide (v ∈ SupportedPythonVersions.versions fam)).
Qed.

Lemma validate_contract_witness :
  SupportedPythonVersions.validate SupportedPythonVersions.__init__
    Sample.cpython_3100 Sample.start
  = (Ret tt,
     emit (EvLog WARNING
             "cpython:3.10.0 is not in the supported list, your mileage may vary")
       Sample.start)
  ∧ aborts (SupportedPythonVersions.validate SupportedPythonVersions.__init__
              Sample.cpython_3100rc1 Sample.start).
Proof.
  split.
  - refine (proj2 (validate_contract SupportedPythonVersions.__init__
                     Sample.cpython_3100 Sample.start)
              (Version.Parsed [3; 10; 0] None)
              (SupportedPythonVersions.mkPythonVersions "cpython"
                 SupportedPythonVersions.CPYTHON_VERSIONS) _ _ _).
    + reflexivity.
    + reflexivity.
    + vm_compute. reflexivity.
  - apply (proj1 (validate_contract SupportedPythonVersions.__init__
                    Sample.cpython_3100rc1 Sample.start)).
    + intros v Hv. discriminate Hv.
    + left. intros (v & Hv & _). discriminate Hv.
Defined.

(** ** BuildSetup._get_logs_path *)

Lemma _get_logs_path_counter (self : BuildSetup) (name : string) (s : State) :
  ∃ s', _get_logs_path self name s
        = (Ret (Path.join (logs_folder self) (log_basename (S (log_counter s)) name)), s')
        ∧ log_counter s' = S (log_counter s).
Proof.
  unfold _get_logs_path, bind, ensure_folder, delete_file, modify, gets, ret.
  destruct (dryrun s) eqn:Hd; repeat (cbn; rewrite ?Hd); eexists; split; reflexivity.
Qed.

Lemma allocate_logs_paths (self : BuildSetup) (names : list string) (s : State) :
  (allocate_logs self names s).1
  = Ret (expected_logs (logs_folder self) (log_counter s) names).
Proof.
  revert s. induction names as [|name rest IH]; intros s; [done|].
  simpl. unfold bind at 1.
  destruct (_get_logs_path_counter self name s) as (s' & -> & Hc).
  unfold bind at 1. specialize (IH s').
  destruct (allocate_logs self rest s') as [[paths|e] s'']; simpl in *.
  - injection IH as ->. by rewrite Hc.
  - discriminate IH.
Qed.

(** C6: the hundredth compilation of one setup gets the file name
    [100-m.log], which sorts before the eleventh's [11-m.log]: the sorted list
    of the hundred log files is not the list in order of execution. *)
Theorem log_order_broken_at_100 :
  ∃ paths p11 p100,
    (allocate_logs (Sample.setup_for Sample.on_linux []) (replicate 100 "m")
       Sample.start).1 = Ret paths
    ∧ paths !! 10 = Some p11
    ∧ paths !! 99 = Some p100
    ∧ String.ltb p100 p11 = true
    ∧ Py.sorted paths ≠ paths.
Proof.
  eexists _, _, _. rewrite allocate_logs_paths.
  split; [reflexivity|].
  split; [vm_compute; reflexivity|].
  split; [vm_compute; reflexivity|].
  split; [vm_compute; reflexivity|].
  vm_compute. discriminate.
Qed.

Lemma compare_common_prefix (p a b : string) :
  String.compare (p +:+ a) (p +:+ b) = String.compare a b.
Proof.
  induction p as [|c p IH]; [done|].
  simpl. unfold Ascii.compare. by rewrite N.compare_refl.
Qed.

Lemma compare_two_chars (c1 c2 d1 d2 : ascii) (r1 r2 : string) :
  String.compare (String c1 (String c2 "")) (String d1 (String d2 "")) = Lt →
  String.compare (String c1 (String c2 r1)) (String d1 (String d2 r2)) = Lt.
Proof.
  simpl. destruct (Ascii.compare c1 d1); [|done..].
  by destruct (Ascii.compare c2 d2).
Qed.

Lemma two_digits_table :
  forallb (λ j, forallb (λ i, two_digits_ordered i j) (seq 0 j)) (seq 0 100) = true.
Proof. vm_compute. reflexivity. Qed.

Lemma log_basename_lt (i j : nat) (n1 n2 : string) :
  (i < j)%nat → (j ≤ 99)%nat →
  String.compare (log_basename i n1) (log_basename j n2) = Lt.
Proof.
  intros Hij Hj.
  assert (Hb : two_digits_ordered i j = true).
  { pose proof two_digits_table as Ht.
    rewrite forallb_forall in Ht.
    specialize (Ht j). rewrite forallb_forall in Ht.
    apply Ht; apply in_seq; lia. }
  unfold two_digits_ordered in Hb. unfold log_basename.
  destruct (Py.format_02 i) as [|c1 [|c2 [|]]]; try discriminate Hb.
  destruct (Py.format_02 j) as [|d1 [|d2 [|]]]; try discriminate Hb.
  apply compare_two_chars.
  by destruct (String.compare _ _).
Qed.

(** Up to ninety-nine compilations the file names do sort in order of
    execution, whatever the module names. *)
Lemma expected_logs_sorted (folder : string) (names : list string) (counter : nat) :
  (counter + length names ≤ 99)%nat →
  StronglySorted (λ a b, String.compare a b = Lt) (expected_logs folder counter names).
Proof.
  revert counter. induction names as [|name rest IH]; intros counter Hlen; simpl.
  - constructor.
  - constructor; [apply IH; simpl in Hlen; lia|].
    simpl in Hlen.
    assert (Hall : ∀ k rest', (S counter ≤ k)%nat → (k + length rest' ≤ 99)%nat →
              Forall (λ b, String.compare
                             (Path.join folder (log_basename (S counter) name)) b = Lt)
                (expected_logs folder k rest')).
    { intros k rest'. revert k. induction rest' as [|n' rest' IH']; intros k Hk Hl; simpl.
      - constructor.
      - simpl in Hl. constructor; [|apply IH'; lia].
        unfold Path.join. rewrite !compare_common_prefix.
        apply log_basename_lt; lia. }
    apply Hall; lia.
Qed.

(** ** runez.joined on a flat list of strings *)

Lemma flatten_strings (keep : Runez.keep_empty) (l : list string) (acc : list Runez.leaf) :
  keep ≠ Runez.KeepNone →
  fold_left (λ acc item, Runez._flatten keep None false acc item) (PStr <$> l) acc
  = acc ++ (Some <$> l).
Proof.
  intros Hk. revert acc. induction l as [|x l IH]; intros acc; simpl.
  - by rewrite app_nil_r.
  - rewrite IH. unfold Runez.flatten_piece, Runez.push.
    destruct keep; [| |done]; simpl; by rewrite <- app_assoc.
Qed.

Lemma joined_strings (l : list string) (delimiter : string)
    (stringify : Runez.leaf → string) :
  Runez.joined (PSeq (PStr <$> l)) delimiter Runez.KeepTrue stringify
  = Py.join delimiter ((λ x, stringify (Some x)) <$> l).
Proof.
  unfold Runez.joined, Runez.flattened. simpl.
  rewrite flatten_strings by done. simpl.
  by rewrite <- list_fmap_compose.
Qed.

(** ** BuildSetup.compile with unknown modules *)

(** C2, counterexample: compiling a setup whose request named the unregistered
    module [zlib] creates the build folder before it aborts. *)
Lemma fail_fast_counterexample : ¬ fail_fast_as_stated.
Proof.
  intros H.
  destruct (H (Sample.setup_for Sample.on_linux ["zlib"]) false Sample.start)
    as (_ & Hdirs & _); [discriminate|].
  assert (Hin : "/work/build/cpython-3.9.6" ∈ dirs Sample.start).
  { rewrite <- Hdirs. vm_compute. set_solver. }
  vm_compute in Hin. set_solver.
Qed.

(** C2, amended: with unknown modules, [compile] first ensures the build folder
    (created, and cleared unless in debug mode), then aborts with a message
    naming every unknown module; nothing else happens, in particular no
    [compile] of a module or of the interpreter is called. *)
Theorem compile_unknown_modules (setup : BuildSetup) (x_debug : bool) (s : State) :
  unknown_modules setup ≠ [] →
  let r := BuildSetup.compile setup x_debug s in
  r = (Raise (Abort ("Unknown modules: "
                     +:+ Py.join ", " (red (host s) <$> unknown_modules setup))),
       (ensure_folder (setup_build_folder setup) (negb x_debug) s).2)
  ∧ trace r.2 = trace s ++ [EvEnsureFolder (setup_build_folder setup) (negb x_debug)]
  ∧ calls (trace r.2) = calls (trace s)
  ∧ (dryrun s = false → setup_build_folder setup ∈ dirs r.2).
Proof.
  intros Hu. unfold BuildSetup.compile.
  destruct (unknown_modules setup) as [|u us] eqn:Hus; [done|].
  unfold bind, ensure_folder, modify, gets, abort, raise.
  rewrite joined_strings. cbn zeta.
  assert (Hhost : ∀ b, host (if dryrun s then emit (EvEnsureFolder (setup_build_folder setup) b) s
                  else set_dirs (λ d, {[setup_build_folder setup]} ∪ d)
                         (if b then set_files (filter (λ p, ¬ under (setup_build_folder setup) p))
                                     (set_dirs (filter (λ p, ¬ under (setup_build_folder setup) p))
                                        (emit (EvEnsureFolder (setup_build_folder setup) b) s))
                          else emit (EvEnsureFolder (setup_build_folder setup) b) s)) = host s).
  { intros b. by destruct (dryrun s), b. }
  cbn. rewrite Hhost.
  split; [done|]. cbn.
  split; [by destruct (dryrun s), x_debug|].
  split.
  - destruct (dryrun s), x_debug; cbn; unfold calls; rewrite omap_app; cbn;
      by rewrite app_nil_r.
  - intros ->. destruct x_debug; cbn; set_solver.
Qed.

Lemma compile_unknown_modules_witness :
  (BuildSetup.compile (Sample.setup_for Sample.on_linux ["zlib"; "lzma"]) false
     Sample.start).1
  = Raise (Abort "Unknown modules: zlib, lzma").
Proof.
  pose proof (compile_unknown_modules
                (Sample.setup_for Sample.on_linux ["zlib"; "lzma"]) false Sample.start)
    as H.
  destruct H as (H & _); [discriminate|].
  rewrite H. reflexivity.
Defined.

(** ** runez.flattened: explicit module selections *)

Lemma flatten_leaves (keep : Runez.keep_empty) (split : option ascii) (unique : bool)
    (v : pyval) (acc : list Runez.leaf) :
  keep ≠ Runez.KeepTrue →
  Runez._flatten keep split unique acc v
  = fold_left (Runez.flatten_piece keep unique)
      (flat_map (Runez.pieces split) (leaves v)) acc.
Proof.
  intros Hk. revert acc.
  induction v as [| s | items IH] using pyval_ind'; intros acc; simpl.
  - by destruct keep.
  - by rewrite app_nil_r.
  - revert acc. induction IH as [|x rest Hx _ IHrest]; intros acc; simpl; [done|].
    rewrite IHrest, Hx, flat_map_app, fold_left_app. done.
Qed.

Lemma flat_map_pieces_whole (l : list string) : flat_map (Runez.pieces None) l = l.
Proof. induction l as [|x l IH]; simpl; by f_equal. Qed.

Lemma fold_flatten_piece_all (ps acc : list string) :
  fold_left (Runez.flatten_piece Runez.KeepNone false) ps (Some <$> acc)
  = Some <$> (acc ++ filter (λ s, s ≠ "") ps).
Proof.
  revert acc. induction ps as [|p ps IH]; intros acc; cbn [fold_left].
  - by rewrite app_nil_r.
  - unfold Runez.flatten_piece at 2, Runez.push.
    destruct (String.eqb_spec p "") as [->|Hp]; simpl.
    + rewrite IH. by rewrite filter_cons_False by (by intros H; apply H).
    + change (?l ++ [Some p]) with (l ++ (Some <$> [p])).
      rewrite <- fmap_app, IH, <- app_assoc.
      by rewrite (filter_cons_True (λ s, s ≠ "")) by done.
Qed.

(** Without [unique], what is flattened is every non-empty piece, in order. *)
Lemma flattened_pieces (v : pyval) (split : option ascii) :
  Runez.flattened v Runez.KeepNone split false
  = Some <$> filter (λ s, s ≠ "") (flat_map (Runez.pieces split) (leaves v)).
Proof.
  unfold Runez.flattened. rewrite flatten_leaves by done.
  change (@nil Runez.leaf) with (Some <$> @nil string).
  by rewrite fold_flatten_piece_all.
Qed.

Lemma filter_all {A} (P : A → Prop) `{∀ x, Decision (P x)} (l : list A) :
  (∀ x, x ∈ l → P x) → filter P l = l.
Proof.
  induction l as [|x l IH]; intros Hall; [done|].
  rewrite filter_cons_True by (apply Hall; left).
  f_equal. apply IH. intros y Hy. apply Hall. by right.
Qed.

Lemma omap_id_Some {A} (l : list A) : omap id (Some <$> l) = l.
Proof. induction l as [|x l IH]; [done|]. cbn. by f_equal. Qed.

(** ** The registry *)

Lemma assoc_dict_set {A} (k k' : string) (v : A) (d : list (string * A)) :
  assoc k (AvailableBuilders.dict_set k' v d)
  = if String.eqb k' k then Some v else assoc k d.
Proof.
  induction d as [|[k0 v0] d IH]; simpl.
  - done.
  - destruct (String.eqb_spec k0 k') as [->|Hne]; simpl.
    + by destruct (String.eqb k' k).
    + destruct (String.eqb_spec k0 k) as [->|Hne'].
      * by rewrite (proj2 (String.eqb_neq k' k)) by done.
      * done.
Qed.

Lemma declared_empty (category : string) : declared (AvailableBuilders.mk category []).
Proof. intros name c H. discriminate H. Qed.

Lemma declared_declare (registry : AvailableBuilders.t) (c : ModuleClass) :
  declared registry → declared (AvailableBuilders.declare registry c).
Proof.
  intros Hd name c'. unfold AvailableBuilders.declare. simpl.
  rewrite assoc_dict_set.
  destruct (String.eqb_spec (AvailableBuilders.module_builder_name c) name) as [<-|Hne].
  - by intros [= <-].
  - apply Hd.
Qed.

Lemma declared_db : declared Db.module_builders.
Proof. unfold Db.module_builders. repeat apply declared_declare. apply declared_empty. Qed.

Lemma assoc_keys {A} (k : string) (d : list (string * A)) :
  k ∈ (fst <$> d) → is_Some (assoc k d).
Proof.
  induction d as [|[k0 v0] d IH]; simpl.
  - intros H. by apply elem_of_nil in H.
  - intros H. destruct (String.eqb_spec k0 k) as [->|Hne]; [eauto|].
    apply elem_of_cons in H as [->|H]; [done|]. by apply IH.
Qed.

(** ** Skip reasons *)

Lemma skip_reason_class (m : ModuleBuilder) (target : TargetSystem) :
  ModuleBuilder.skip_reason m target = class_skip_reason (cls m) target.
Proof. reflexivity. Qed.

Lemma truthy_only (x : string) : Py.truthy_str (x +:+ " only") = true.
Proof. by destruct x. Qed.

Lemma skip_reason_truthy (m : ModuleBuilder) (target : TargetSystem) :
  Py.truthy_opt (ModuleBuilder.skip_reason m target)
  = bool_decide (is_Some (ModuleBuilder.skip_reason m target)).
Proof.
  unfold ModuleBuilder.skip_reason.
  destruct (needs_platforms (cls m)); [done|].
  destruct (negb _); [|done]. simpl. by rewrite truthy_only.
Qed.

(** A module is skipped exactly when it is restricted to platforms that do
    not include the target's. *)
Lemma skip_reason_iff (m : ModuleBuilder) (target : TargetSystem) :
  is_Some (ModuleBuilder.skip_reason m target)
  ↔ needs_platforms (cls m) ≠ [] ∧ platform target ∉ needs_platforms (cls m).
Proof.
  unfold ModuleBuilder.skip_reason, Target.is_applicable.
  destruct (needs_platforms (cls m)) as [|p ps].
  - split; [by intros [? ?]|]. by intros [? _].
  - destruct (bool_decide_reflect (platform target ∈ p :: ps)); simpl.
    + split; [by intros [? ?]|]. by intros [_ ?].
    + split; [done|eauto].
Qed.

(** ** The classification loop of the constructor *)

Lemma get_builder_lookup (registry : AvailableBuilders.t) (folder name : string)
    (s : State) :
  AvailableBuilders.get_builder registry folder name s
  = match assoc name (AvailableBuilders.available registry) with
    | Some c =>
        (Ret (Some (mkModuleBuilder (next_id s) c
                      (Path.join (Path.join folder "build")
                         (AvailableBuilders.module_builder_name c)))),
         set_next_id S s)
    | None => (Ret None, s)
    end.
Proof. unfold AvailableBuilders.get_builder. by destruct (assoc _ _). Qed.

Lemma same_world_refl (s : State) : same_world s s.
Proof. by repeat split. Qed.

Lemma same_world_trans (s1 s2 s3 : State) :
  same_world s1 s2 → same_world s2 s3 → same_world s1 s3.
Proof. unfold same_world. intros (?&?&?&?) (?&?&?&?). repeat split; congruence. Qed.

Lemma classify_one (self : BuildSetup) (name : string) (s : State) :
  declared (module_builders self) →
  ∃ self' s',
    BuildSetup.classify self name s = (Ret self', s')
    ∧ same_world s s'
    ∧ classified self self' [name].
Proof.
  intros Hd. unfold BuildSetup.classify, bind.
  rewrite get_builder_lookup.
  unfold classified.
  set (place := placement_of (module_builders self) (target_system self)).
  rewrite !(filter_singleton _ name []).
  assert (Hplace : place name = placement_of (module_builders self) (target_system self) name)
    by done.
  unfold placement_of in Hplace.
  destruct (assoc name (AvailableBuilders.available (module_builders self)))
    as [c|] eqn:Hc.
  - rewrite skip_reason_truthy, skip_reason_class. cbn [cls].
    destruct (class_skip_reason c (target_system self)) as [reason|] eqn:Hr.
    + rewrite bool_decide_eq_true_2 by eauto. rewrite Hplace.
      eexists _, _. split; [reflexivity|]. split; [by repeat split|].
      cbn. rewrite ?app_nil_r.
      repeat split; try done.
      * eexists [_]. split; [done|]. split.
        -- cbn. unfold ModuleBuilder.module_builder_name. cbn. by rewrite (Hd _ _ Hc).
        -- constructor; [|constructor]. rewrite skip_reason_class. cbn. by rewrite Hr.
      * exists []. by rewrite app_nil_r.
    + rewrite bool_decide_eq_false_2 by (by intros [? ?]). rewrite Hplace.
      eexists _, _. split; [reflexivity|]. split; [by repeat split|].
      cbn. rewrite ?app_nil_r.
      repeat split; try done.
      * exists []. by rewrite app_nil_r.
      * eexists [_]. split; [done|]. split.
        -- cbn. unfold ModuleBuilder.module_builder_name. cbn. by rewrite (Hd _ _ Hc).
        -- constructor; [|constructor]. rewrite skip_reason_class. cbn. by rewrite Hr.
  - rewrite Hplace.
    eexists _, _. split; [reflexivity|]. split; [apply same_world_refl|].
    cbn. rewrite ?app_nil_r.
    repeat split; try done; exists []; by rewrite app_nil_r.
Qed.

Lemma classified_nil (self : BuildSetup) : classified self self [].
Proof.
  unfold classified. rewrite !filter_nil, app_nil_r.
  repeat split; try done; exists []; by rewrite app_nil_r.
Qed.

Lemma classified_app (self self1 self2 : BuildSetup) (l1 l2 : list string) :
  classified self self1 l1 → classified self1 self2 l2 →
  classified self self2 (l1 ++ l2).
Proof.
  unfold classified.
  intros (Hm1 & Ht1 & Hp1 & Hu1 & (sk1 & Hs1 & Hsn1 & Hsf1) & (ac1 & Ha1 & Han1 & Haf1)).
  rewrite Hm1, Ht1.
  intros (Hm2 & Ht2 & Hp2 & Hu2 & (sk2 & Hs2 & Hsn2 & Hsf2) & (ac2 & Ha2 & Han2 & Haf2)).
  rewrite !filter_app.
  split; [done|]. split; [done|]. split; [congruence|].
  split; [by rewrite Hu2, Hu1, app_assoc|].
  split.
  - exists (sk1 ++ sk2). rewrite Hs2, Hs1, app_assoc. split; [done|].
    split; [unfold builder_names in *; by rewrite fmap_app, Hsn1, Hsn2|].
    by apply Forall_app.
  - exists (ac1 ++ ac2). rewrite Ha2, Ha1, app_assoc. split; [done|].
    split; [unfold builder_names in *; by rewrite fmap_app, Han1, Han2|].
    by apply Forall_app.
Qed.

Lemma classify_all_classified (names : list string) (self : BuildSetup) (s : State) :
  declared (module_builders self) →
  ∃ self' s',
    BuildSetup.classify_all self names s = (Ret self', s')
    ∧ same_world s s'
    ∧ classified self self' names.
Proof.
  revert self s. induction names as [|name rest IH]; intros self s Hd; simpl.
  - eexists _, _. split; [reflexivity|].
    split; [apply same_world_refl | apply classified_nil].
  - unfold bind.
    destruct (classify_one self name s Hd) as (self1 & s1 & -> & Hw1 & Hc1).
    assert (Hd1 : declared (module_builders self1)).
    { destruct Hc1 as (-> & _). done. }
    destruct (IH self1 s1 Hd1) as (self2 & s2 & -> & Hw2 & Hc2).
    eexists _, _. split; [reflexivity|].
    split; [by eapply same_world_trans|].
    by apply (classified_app self self1 self2 [name] rest).
Qed.

(** ** Resolving the module selection *)

Lemma resolved_module_names_pure (self : BuildSetup) (module_names : pyval) (s : State) :
  ∃ names, BuildSetup.resolved_module_names self module_names s = (Ret names, s).
Proof.
  unfold BuildSetup.resolved_module_names, ret, gets.
  destruct (BuildSetup.is_str module_names "none"); [eauto|].
  destruct (BuildSetup.is_str module_names "all"); [eauto|].
  destruct (negb (truthy module_names)); eauto.
Qed.

Lemma resolved_module_names_frame (self1 self2 : BuildSetup) (module_names : pyval)
    (s1 s2 : State) :
  module_builders self1 = module_builders self2 →
  target_system self1 = target_system self2 →
  dirs s1 = dirs s2 → files s1 = files s2 →
  (BuildSetup.resolved_module_names self1 module_names s1).1
  = (BuildSetup.resolved_module_names self2 module_names s2).1.
Proof.
  intros Hm Ht Hd Hf.
  unfold BuildSetup.resolved_module_names, ret, gets.
  rewrite Hm, Ht.
  destruct (BuildSetup.is_str module_names "none"); [done|].
  destruct (BuildSetup.is_str module_names "all"); [done|].
  destruct (negb (truthy module_names)); [|done].
  simpl. f_equal. unfold BuildSetup.without_telltale. f_equal.
  apply list_filter_iff. intros item.
  unfold ModuleBuilder.existing_telltale, path_exists. by rewrite Hd, Hf.
Qed.

Lemma resolve_none (self : BuildSetup) (s : State) :
  BuildSetup.resolved_module_names self (PStr "none") s = (Ret [], s).
Proof. reflexivity. Qed.

Lemma resolve_all (self : BuildSetup) (s : State) :
  BuildSetup.resolved_module_names self (PStr "all") s
  = (Ret (AvailableBuilders.keys (module_builders self)), s).
Proof. reflexivity. Qed.

Lemma resolve_explicit (self : BuildSetup) (module_names : pyval) (s : State) :
  BuildSetup.is_str module_names "none" = false →
  BuildSetup.is_str module_names "all" = false →
  truthy module_names = true →
  BuildSetup.resolved_module_names self module_names s
  = (Ret (requested_names module_names), s).
Proof.
  intros Hn Ha Ht. unfold BuildSetup.resolved_module_names, requested_names.
  by rewrite Hn, Ha, Ht, flattened_pieces, omap_id_Some.
Qed.

(** ** The constructor *)

Lemma validate_same_world (self : SupportedPythonVersions.t) (spec : PythonSpec)
    (s : State) :
  same_world s (SupportedPythonVersions.validate self spec s).2.
Proof.
  unfold SupportedPythonVersions.validate, SupportedPythonVersions.family,
    bind, gets, when, abort, raise, ret, LOG, modify.
  destruct (match spec_version spec with
            | None => true | Some v => negb (Version.is_valid v) end);
    simpl; [apply same_world_refl|].
  destruct (SupportedPythonVersions.family_by_name self !! spec_family spec); simpl;
    [|apply same_world_refl].
  destruct (spec_version spec); simpl; [|apply same_world_refl].
  destruct (negb _); simpl; by repeat split.
Qed.

(** What the constructor returns once the spec has passed validation, for a
    build folder whose path holds no space. *)
Lemma init_classified (supported : SupportedPythonVersions.t)
    (registry python_builders : AvailableBuilders.t) (pfx : option string)
    (spec : PythonSpec) (modules : pyval) (build_folder dist_folder : string)
    (target : option string) (s : State) :
  declared registry →
  (SupportedPythonVersions.validate supported spec s).1 = Ret tt →
  Py.contains " " build_folder = false →
  ∃ setup s' names,
    BuildSetup.__init__ supported registry python_builders pfx spec modules
      build_folder dist_folder target s = (Ret setup, s')
    ∧ (BuildSetup.resolved_module_names setup modules s).1 = Ret names
    ∧ module_builders setup = registry
    ∧ target_system setup = Target.__init__ (host s) target
    ∧ (let place := placement_of registry (target_system setup) in
       unknown_modules setup = filter (λ n, place n = Unknown) names
       ∧ builder_names (skipped_modules setup) = filter (λ n, place n = Skipped) names
       ∧ builder_names (active_modules setup) = filter (λ n, place n = Active) names)
    ∧ Forall (λ m, is_Some (ModuleBuilder.skip_reason m (target_system setup)))
        (skipped_modules setup)
    ∧ Forall (λ m, ModuleBuilder.skip_reason m (target_system setup) = None)
        (active_modules setup).
Proof.
  intros Hd Hv Hsp. unfold BuildSetup.__init__.
  unfold bind at 1.
  pose proof (validate_same_world supported spec s) as Hw0.
  destruct (SupportedPythonVersions.validate supported spec s) as [[[]|e] s0];
    [|discriminate Hv]. simpl in Hw0.
  unfold bind at 1. unfold gets at 1.
  unfold bind at 1. unfold modify at 1.
  rewrite Hsp. unfold when. unfold bind at 1. unfold ret at 1.
  unfold bind at 1. rewrite get_builder_lookup.
  assert (Hfin : ∀ (sbf dist deps dl logs : string) (pb : option ModuleBuilder)
                   (s2 : State), same_world s0 s2 →
    ∃ setup s' names,
      (modules0 <- BuildSetup.resolved_module_names
                     (mkBuildSetup spec (Target.__init__ (host s0) target) sbf dist
                        deps dl logs registry pb [] [] [] pfx) modules ;;
       BuildSetup.classify_all
         (mkBuildSetup spec (Target.__init__ (host s0) target) sbf dist
            deps dl logs registry pb [] [] [] pfx) modules0) s2 = (Ret setup, s')
      ∧ (BuildSetup.resolved_module_names setup modules s).1 = Ret names
      ∧ module_builders setup = registry
      ∧ target_system setup = Target.__init__ (host s) target
      ∧ (let place := placement_of registry (target_system setup) in
         unknown_modules setup = filter (λ n, place n = Unknown) names
         ∧ builder_names (skipped_modules setup) = filter (λ n, place n = Skipped) names
         ∧ builder_names (active_modules setup) = filter (λ n, place n = Active) names)
      ∧ Forall (λ m, is_Some (ModuleBuilder.skip_reason m (target_system setup)))
          (skipped_modules setup)
      ∧ Forall (λ m, ModuleBuilder.skip_reason m (target_system setup) = None)
          (active_modules setup)).
  { intros sbf dist deps dl logs pb s2 Hw2.
    set (self0 := mkBuildSetup spec (Target.__init__ (host s0) target) sbf dist
                    deps dl logs registry pb [] [] [] pfx).
    unfold bind at 1.
    destruct (resolved_module_names_pure self0 modules s2) as [names Hn]. rewrite Hn.
    destruct (classify_all_classified names self0 s2 Hd)
      as (setup & s' & -> & Hw & Hm & Ht & _ & Hu & (sk & Hsk & Hskn & Hskf)
          & (ac & Hac & Hacn & Hacf)).
    simpl in Hm, Ht, Hu, Hsk, Hskn, Hskf, Hac, Hacn, Hacf.
    exists setup, s', names.
    destruct Hw0 as (Hh0 & _ & Hd0 & Hf0). destruct Hw2 as (_ & _ & Hd2 & Hf2).
    split; [done|]. split.
    { rewrite (resolved_module_names_frame setup self0 modules s s2); try done;
        [by rewrite Hn | congruence | congruence]. }
    split; [done|]. split; [by rewrite Ht, Hh0|].
    rewrite Ht, Hsk, Hac. by repeat split. }
  destruct (assoc (spec_family spec) (AvailableBuilders.available python_builders));
    apply Hfin; by repeat split.
Qed.

Lemma placement_partition (place : string → placement) (names : list string) :
  filter (λ n, place n = Unknown) names
  ++ filter (λ n, place n = Skipped) names
  ++ filter (λ n, place n = Active) names
  ≡ₚ names.
Proof.
  induction names as [|x names IH]; [done|].
  destruct (place x) eqn:Hx.
  - rewrite (filter_cons_False (λ n, place n = Unknown)) by (rewrite Hx; done).
    rewrite (filter_cons_False (λ n, place n = Skipped)) by (rewrite Hx; done).
    rewrite (filter_cons_True (λ n, place n = Active)) by done.
    rewrite app_assoc, <- Permutation_middle, <- app_assoc. by constructor.
  - rewrite (filter_cons_False (λ n, place n = Unknown)) by (rewrite Hx; done).
    rewrite (filter_cons_True (λ n, place n = Skipped)) by done.
    rewrite (filter_cons_False (λ n, place n = Active)) by (rewrite Hx; done).
    rewrite <- app_comm_cons, <- Permutation_middle. by constructor.
  - rewrite (filter_cons_True (λ n, place n = Unknown)) by done.
    rewrite (filter_cons_False (λ n, place n = Skipped)) by (rewrite Hx; done).
    rewrite (filter_cons_False (λ n, place n = Active)) by (rewrite Hx; done).
    rewrite <- app_comm_cons. by constructor.
Qed.

Lemma filter_none {A} (P : A → Prop) `{∀ x, Decision (P x)} (l : list A) :
  (∀ x, x ∈ l → ¬ P x) → filter P l = [].
Proof.
  induction l as [|x l IH]; intros Hall; [done|].
  rewrite filter_cons_False by (apply Hall; left).
  apply IH. intros y Hy. apply Hall. by right.
Qed.

(** C1: once the spec has passed validation, for a build folder whose path
    holds no space (the constructor aborts otherwise) and a registry in which
    every class stands under its own builder name, as [declare] enters it,
    the constructor returns a setup whose three lists split the resolved names
    by the rule of [placement_of]: unregistered names in [unknown_modules],
    registered names whose builder reports a skip reason in
    [skipped_modules], the other registered names in [active_modules], each
    list in resolution order; together they hold exactly the resolved names,
    a name resolved twice being entered twice in its list, and no name is in
    two lists. *)
Theorem classification_partition (supported : SupportedPythonVersions.t)
    (registry python_builders : AvailableBuilders.t) (pfx : option string)
    (spec : PythonSpec) (modules : pyval) (build_folder dist_folder : string)
    (target : option string) (s : State) :
  declared registry →
  (SupportedPythonVersions.validate supported spec s).1 = Ret tt →
  Py.contains " " build_folder = false →
  ∃ setup s' names,
    BuildSetup.__init__ supported registry python_builders pfx spec modules
      build_folder dist_folder target s = (Ret setup, s')
    ∧ (BuildSetup.resolved_module_names setup modules s).1 = Ret names
    ∧ let place := placement_of registry (target_system setup) in
      let unknown := unknown_modules setup in
      let skipped := builder_names (skipped_modules setup) in
      let active := builder_names (active_modules setup) in
      unknown = filter (λ n, place n = Unknown) names
      ∧ skipped = filter (λ n, place n = Skipped) names
      ∧ active = filter (λ n, place n = Active) names
      ∧ Forall (λ m, is_Some (ModuleBuilder.skip_reason m (target_system setup)))
          (skipped_modules setup)
      ∧ Forall (λ m, ModuleBuilder.skip_reason m (target_system setup) = None)
          (active_modules setup)
      ∧ unknown ++ skipped ++ active ≡ₚ names
      ∧ ∀ n,
          (n ∈ names → n ∈ unknown ∨ n ∈ skipped ∨ n ∈ active)
          ∧ ¬ (n ∈ unknown ∧ n ∈ skipped)
          ∧ ¬ (n ∈ unknown ∧ n ∈ active)
          ∧ ¬ (n ∈ skipped ∧ n ∈ active).
Proof.
  intros Hd Hv Hsp.
  destruct (init_classified supported registry python_builders pfx spec modules
              build_folder dist_folder target s Hd Hv Hsp)
    as (setup & s' & names & Hinit & Hnames & _ & _ & (Hu & Hs & Ha) & Hsf & Haf).
  exists setup, s', names. split; [done|]. split; [done|].
  cbn zeta. rewrite Hu, Hs, Ha.
  split; [done|]. split; [done|]. split; [done|]. split; [done|]. split; [done|].
  split; [apply placement_partition|].
  intros n. rewrite !list_elem_of_filter.
  split; [|split; [|split]].
  - intros Hn. destruct (placement_of registry (target_system setup) n); tauto.
  - intros [[H1 _] [H2 _]]. congruence.
  - intros [[H1 _] [H2 _]]. congruence.
  - intros [[H1 _] [H2 _]]. congruence.
Qed.

Lemma classification_partition_witness :
  ∃ setup s' names,
    BuildSetup.__init__ SupportedPythonVersions.__init__ Db.module_builders
      Sample.python_builders None Sample.cpython_396 (PStr "gdbm,zlib,bdb,gdbm")
      "/work/build" "/work/dist" (Some "darwin-arm64") Sample.start = (Ret setup, s')
    ∧ (BuildSetup.resolved_module_names setup (PStr "gdbm,zlib,bdb,gdbm")
         Sample.start).1 = Ret names
    ∧ let place := placement_of Db.module_builders (target_system setup) in
      let unknown := unknown_modules setup in
      let skipped := builder_names (skipped_modules setup) in
      let active := builder_names (active_modules setup) in
      unknown = filter (λ n, place n = Unknown) names
      ∧ skipped = filter (λ n, place n = Skipped) names
      ∧ active = filter (λ n, place n = Active) names
      ∧ Forall (λ m, is_Some (ModuleBuilder.skip_reason m (target_system setup)))
          (skipped_modules setup)
      ∧ Forall (λ m, ModuleBuilder.skip_reason m (target_system setup) = None)
          (active_modules setup)
      ∧ unknown ++ skipped ++ active ≡ₚ names
      ∧ ∀ n,
          (n ∈ names → n ∈ unknown ∨ n ∈ skipped ∨ n ∈ active)
          ∧ ¬ (n ∈ unknown ∧ n ∈ skipped)
          ∧ ¬ (n ∈ unknown ∧ n ∈ active)
          ∧ ¬ (n ∈ skipped ∧ n ∈ active).
Proof.
  apply classification_partition.
  - apply declared_db.
  - reflexivity.
  - reflexivity.
Defined.

(** C4: once the spec has passed validation, for a build folder whose path
    holds no space (the constructor aborts otherwise) and a registry in which
    every class stands under its own builder name, as [declare] enters it,
    the selection ["none"] resolves to no name and leaves the three lists
    empty; the selection ["all"] resolves to every registered name, none of
    which is unknown: each is skipped or active. *)
Theorem none_and_all (supported : SupportedPythonVersions.t)
    (registry python_builders : AvailableBuilders.t) (pfx : option string)
    (spec : PythonSpec) (build_folder dist_folder : string) (target : option string)
    (s : State) :
  declared registry →
  (SupportedPythonVersions.validate supported spec s).1 = Ret tt →
  Py.contains " " build_folder = false →
  (∃ setup s',
     BuildSetup.__init__ supported registry python_builders pfx spec (PStr "none")
       build_folder dist_folder target s = (Ret setup, s')
     ∧ (BuildSetup.resolved_module_names setup (PStr "none") s).1 = Ret []
     ∧ active_modules setup = [] ∧ skipped_modules setup = []
     ∧ unknown_modules setup = [])
  ∧ (∃ setup s',
       BuildSetup.__init__ supported registry python_builders pfx spec (PStr "all")
         build_folder dist_folder target s = (Ret setup, s')
       ∧ (BuildSetup.resolved_module_names setup (PStr "all") s).1
         = Ret (AvailableBuilders.keys registry)
       ∧ unknown_modules setup = []
       ∧ builder_names (skipped_modules setup)
         = filter (λ n, placement_of registry (target_system setup) n = Skipped)
             (AvailableBuilders.keys registry)
       ∧ builder_names (active_modules setup)
         = filter (λ n, placement_of registry (target_system setup) n = Active)
             (AvailableBuilders.keys registry)
       ∧ builder_names (skipped_modules setup) ++ builder_names (active_modules setup)
         ≡ₚ AvailableBuilders.keys registry
       ∧ ∀ n, n ∈ AvailableBuilders.keys registry →
              n ∈ builder_names (skipped_modules setup)
              ∨ n ∈ builder_names (active_modules setup)).
Proof.
  intros Hd Hv Hsp. split.
  - destruct (init_classified supported registry python_builders pfx spec (PStr "none")
                build_folder dist_folder target s Hd Hv Hsp)
      as (setup & s' & names & Hinit & Hnames & _ & _ & (Hu & Hs & Ha) & _).
    rewrite resolve_none in Hnames. injection Hnames as <-.
    exists setup, s'. split; [done|]. split; [done|].
    rewrite filter_nil in Hu, Hs, Ha.
    split; [by apply fmap_nil_inv in Ha|]. split; [by apply fmap_nil_inv in Hs|done].
  - destruct (init_classified supported registry python_builders pfx spec (PStr "all")
                build_folder dist_folder target s Hd Hv Hsp)
      as (setup & s' & names & Hinit & Hnames & Hreg & _ & (Hu & Hs & Ha) & _).
    rewrite resolve_all in Hnames. simpl in Hnames. rewrite Hreg in Hnames.
    injection Hnames as <-.
    assert (Hnone : filter (λ n, placement_of registry (target_system setup) n = Unknown)
                      (AvailableBuilders.keys registry) = []).
    { apply filter_none. intros k Hk.
      apply assoc_keys in Hk as [c Hc]. unfold placement_of. rewrite Hc.
      by destruct (class_skip_reason c (target_system setup)). }
    exists setup, s'. split; [done|]. split; [by rewrite resolve_all, Hreg|].
    split; [by rewrite Hu|]. split; [done|]. split; [done|].
    pose proof (placement_partition (placement_of registry (target_system setup))
                  (AvailableBuilders.keys registry)) as Hp.
    rewrite Hnone in Hp. simpl in Hp. rewrite <- Hs, <- Ha in Hp.
    split; [done|].
    intros n Hn. rewrite <- Hp in Hn. by apply elem_of_app in Hn.
Qed.

Lemma none_and_all_witness :
  (∃ setup s',
     BuildSetup.__init__ SupportedPythonVersions.__init__ Db.module_builders
       Sample.python_builders None Sample.cpython_396 (PStr "none")
       "/work/build" "/work/dist" (Some "darwin-arm64") Sample.start = (Ret setup, s')
     ∧ (BuildSetup.resolved_module_names setup (PStr "none") Sample.start).1 = Ret []
     ∧ active_modules setup = [] ∧ skipped_modules setup = []
     ∧ unknown_modules setup = [])
  ∧ (∃ setup s',
       BuildSetup.__init__ SupportedPythonVersions.__init__ Db.module_builders
         Sample.python_builders None Sample.cpython_396 (PStr "all")
         "/work/build" "/work/dist" (Some "darwin-arm64") Sample.start = (Ret setup, s')
       ∧ (BuildSetup.resolved_module_names setup (PStr "all") Sample.start).1
         = Ret (AvailableBuilders.keys Db.module_builders)
       ∧ unknown_modules setup = []
       ∧ builder_names (skipped_modules setup)
         = filter (λ n, placement_of Db.module_builders (target_system setup) n = Skipped)
             (AvailableBuilders.keys Db.module_builders)
       ∧ builder_names (active_modules setup)
         = filter (λ n, placement_of Db.module_builders (target_system setup) n = Active)
             (AvailableBuilders.keys Db.module_builders)
       ∧ builder_names (skipped_modules setup) ++ builder_names (active_modules setup)
         ≡ₚ AvailableBuilders.keys Db.module_builders
       ∧ ∀ n, n ∈ AvailableBuilders.keys Db.module_builders →
              n ∈ builder_names (skipped_modules setup)
              ∨ n ∈ builder_names (active_modules setup)).
Proof.
  apply none_and_all.
  - apply declared_db.
  - reflexivity.
  - reflexivity.
Defined.

(** C5, counterexample: the selection ["bdb,bdb"] resolves to [bdb] twice, not
    once: the call does not ask [runez.flattened] for unique values. *)
Lemma explicit_duplicates_counterexample : ¬ explicit_selection_as_stated.
Proof.
  intros H.
  specialize (H (Sample.setup_for Sample.on_linux []) (PStr "bdb,bdb") Sample.start
                eq_refl eq_refl eq_refl).
  vm_compute in H. discriminate H.
Qed.

(** C5, amended: a selection that is neither ["none"], ["all"] nor empty
    resolves to the comma-separated entries of the flattened request, in
    order, without the empty entries and with every repetition kept; once the
    spec has passed validation, for a build folder whose path holds no space
    and a registry in which every class stands under its own builder name,
    the constructor enters these names, in this order and as often as they
    are given, in the list of their placement. *)
Theorem explicit_selection (self : BuildSetup) (module_names : pyval) (s : State) :
  BuildSetup.is_str module_names "none" = false →
  BuildSetup.is_str module_names "all" = false →
  truthy module_names = true →
  let entries := flat_map (Py.split ",") (leaves module_names) in
  let names := filter (λ n, n ≠ "") entries in
  BuildSetup.resolved_module_names self module_names s = (Ret names, s)
  ∧ (∀ supported registry python_builders pfx spec build_folder dist_folder target,
       declared registry →
       (SupportedPythonVersions.validate supported spec s).1 = Ret tt →
       Py.contains " " build_folder = false →
       ∃ setup s',
         BuildSetup.__init__ supported registry python_builders pfx spec module_names
           build_folder dist_folder target s = (Ret setup, s')
         ∧ let place := placement_of registry (target_system setup) in
           unknown_modules setup = filter (λ n, place n = Unknown) names
           ∧ builder_names (skipped_modules setup)
             = filter (λ n, place n = Skipped) names
           ∧ builder_names (active_modules setup)
             = filter (λ n, place n = Active) names
           ∧ length (unknown_modules setup) + length (skipped_modules setup)
             + length (active_modules setup) = length names).
Proof.
  intros Hn Ha Ht entries names.
  split; [by apply resolve_explicit|].
  intros supported registry python_builders pfx spec build_folder dist_folder target
    Hd Hv Hsp.
  destruct (init_classified supported registry python_builders pfx spec module_names
              build_folder dist_folder target s Hd Hv Hsp)
    as (setup & s' & names' & Hinit & Hnames & _ & _ & (Hu & Hs & Ha') & _).
  rewrite resolve_explicit in Hnames by done. injection Hnames as <-.
  exists setup, s'. split; [done|]. cbn zeta.
  split; [done|]. split; [done|]. split; [done|].
  pose proof (placement_partition (placement_of registry (target_system setup))
                (requested_names module_names)) as Hp.
  apply Permutation_length in Hp. rewrite !length_app in Hp.
  rewrite <- Hu, <- Hs, <- Ha' in Hp. unfold builder_names in Hp.
  rewrite !length_fmap in Hp. unfold names, entries.
  change (filter (λ n, n ≠ "") (flat_map (Py.split ",") (leaves module_names)))
    with (requested_names module_names). lia.
Qed.

Lemma explicit_selection_witness :
  BuildSetup.resolved_module_names (Sample.setup_for Sample.on_linux [])
    (PSeq [PStr "gdbm,,bdb"; PNone; PSeq [PStr "bdb"; PStr "zlib,gdbm"]]) Sample.start
  = (Ret ["gdbm"; "bdb"; "bdb"; "zlib"; "gdbm"], Sample.start)
  ∧ ∃ setup s',
      Sample.new_setup (PSeq [PStr "gdbm,,bdb"; PNone; PSeq [PStr "bdb"; PStr "zlib,gdbm"]])
        (Some "darwin-arm64") Sample.start = (Ret setup, s')
      ∧ unknown_modules setup = ["zlib"]
      ∧ builder_names (skipped_modules setup) = ["gdbm"; "gdbm"]
      ∧ builder_names (active_modules setup) = ["bdb"; "bdb"].
Proof.
  destruct (explicit_selection (Sample.setup_for Sample.on_linux [])
              (PSeq [PStr "gdbm,,bdb"; PNone; PSeq [PStr "bdb"; PStr "zlib,gdbm"]])
              Sample.start eq_refl eq_refl eq_refl) as [Hres Hinit].
  split; [exact Hres|].
  destruct (Hinit SupportedPythonVersions.__init__ Db.module_builders
              Sample.python_builders None Sample.cpython_396 "/work/build" "/work/dist"
              (Some "darwin-arm64") declared_db eq_refl eq_refl)
    as (setup & s' & Hrun & Hu & Hs & Ha & _).
  exists setup, s'. split; [exact Hrun|].
  assert (Ht : target_system setup = mkTargetSystem "arm64" "darwin").
  { unfold Sample.new_setup in Hrun. vm_compute in Hrun. by injection Hrun as <- _. }
  rewrite Hu, Hs, Ha, Ht. by vm_compute.
Defined.

(** ** runez.joined with keep_empty=None *)

Lemma joined_kept (v : pyval) (delimiter : string) :
  Runez.joined v delimiter Runez.KeepNone Runez.stringified
  = Py.join delimiter (kept_fragments v).
Proof.
  unfold Runez.joined, Runez.flattened, kept_fragments.
  rewrite flatten_leaves by done.
  change (@nil Runez.leaf) with (Some <$> @nil string).
  rewrite flat_map_pieces_whole, fold_flatten_piece_all.
  rewrite <- list_fmap_compose. simpl. f_equal.
  by rewrite list_fmap_id.
Qed.

Lemma join_truthy (delimiter : string) (l : list string) :
  Forall (λ s, s ≠ "") l →
  Py.truthy_str (Py.join delimiter l) = bool_decide (l ≠ []).
Proof.
  intros Hl. destruct Hl as [|x l Hx Hl]; [done|].
  rewrite bool_decide_eq_true_2 by done.
  unfold Py.join. simpl. destruct l; [by apply truthy_str_true|].
  destruct x; [done|]. done.
Qed.

Lemma kept_fragments_nonempty (v : pyval) : Forall (λ s, s ≠ "") (kept_fragments v).
Proof.
  unfold kept_fragments. apply Forall_forall. intros x Hx.
  by apply list_elem_of_filter in Hx as [? _].
Qed.

Lemma kept_fragments_falsy (v : pyval) : truthy v = false → kept_fragments v = [].
Proof.
  destruct v as [| s | [|x items]]; try done.
  unfold kept_fragments. simpl. unfold Py.truthy_str.
  destruct (String.eqb_spec s "") as [->|]; [|done]. intros _.
  by rewrite filter_cons_False by (by intros H; apply H).
Qed.

(** ** ModuleBuilder._setup_env *)

Lemma StronglySorted_filter {A} (R : relation A) (P : A → Prop)
    `{∀ x, Decision (P x)} (l : list A) :
  StronglySorted R l → StronglySorted R (filter P l).
Proof.
  induction 1 as [|x l Hl IH Hx]; [constructor|].
  rewrite filter_cons. destruct (decide (P x)); [|done].
  constructor; [done|].
  apply Forall_forall. intros y Hy. apply list_elem_of_filter in Hy as [_ Hy].
  by eapply Forall_forall in Hx.
Qed.

Lemma exported_env_vars_sorted (self : ModuleBuilder) :
  let names := ModuleBuilder.exported_env_vars self in
  StronglySorted String.le names
  ∧ NoDup names
  ∧ ∀ n, n ∈ names ↔ n ∈ ModuleBuilder.dir self ∧ Py.startswith n "xenv_" = true.
Proof.
  unfold ModuleBuilder.exported_env_vars, Py.sorted. split; [|split].
  - apply StronglySorted_filter, StronglySorted_merge_sort; apply _.
  - apply NoDup_filter. rewrite merge_sort_Permutation.
    apply NoDup_remove_dups.
  - intros n. rewrite list_elem_of_filter, merge_sort_Permutation.
    rewrite Is_true_true. tauto.
Qed.

Lemma getattr_dir (self : ModuleBuilder) (name : string) :
  name ∈ ModuleBuilder.dir self → is_Some (ModuleBuilder.getattr self name).
Proof.
  unfold ModuleBuilder.dir, ModuleBuilder.getattr.
  rewrite elem_of_remove_dups, elem_of_app. intros [Hn|Hn].
  - apply assoc_keys in Hn as [a ->]. eauto.
  - destruct (assoc name (namespace (cls self))); [eauto|]. by apply assoc_keys.
Qed.

Lemma when_joined (v : pyval) (delimiter name : string) (s : State) :
  when (Py.truthy_str (Runez.joined v delimiter Runez.KeepNone Runez.stringified))
    (ModuleBuilder.setenv name
       (Runez.joined v delimiter Runez.KeepNone Runez.stringified)) s
  = if bool_decide (kept_fragments v ≠ [])
    then (Ret tt,
          set_environ (<[name := Py.join delimiter (kept_fragments v)]>)
            (emit (EvLog DEBUG ("env " +:+ name +:+ "="
                                +:+ Py.join delimiter (kept_fragments v))) s))
    else (Ret tt, s).
Proof.
  rewrite joined_kept, join_truthy by apply kept_fragments_nonempty.
  by destruct (bool_decide _).
Qed.

(** One exporter: its outcome, and the environment it leaves. *)
Lemma export_one_exported (setup : BuildSetup) (self : ModuleBuilder)
    (func_name : string) (a : attr) (s : State) :
  ModuleBuilder.getattr self func_name = Some a → a ≠ BuildStep →
  let name := exported_name func_name in
  let fragments := kept_fragments (fragments_of a (ModuleBuilder.context setup s)) in
  (fragments = [] → ModuleBuilder.export_one setup self func_name s = (Ret tt, s))
  ∧ (fragments ≠ [] →
     ModuleBuilder.export_one setup self func_name s
     = (Ret tt,
        set_environ (<[name := exported_value (host s) name fragments]>)
          (emit (EvLog DEBUG ("env " +:+ name +:+ "="
                              +:+ exported_value (host s) name fragments)) s))).
Proof.
  intros Hget Hstep name fragments.
  unfold ModuleBuilder.export_one, bind, gets, ret. rewrite Hget.
  destruct a as [yields | v |]; [| |done].
  - rewrite when_joined.
    split; intros Hf; case_bool_decide as Hk; done.
  - simpl in fragments. destruct (truthy v) eqn:Hv.
    + rewrite when_joined.
      split; intros Hf; case_bool_decide as Hk; done.
    + split; [done|]. intros Hf. exfalso. apply Hf. by apply kept_fragments_falsy.
Qed.

Lemma export_one_export (setup : BuildSetup) (self : ModuleBuilder)
    (func_name : string) (a : attr) (s : State) :
  ModuleBuilder.getattr self func_name = Some a → a ≠ BuildStep →
  ∃ s', ModuleBuilder.export_one setup self func_name s = (Ret tt, s')
        ∧ environ s'
          = export (host s) (ModuleBuilder.context setup s) self (environ s) func_name
        ∧ same_world s s'.
Proof.
  intros Hget Hstep.
  destruct (export_one_exported setup self func_name a s Hget Hstep) as [Hnil Hcons].
  unfold export. rewrite Hget.
  destruct (kept_fragments (fragments_of a (ModuleBuilder.context setup s)))
    as [|f fs] eqn:Hk.
  - rewrite Hnil by done. eexists. split; [done|]. split; [done|apply same_world_refl].
  - rewrite Hcons by done. eexists. split; [done|]. split; [done|by repeat split].
Qed.

Lemma context_same_world (setup : BuildSetup) (s s' : State) :
  same_world s s' → ModuleBuilder.context setup s' = ModuleBuilder.context setup s.
Proof.
  intros (_ & _ & Hd & _). unfold ModuleBuilder.context, is_dir. by rewrite Hd.
Qed.

Lemma for_each_export (setup : BuildSetup) (self : ModuleBuilder)
    (names : list string) (s : State) :
  (∀ n, n ∈ names →
     ∃ a, ModuleBuilder.getattr self n = Some a ∧ a ≠ BuildStep) →
  ∃ s', for_each names (ModuleBuilder.export_one setup self) s = (Ret tt, s')
        ∧ environ s'
          = fold_left (export (host s) (ModuleBuilder.context setup s) self) names
              (environ s)
        ∧ same_world s s'.
Proof.
  revert s. induction names as [|n names IH]; intros s Hall; simpl.
  - eexists. split; [done|]. split; [done|apply same_world_refl].
  - destruct (Hall n) as (a & Hget & Hstep); [by left|].
    destruct (export_one_export setup self n a s Hget Hstep) as (s1 & H1 & He1 & Hw1).
    destruct (IH s1) as (s2 & H2 & He2 & Hw2).
    { intros m Hm. apply Hall. by right. }
    exists s2. unfold bind. rewrite H1, H2. split; [done|].
    split; [|by eapply same_world_trans].
    rewrite He2, He1, (context_same_world setup s s1) by done.
    destruct Hw1 as (-> & _). done.
Qed.

Lemma export_keeps (h : Host) (c : Ctx) (self : ModuleBuilder)
    (names : list string) (env : gmap string string) (k : string) :
  is_Some (env !! k) → is_Some (fold_left (export h c self) names env !! k).
Proof.
  revert env. induction names as [|n names IH]; intros env Hk; simpl; [done|].
  apply IH. unfold export.
  destruct (ModuleBuilder.getattr self n); [|done].
  destruct (kept_fragments _); [done|].
  rewrite lookup_insert_is_Some. destruct (decide (exported_name n = k)); eauto.
Qed.

(** C3: environment setup walks the [xenv_] attributes in ascending name
    order; an exporter whose non-empty fragments are [fragments] sets the
    variable named after it to the fragments joined, in order, with the
    path-list separator when the variable's name ends in PATH and with one
    space otherwise; with no non-empty fragment it changes nothing; no
    variable that was set before is ever removed. *)
Theorem setup_env_exports (setup : BuildSetup) (self : ModuleBuilder) (s : State) :
  exporters_only self →
  let names := ModuleBuilder.exported_env_vars self in
  let h := host s in
  let c := ModuleBuilder.context setup s in
  (StronglySorted String.le names ∧ NoDup names
   ∧ ∀ n, n ∈ names ↔ n ∈ ModuleBuilder.dir self ∧ Py.startswith n "xenv_" = true)
  ∧ (∃ s', ModuleBuilder._setup_env setup self s = (Ret tt, s')
           ∧ environ s' = fold_left (export h c self) names (environ s)
           ∧ ∀ k, is_Some (environ s !! k) → is_Some (environ s' !! k))
  ∧ (∀ func_name a,
       func_name ∈ names → ModuleBuilder.getattr self func_name = Some a →
       let name := exported_name func_name in
       let fragments := kept_fragments (fragments_of a c) in
       (fragments = [] → ModuleBuilder.export_one setup self func_name s = (Ret tt, s))
       ∧ (fragments ≠ [] →
          ∃ s', ModuleBuilder.export_one setup self func_name s = (Ret tt, s')
                ∧ environ s'
                  = <[name := Py.join (if Py.endswith name "PATH"
                                       then pathsep h else " ") fragments]> (environ s))).
Proof.
  intros Honly names h c.
  pose proof (exported_env_vars_sorted self) as (Hsorted & Hnodup & Hnames).
  assert (Hattr : ∀ n, n ∈ names →
            ∃ a, ModuleBuilder.getattr self n = Some a ∧ a ≠ BuildStep).
  { intros n Hn. apply Hnames in Hn as [Hdir Hx].
    destruct (getattr_dir self n Hdir) as [a Ha]. exists a. split; [done|].
    intros ->. by apply (Honly n Hx). }
  split; [done|]. split.
  - unfold ModuleBuilder._setup_env, bind, called, modify.
    destruct (for_each_export setup self names
                (emit (EvCall (ModuleBuilder.module_builder_name self) "_setup_env") s)
                Hattr) as (s' & Hrun & Henv & _).
    exists s'. split; [done|]. split; [done|].
    intros k Hk. rewrite Henv. by apply export_keeps.
  - intros func_name a Hin Hget name fragments.
    assert (Hstep : a ≠ BuildStep).
    { destruct (Hattr func_name Hin) as (a' & Ha' & Hs). congruence. }
    destruct (export_one_exported setup self func_name a s Hget Hstep) as [Hnil Hcons].
    split; [done|]. intros Hf. eexists. split; [by apply Hcons|done].
Qed.

Lemma assoc_elem_of {A} (name : string) (l : list (string * A)) (v : A) :
  assoc name l = Some v → (name, v) ∈ l.
Proof.
  induction l as [|[k w] l IH]; simpl; [done|].
  destruct (String.eqb_spec k name) as [->|_].
  - intros [= ->]. left.
  - intros H. right. by apply IH.
Qed.

Lemma exporters_only_plain (self : ModuleBuilder) :
  namespace (cls self) = [] → exporters_only self.
Proof.
  intros Hns name Hx. unfold ModuleBuilder.getattr. rewrite Hns.
  cbn [assoc]. intros H. apply assoc_elem_of in H.
  unfold ModuleBuilder.base_namespace in H.
  repeat (apply elem_of_cons in H as [H|H]; [simplify_eq; by vm_compute in Hx|]).
  by apply elem_of_nil in H.
Qed.

Lemma setup_env_exports_witness :
  ∃ s',
    ModuleBuilder._setup_env (Sample.setup_for Sample.on_linux []) Sample.bdb
      Sample.with_deps = (Ret tt, s')
    ∧ environ s'
      = fold_left
          (export Sample.linux
             (ModuleBuilder.context (Sample.setup_for Sample.on_linux [])
                Sample.with_deps) Sample.bdb)
          (ModuleBuilder.exported_env_vars Sample.bdb) (environ Sample.with_deps)
    ∧ ∀ k, is_Some (environ Sample.with_deps !! k) → is_Some (environ s' !! k).
Proof.
  destruct (setup_env_exports (Sample.setup_for Sample.on_linux []) Sample.bdb
              Sample.with_deps (exporters_only_plain Sample.bdb eq_refl))
    as (_ & H & _).
  exact H.
Defined.

(** The environment on the sample machine after [_setup_env]: the variables
    whose exporters found a folder are set, [CFLAGS] is untouched. *)
Example setup_env_sample :
  let s' := (ModuleBuilder._setup_env (Sample.setup_for Sample.on_linux []) Sample.bdb
               Sample.with_deps).2 in
  (λ k, environ s' !! k)
    <$> ["ARCHFLAGS"; "CFLAGS"; "CPATH"; "LD_LIBRARY_PATH"; "LIBRARY_PATH";
         "MACOSX_DEPLOYMENT_TARGET"; "PATH"; "PKG_CONFIG_PATH"]
  = [ Some "-arch x86_64"; Some "-O2"; Some "/work/build/cpython-3.9.6/deps/include";
      Some "/work/build/cpython-3.9.6/deps/lib";
      Some "/work/build/cpython-3.9.6/deps/lib"; None; Some "/usr/bin:/bin"; None ].
Proof. vm_compute. reflexivity. Qed.

(** ** Steps that leave the logging machinery alone *)

Lemma quiet_refl (s : State) : quiet s s.
Proof. split; [|done]. exists []. by rewrite app_nil_r. Qed.

Lemma quiet_trans (s1 s2 s3 : State) : quiet s1 s2 → quiet s2 s3 → quiet s1 s3.
Proof.
  intros ((n1 & Ht1 & Hh1) & Hr1 & Hl1 & Hn1) ((n2 & Ht2 & Hh2) & Hr2 & Hl2 & Hn2).
  split; [|repeat split; congruence].
  exists (n1 ++ n2). rewrite Ht2, Ht1, app_assoc. split; [done|].
  unfold handler_events in *. by rewrite filter_app, Hh1, Hh2.
Qed.

Lemma quiet_emit (e : event) (s : State) : is_handler_event e = false → quiet s (emit e s).
Proof.
  intros He. split; [|done]. exists [e]. split; [done|].
  unfold handler_events. rewrite filter_cons_False; [done|]. by rewrite He.
Qed.

Lemma quiet_set_dirs (f : gset string → gset string) (s : State) : quiet s (set_dirs f s).
Proof. split; [|done]. exists []. by rewrite app_nil_r. Qed.

Lemma quiet_set_files (f : gset string → gset string) (s : State) : quiet s (set_files f s).
Proof. split; [|done]. exists []. by rewrite app_nil_r. Qed.

Lemma quiet_set_environ (f : gmap string string → gmap string string) (s : State) :
  quiet s (set_environ f s).
Proof. split; [|done]. exists []. by rewrite app_nil_r. Qed.

Lemma quiet_set_externals (f : list ext_result → list ext_result) (s : State) :
  quiet s (set_externals f s).
Proof. split; [|done]. exists []. by rewrite app_nil_r. Qed.

Lemma quiet_set_log_counter (f : nat → nat) (s : State) : quiet s (set_log_counter f s).
Proof. split; [|done]. exists []. by rewrite app_nil_r. Qed.

Create HintDb quiet.
#[local] Hint Resolve quiet_refl quiet_emit quiet_set_dirs quiet_set_files
  quiet_set_environ quiet_set_externals quiet_set_log_counter : quiet.

Ltac quiet_state :=
  repeat first
    [ apply quiet_refl
    | apply quiet_emit; reflexivity
    | eapply quiet_trans;
      [| first [ apply quiet_set_dirs | apply quiet_set_files
               | apply quiet_set_environ | apply quiet_set_externals
               | apply quiet_set_log_counter | (apply quiet_emit; reflexivity) ] ] ].

Ltac quiet_step :=
  simpl;
  repeat match goal with
         | |- context [if ?b then _ else _] => destruct b
         end;
  simpl; quiet_state.

Lemma Quiet_ret {A} (a : A) : Quiet (ret a).
Proof. intros s. apply quiet_refl. Qed.

Lemma Quiet_raise {A} (e : exn) : Quiet (@raise A e).
Proof. intros s. apply quiet_refl. Qed.

Lemma Quiet_abort {A} (message : string) : Quiet (@abort A message).
Proof. intros s. apply quiet_refl. Qed.

Lemma Quiet_gets {A} (f : State → A) : Quiet (gets f).
Proof. intros s. apply quiet_refl. Qed.

Lemma Quiet_modify (f : State → State) : (∀ s, quiet s (f s)) → Quiet (modify f).
Proof. intros Hf s. apply Hf. Qed.

Lemma Quiet_bind {A B} (m : M A) (k : A → M B) :
  Quiet m → (∀ a, Quiet (k a)) → Quiet (bind m k).
Proof.
  intros Hm Hk s. unfold bind. specialize (Hm s).
  destruct (m s) as [[a|e] s1]; simpl in *; [|done].
  eapply quiet_trans; [done|]. apply Hk.
Qed.

Lemma Quiet_when (b : bool) (m : M unit) : Quiet m → Quiet (when b m).
Proof. intros Hm. destruct b; [done|]. apply Quiet_ret. Qed.

Lemma Quiet_for_each {A} (l : list A) (body : A → M unit) :
  (∀ x, Quiet (body x)) → Quiet (for_each l body).
Proof.
  intros Hb. induction l as [|x l IH]; simpl; [apply Quiet_ret|].
  apply Quiet_bind; [apply Hb | done].
Qed.

Lemma Quiet_LOG (level : log_level) (message : string) : Quiet (LOG level message).
Proof. apply Quiet_modify. intros s. by apply quiet_emit. Qed.

Lemma Quiet_called (self method : string) : Quiet (called self method).
Proof. apply Quiet_modify. intros s. by apply quiet_emit. Qed.

Lemma Quiet_external (c : ext_call) : Quiet (external c).
Proof.
  intros s. unfold external.
  destruct (externals (emit (EvExternal c) s)) as [|[created|e] rest]; simpl;
    quiet_state.
Qed.

Lemma Quiet_ensure_folder (path : string) (clean : bool) :
  Quiet (ensure_folder path clean).
Proof. apply Quiet_modify. intros s. quiet_step. Qed.

Lemma Quiet_delete_file (path : string) : Quiet (delete_file path).
Proof. apply Quiet_modify. intros s. quiet_step. Qed.

#[local] Hint Resolve Quiet_ret Quiet_raise Quiet_abort Quiet_gets Quiet_LOG
  Quiet_called Quiet_external Quiet_ensure_folder Quiet_delete_file : quiet.

Ltac quiet :=
  repeat (intros;
          match goal with
          | |- Quiet (bind _ _) => apply Quiet_bind
          | |- Quiet (when _ _) => apply Quiet_when
          | |- Quiet (for_each _ _) => apply Quiet_for_each
          | |- Quiet (if ?b then _ else _) => destruct b
          | |- Quiet (match ?x with _ => _ end) => destruct x
          | |- Quiet (modify _) =>
              apply Quiet_modify; intros; quiet_step
          | |- Quiet _ => solve [eauto with quiet]
          end).

Lemma Quiet_run (cwd : string) (argv : list string) : Quiet (ModuleBuilder.run cwd argv).
Proof. unfold ModuleBuilder.run. quiet. Qed.

#[local] Hint Resolve Quiet_run : quiet.

Lemma Quiet_configure_make (setup : BuildSetup) (self : ModuleBuilder) :
  Quiet (ModuleBuilder.configure_make setup self).
Proof.
  unfold ModuleBuilder.configure_make, ModuleBuilder.run_configure,
    ModuleBuilder.run_make_install.
  quiet.
Qed.

#[local] Hint Resolve Quiet_configure_make : quiet.

Lemma Quiet_call_build_step (setup : BuildSetup) (self : ModuleBuilder)
    (func_name : string) :
  Quiet (ModuleBuilder.call_build_step setup self func_name).
Proof.
  unfold ModuleBuilder.call_build_step, ModuleBuilder._do_darwin_compile,
    ModuleBuilder._do_linux_compile.
  quiet.
Qed.

#[local] Hint Resolve Quiet_call_build_step : quiet.

Lemma Quiet_setenv (key value : string) : Quiet (ModuleBuilder.setenv key value).
Proof. unfold ModuleBuilder.setenv. quiet. Qed.

#[local] Hint Resolve Quiet_setenv : quiet.

Lemma Quiet_setup_env (setup : BuildSetup) (self : ModuleBuilder) :
  Quiet (ModuleBuilder._setup_env setup self).
Proof. unfold ModuleBuilder._setup_env, ModuleBuilder.export_one. quiet. Qed.

Lemma Quiet_unpack (setup : BuildSetup) (self : ModuleBuilder) :
  Quiet (ModuleBuilder.unpack setup self).
Proof. unfold ModuleBuilder.unpack, ModuleBuilder.download. quiet. Qed.

Lemma Quiet_finalize (setup : BuildSetup) (self : ModuleBuilder) :
  Quiet (ModuleBuilder._finalize setup self).
Proof. unfold ModuleBuilder._finalize, fix_lib_permissions. quiet. Qed.

Lemma Quiet_prepare (self : ModuleBuilder) : Quiet (ModuleBuilder._prepare self).
Proof. unfold ModuleBuilder._prepare. quiet. Qed.

#[local] Hint Resolve Quiet_setup_env Quiet_unpack Quiet_finalize Quiet_prepare : quiet.

Lemma Quiet_get_logs_path (setup : BuildSetup) (name : string) :
  Quiet (_get_logs_path setup name).
Proof. unfold _get_logs_path. quiet. Qed.

(** ** ModuleBuilder.captured_logs *)

Lemma remove_first_last (h : nat) (hs : list nat) :
  h ∉ hs → ModuleBuilder.remove_first h (hs ++ [h]) = hs.
Proof.
  induction hs as [|x hs IH]; simpl; intros Hh.
  - by rewrite Nat.eqb_refl.
  - apply not_elem_of_cons in Hh as [Hx Hh].
    rewrite (proj2 (Nat.eqb_neq x h)) by done. by rewrite IH.
Qed.

Lemma get_logs_path_returns (self : BuildSetup) (name : string) (s : State) :
  ∃ path, (_get_logs_path self name s).1 = Ret path.
Proof.
  destruct (_get_logs_path_counter self name s) as (s' & -> & _). eauto.
Qed.

Lemma handler_events_app (t1 t2 : list event) :
  handler_events (t1 ++ t2) = handler_events t1 ++ handler_events t2.
Proof. apply filter_app. Qed.

Lemma install_handler (path : string) (self : ModuleBuilder) (s : State) :
  next_id s ∉ root_handlers s →
  ∃ s',
    (h <- fresh ;;
     modify (set_files (λ f, {[path]} ∪ f)) ;;
     modify (set_log_handler (<[oid self := h]>)) ;;
     ModuleBuilder.addHandler h) s = (Ret tt, s')
    ∧ trace s' = trace s ++ [EvAddHandler (next_id s)]
    ∧ root_handlers s' = root_handlers s ++ [next_id s]
    ∧ log_handler s' = <[oid self := next_id s]> (log_handler s)
    ∧ next_id s' = S (next_id s).
Proof.
  intros Hnew. unfold bind, fresh, modify, ModuleBuilder.addHandler. cbn.
  eexists. split; [reflexivity|].
  destruct (dryrun s); cbn; by rewrite bool_decide_eq_false_2.
Qed.

Lemma release_handler (self : ModuleBuilder) (s : State) :
  ∃ s',
    (h <- gets (λ s0, log_handler s0 !! oid self) ;;
     match h with
     | Some h0 =>
         ModuleBuilder.removeHandler h0 ;;
         modify (set_log_handler (delete (oid self)))
     | None => ret tt
     end) s = (Ret tt, s')
    ∧ log_handler s' = delete (oid self) (log_handler s)
    ∧ next_id s' = next_id s
    ∧ match log_handler s !! oid self with
      | Some h =>
          trace s' = trace s ++ [EvRemoveHandler h]
          ∧ root_handlers s' = ModuleBuilder.remove_first h (root_handlers s)
      | None => s' = s
      end.
Proof.
  unfold bind, gets, modify, ModuleBuilder.removeHandler, ret.
  destruct (log_handler s !! oid self) as [h|] eqn:Hh; cbn.
  - eexists. split; [reflexivity|]. by cbn.
  - eexists. split; [reflexivity|]. split; [|done].
    by rewrite delete_id.
Qed.

Lemma captured_logs_released (setup : BuildSetup) (self : ModuleBuilder)
    (body : M unit) (s : State) :
  Quiet body → handlers_fresh s → log_handler s !! oid self = None →
  released s (ModuleBuilder.captured_logs setup self body s).2.
Proof.
  intros Hbody Hfresh Hnone.
  unfold ModuleBuilder.captured_logs, try_finally.
  unfold bind at 1.
  pose proof (Quiet_get_logs_path setup (ModuleBuilder.module_builder_name self) s) as Hq1.
  destruct (get_logs_path_returns setup (ModuleBuilder.module_builder_name self) s)
    as [path Hpath].
  destruct (_get_logs_path setup (ModuleBuilder.module_builder_name self) s)
    as [r1 s1]. simpl in Hpath, Hq1. subst r1.
  destruct Hq1 as ((n1 & Ht1 & Hh1) & Hr1 & Hl1 & Hn1).
  unfold bind at 1. unfold gets at 1.
  destruct (is_dir (Path.parent path) s1).
  - unfold when. unfold bind at 1.
    destruct (install_handler path self s1) as (s2 & -> & Ht2 & Hr2 & Hl2 & Hn2).
    { rewrite Hn1, Hr1. intros Hin. apply Hfresh in Hin. lia. }
    pose proof (Hbody s2) as ((n3 & Ht3 & Hh3) & Hr3 & Hl3 & Hn3).
    destruct (body s2) as [r3 s3]. simpl in Ht3, Hr3, Hl3, Hn3.
    destruct (release_handler self s3) as (s4 & -> & Hl4 & Hn4 & Hrel).
    rewrite Hl3, Hl2, lookup_insert_eq in Hrel. destruct Hrel as [Ht4 Hr4].
    assert (Hfin : released s s4).
    { split; [|split; [|split]].
      - exists (n1 ++ [EvAddHandler (next_id s)] ++ n3 ++ [EvRemoveHandler (next_id s)]).
        split.
        + rewrite Ht4, Ht3, Ht2, Ht1, Hn1. by rewrite <- !app_assoc.
        + right. rewrite !handler_events_app, Hh1, Hh3. by rewrite <- Hn1.
      - rewrite Hr4, Hr3, Hr2, remove_first_last, Hr1; [done|].
        rewrite Hn1, Hr1. intros Hin. apply Hfresh in Hin. lia.
      - rewrite Hl4, Hl3, Hl2, delete_insert_eq, Hl1. by apply delete_id.
      - lia. }
    by destruct r3.
  - unfold when. unfold bind at 1. unfold ret at 1.
    pose proof (Hbody s1) as ((n3 & Ht3 & Hh3) & Hr3 & Hl3 & Hn3).
    destruct (body s1) as [r3 s3]. simpl in Ht3, Hr3, Hl3, Hn3.
    destruct (release_handler self s3) as (s4 & -> & Hl4 & Hn4 & Hrel).
    rewrite Hl3, Hl1, Hnone in Hrel. subst s4.
    assert (Hfin : released s s3).
    { split; [|split; [|split]]; [|congruence|congruence|lia].
      exists (n1 ++ n3). split; [by rewrite Ht3, Ht1, app_assoc|].
      left. by rewrite handler_events_app, Hh1, Hh3. }
    by destruct r3.
Qed.

(** ** Handlers attached over a trace *)

Lemma peak_ge_length (active : list nat) (t : list event) :
  length active ≤ peak_handlers active t.
Proof. destruct t; simpl; lia. Qed.

Lemma replay_handlers_app (active : list nat) (t1 t2 : list event) :
  replay_handlers active (t1 ++ t2)
  = replay_handlers (replay_handlers active t1) t2.
Proof. apply fold_left_app. Qed.

Lemma peak_handlers_app (active : list nat) (t1 t2 : list event) :
  peak_handlers active (t1 ++ t2)
  = max (peak_handlers active t1)
      (peak_handlers (replay_handlers active t1) t2).
Proof.
  revert active. induction t1 as [|e t1 IH]; intros active; simpl.
  - pose proof (peak_ge_length active t2). lia.
  - rewrite IH. unfold replay_handlers. simpl. lia.
Qed.

Lemma replay_not_handler (active : list nat) (e : event) :
  is_handler_event e = false → replay_handler active e = active.
Proof. by destruct e. Qed.

Lemma replay_handler_events (t : list event) (active : list nat) :
  replay_handlers active t = replay_handlers active (handler_events t).
Proof.
  revert active. induction t as [|e t IH]; intros active; [done|].
  unfold handler_events. rewrite filter_cons.
  destruct (decide (is_handler_event e = true)) as [He|He].
  - unfold replay_handlers. simpl. apply IH.
  - apply not_true_is_false in He.
    unfold replay_handlers. simpl. rewrite replay_not_handler by done. apply IH.
Qed.

Lemma peak_handler_events (t : list event) (active : list nat) :
  peak_handlers active t = peak_handlers active (handler_events t).
Proof.
  revert active. induction t as [|e t IH]; intros active; [done|].
  unfold handler_events. rewrite filter_cons.
  destruct (decide (is_handler_event e = true)) as [He|He].
  - simpl. by rewrite IH.
  - apply not_true_is_false in He.
    simpl. rewrite replay_not_handler, IH by done.
    pose proof (peak_ge_length active (handler_events t)).
    unfold handler_events in *. lia.
Qed.

Lemma bracketed_refl (s : State) : bracketed s s.
Proof.
  split; [|done]. exists []. rewrite app_nil_r. simpl.
  split; [done|]. split; [done|lia].
Qed.

Lemma bracketed_trans (s1 s2 s3 : State) :
  bracketed s1 s2 → bracketed s2 s3 → bracketed s1 s3.
Proof.
  intros ((n1 & Ht1 & Hp1 & Hk1) & Hr1 & Hl1 & Hn1)
         ((n2 & Ht2 & Hp2 & Hk2) & Hr2 & Hl2 & Hn2).
  rewrite Hr1 in Hp2, Hk2.
  split; [|split; [congruence|split; [congruence|lia]]].
  exists (n1 ++ n2). split; [by rewrite Ht2, Ht1, app_assoc|].
  rewrite replay_handlers_app, peak_handlers_app, Hp1.
  split; [done|lia].
Qed.

Lemma quiet_bracketed (s s' : State) : quiet s s' → bracketed s s'.
Proof.
  intros ((new & Ht & Hh) & Hr & Hl & Hn).
  split; [|split; [done|split; [done|lia]]].
  exists new. split; [done|].
  rewrite replay_handler_events, peak_handler_events, Hh. simpl.
  split; [done|lia].
Qed.

Lemma released_bracketed (s s' : State) :
  handlers_fresh s → released s s' → bracketed s s'.
Proof.
  intros Hfresh ((new & Ht & Hh) & Hr & Hl & Hn).
  split; [|done].
  exists new. split; [done|].
  rewrite replay_handler_events, peak_handler_events.
  destruct Hh as [-> | ->].
  - simpl. split; [done|lia].
  - assert (Hnew : next_id s ∉ root_handlers s).
    { intros Hin. apply Hfresh in Hin. lia. }
    unfold replay_handlers. simpl.
    rewrite bool_decide_eq_false_2 by done.
    rewrite remove_first_last by done.
    split; [done|]. rewrite length_app. simpl. lia.
Qed.

Lemma bracketed_fresh (s s' : State) :
  bracketed s s' → handlers_fresh s → handlers_fresh s'.
Proof.
  intros (_ & Hr & _ & Hn) Hfresh h Hh. rewrite Hr in Hh.
  apply Hfresh in Hh. lia.
Qed.

(** ** ModuleBuilder.compile and the logging handlers *)

Lemma compile_released (setup : BuildSetup) (self : ModuleBuilder) (x_debug : bool)
    (s : State) :
  handlers_fresh s → log_handler s !! oid self = None →
  bracketed s (ModuleBuilder.compile setup self x_debug s).2.
Proof.
  intros Hfresh Hnone. unfold ModuleBuilder.compile.
  unfold bind at 1. unfold called at 1. unfold modify at 1.
  unfold bind at 1. unfold modify at 1.
  set (s1 := emit (EvPrint (ModuleBuilder.module_builder_name self))
               (emit (EvCall (ModuleBuilder.module_builder_name self) "compile") s)).
  assert (Hq : quiet s s1).
  { eapply quiet_trans; by apply quiet_emit. }
  eapply bracketed_trans; [by apply quiet_bracketed|].
  apply released_bracketed.
  { eapply bracketed_fresh; [by apply quiet_bracketed | done]. }
  apply captured_logs_released; [|by eapply bracketed_fresh; [apply quiet_bracketed|] | done].
  quiet.
Qed.

(** X1. ModuleBuilder.compile, every exit: whether [compile] returns or raises,
    the handlers attached to the logging root are afterwards those attached
    before the call, the builder's [_log_handler] is [None] again, and during
    the call at most one handler more than before was attached at any time. *)
Theorem compile_handler_released (setup : BuildSetup) (self : ModuleBuilder)
    (x_debug : bool) (s : State) :
  handlers_fresh s → log_handler s !! oid self = None →
  let r := ModuleBuilder.compile setup self x_debug s in
  root_handlers r.2 = root_handlers s
  ∧ log_handler r.2 !! oid self = None
  ∧ ∃ new,
      trace r.2 = trace s ++ new
      ∧ replay_handlers (root_handlers s) new = root_handlers s
      ∧ peak_handlers (root_handlers s) new ≤ length (root_handlers s) + 1.
Proof.
  intros Hfresh Hnone r.
  destruct (compile_released setup self x_debug s Hfresh Hnone)
    as (Hnew & Hr & Hl & _).
  split; [done|]. split; [|done]. subst r. by rewrite Hl.
Qed.

Lemma compile_handler_released_witness :
  let r := ModuleBuilder.compile (Sample.setup_for Sample.on_linux []) Sample.bdb
             false Sample.broken_tarball in
  r.1 = Raise (Abort "decompress failed")
  ∧ root_handlers r.2 = [7]
  ∧ log_handler r.2 !! 1 = None.
Proof.
  pose proof (compile_handler_released (Sample.setup_for Sample.on_linux [])
                Sample.bdb false Sample.broken_tarball) as H.
  destruct H as (Hr & Hl & _).
  - intros h Hh. apply list_elem_of_singleton in Hh as ->. cbn. lia.
  - reflexivity.
  - split; [vm_compute; reflexivity|]. split; [exact Hr | exact Hl].
Defined.

Lemma bracketed_bind {A B} (m : M A) (k : A → M B) (s : State) :
  bracketed s (m s).2 →
  (∀ a, (m s).1 = Ret a → bracketed (m s).2 (k a (m s).2).2) →
  bracketed s (bind m k s).2.
Proof.
  intros Hm Hk. unfold bind. destruct (m s) as [[a|e] s1]; simpl in *; [|done].
  eapply bracketed_trans; [done|]. by apply Hk.
Qed.

Lemma for_each_compile_bracketed (setup : BuildSetup) (x_debug : bool)
    (l : list ModuleBuilder) (s : State) :
  handlers_fresh s →
  (∀ m, m ∈ l → log_handler s !! oid m = None) →
  bracketed s (for_each l (λ m, ModuleBuilder.compile setup m x_debug) s).2.
Proof.
  revert s. induction l as [|m l IH]; intros s Hfresh Hnone; simpl.
  - apply bracketed_refl.
  - assert (Hm : bracketed s (ModuleBuilder.compile setup m x_debug s).2).
    { apply compile_released; [done|]. apply Hnone. left. }
    apply bracketed_bind; [done|]. intros _ _.
    apply IH; [by eapply bracketed_fresh|].
    intros m' Hm'. destruct Hm as (_ & _ & -> & _). apply Hnone. by right.
Qed.

(** X2. BuildSetup.compile, one handler at a time: when no builder of the setup
    holds a handler at the start, then throughout [compile] (whichever module
    fails, if any) at most one handler more than at the start is attached to
    the logging root, and at the end the attached handlers are those of the
    start and no builder holds a handler. *)
Theorem build_one_handler_at_a_time (setup : BuildSetup) (x_debug : bool) (s : State) :
  handlers_fresh s →
  (∀ m, m ∈ active_modules setup → log_handler s !! oid m = None) →
  (∀ p, python_builder setup = Some p → log_handler s !! oid p = None) →
  let r := BuildSetup.compile setup x_debug s in
  root_handlers r.2 = root_handlers s
  ∧ log_handler r.2 = log_handler s
  ∧ ∃ new,
      trace r.2 = trace s ++ new
      ∧ replay_handlers (root_handlers s) new = root_handlers s
      ∧ peak_handlers (root_handlers s) new ≤ length (root_handlers s) + 1.
Proof.
  intros Hfresh Hactive Hpython r.
  assert (Hb : bracketed s r.2).
  { subst r. unfold BuildSetup.compile.
    apply bracketed_bind; [apply quiet_bracketed, Quiet_ensure_folder|].
    intros _ _.
    set (s1 := (ensure_folder (setup_build_folder setup) (negb x_debug) s).2).
    assert (Hq1 : quiet s s1) by apply Quiet_ensure_folder.
    assert (Hf1 : handlers_fresh s1).
    { eapply bracketed_fresh; [by apply quiet_bracketed | done]. }
    assert (Hl1 : log_handler s1 = log_handler s) by apply Hq1.
    apply bracketed_bind; [apply bracketed_refl|]. intros h _. cbn [gets snd].
    destruct (unknown_modules setup); [|apply bracketed_refl].
    apply bracketed_bind; [apply quiet_bracketed, Quiet_LOG|]. intros _ _.
    set (s2 := (LOG INFO _ s1).2).
    assert (Hq2 : quiet s1 s2) by apply Quiet_LOG.
    assert (Hf2 : handlers_fresh s2).
    { eapply bracketed_fresh; [by apply quiet_bracketed | done]. }
    assert (Hl2 : log_handler s2 = log_handler s).
    { rewrite <- Hl1. apply Hq2. }
    assert (Hmods : bracketed s2
              (for_each (active_modules setup)
                 (λ m, ModuleBuilder.compile setup m x_debug) s2).2).
    { apply for_each_compile_bracketed; [done|].
      intros m Hm. rewrite Hl2. by apply Hactive. }
    apply bracketed_bind; [done|]. intros _ _.
    destruct (python_builder setup) as [p|] eqn:Hp; [|apply bracketed_refl].
    apply compile_released; [by eapply bracketed_fresh|].
    destruct Hmods as (_ & _ & -> & _). rewrite Hl2. by apply Hpython. }
  destruct Hb as (Hnew & Hr & Hl & _). done.
Qed.

Lemma build_one_handler_at_a_time_witness :
  let r := BuildSetup.compile (Sample.setup_for Sample.on_linux []) false
             Sample.broken_tarball in
  root_handlers r.2 = [7]
  ∧ log_handler r.2 = ∅
  ∧ ∃ new,
      trace r.2 = trace Sample.broken_tarball ++ new
      ∧ replay_handlers [7] new = [7]
      ∧ peak_handlers [7] new ≤ 2.
Proof.
  apply (build_one_handler_at_a_time (Sample.setup_for Sample.on_linux []) false
           Sample.broken_tarball).
  - intros h Hh. apply list_elem_of_singleton in Hh as ->. cbn. lia.
  - intros m _. reflexivity.
  - intros p _. reflexivity.
Defined.

(** ** Runs without failing external call *)

Lemma calls_app (t1 t2 : list event) : calls (t1 ++ t2) = calls t1 ++ calls t2.
Proof. apply omap_app. Qed.

Lemma ext_calls_app (t1 t2 : list event) :
  ext_calls (t1 ++ t2) = ext_calls t1 ++ ext_calls t2.
Proof. apply omap_app. Qed.

Lemma ran_refl (s : State) : all_ok (externals s) → ran [] [] s s.
Proof. intros Hok. unfold ran. by rewrite !app_nil_r. Qed.

Lemma ran_trans (cs1 cs2 : list (string * string)) (xs1 xs2 : list ext_call)
    (s1 s2 s3 : State) :
  ran cs1 xs1 s1 s2 → ran cs2 xs2 s2 s3 → ran (cs1 ++ cs2) (xs1 ++ xs2) s1 s3.
Proof.
  intros (Hc1 & Hx1 & _ & Hh1 & Hd1) (Hc2 & Hx2 & Hok & Hh2 & Hd2).
  unfold ran. rewrite Hc2, Hc1, Hx2, Hx1, !app_assoc.
  split; [done|]. split; [done|]. split; [done|]. split; congruence.
Qed.

Lemma Runs_ret : Runs (ret tt) [] [].
Proof. intros s Hok. exists s. split; [done|]. by apply ran_refl. Qed.

Lemma Runs_seq (m k : M unit) (cs1 cs2 : list (string * string))
    (xs1 xs2 : list ext_call) :
  Runs m cs1 xs1 → Runs k cs2 xs2 → Runs (m ;; k) (cs1 ++ cs2) (xs1 ++ xs2).
Proof.
  intros Hm Hk s Hok. unfold bind.
  destruct (Hm s Hok) as (s1 & -> & Hr1).
  destruct (Hk s1) as (s2 & -> & Hr2); [apply Hr1|].
  exists s2. split; [done|]. by eapply ran_trans.
Qed.

Lemma Runs_gets {A} (f : State → A) (k : A → M unit) (cs : list (string * string))
    (xs : list ext_call) :
  (∀ a, Runs (k a) cs xs) → Runs (a <- gets f ;; k a) cs xs.
Proof. intros Hk s Hok. unfold bind, gets. by apply Hk. Qed.

Lemma Runs_emit (e : event) :
  Runs (modify (emit e))
    (match e with EvCall self method => [(self, method)] | _ => [] end)
    (match e with EvExternal c => [c] | _ => [] end).
Proof.
  intros s Hok. eexists. split; [reflexivity|].
  unfold ran. cbn. rewrite calls_app, ext_calls_app.
  by destruct e.
Qed.

Lemma Runs_called (self method : string) : Runs (called self method) [(self, method)] [].
Proof. apply (Runs_emit (EvCall self method)). Qed.

Lemma Runs_LOG (level : log_level) (message : string) : Runs (LOG level message) [] [].
Proof. apply (Runs_emit (EvLog level message)). Qed.

Lemma Runs_external (c : ext_call) : Runs (external c) [] [c].
Proof.
  intros s Hok. unfold external. cbn.
  destruct (externals s) as [|[created|e] rest] eqn:Hx.
  - eexists. split; [reflexivity|]. unfold ran. cbn.
    rewrite calls_app, ext_calls_app, Hx. cbn. by rewrite app_nil_r.
  - eexists. split; [reflexivity|]. unfold ran. cbn.
    rewrite calls_app, ext_calls_app. cbn. rewrite app_nil_r.
    split; [done|]. split; [done|]. split; [|done].
    intros e He. apply (Hok e). by right.
  - exfalso. apply (Hok e). left.
Qed.

Lemma Runs_quiet_modify (f : State → State) :
  (∀ s, trace (f s) = trace s ∧ externals (f s) = externals s
        ∧ host (f s) = host s ∧ dryrun (f s) = dryrun s) →
  Runs (modify f) [] [].
Proof.
  intros Hf s Hok. eexists. split; [reflexivity|].
  destruct (Hf s) as (Ht & Hx & Hh & Hd).
  unfold ran. by rewrite Ht, Hx, !app_nil_r.
Qed.

Lemma Runs_run (cwd : string) (argv : list string) :
  argv ≠ [] → Runs (ModuleBuilder.run cwd argv) [] [XRun cwd argv].
Proof.
  intros Hargv. unfold ModuleBuilder.run.
  destruct argv; [done|]. apply Runs_external.
Qed.

(** ** The configure/make protocol *)

Lemma leaves_strings (l : list string) : leaves (PSeq (PStr <$> l)) = l.
Proof. simpl. induction l as [|x l IH]; simpl; by f_equal. Qed.

(** For a builder that is not the interpreter's, the configure command line
    holds at least the prefix. *)
Lemma configurable_module (setup : BuildSetup) (self : ModuleBuilder) :
  is_python_builder (cls self) = false → deps_folder setup ≠ "" →
  configurable setup self.
Proof.
  intros Hpy Hdeps _. unfold ModuleBuilder.run_configure_args,
    ModuleBuilder.c_configure_args, ModuleBuilder.c_configure_prefix.
  rewrite Hpy, truthy_str_true by done. eexists. split; [reflexivity|].
  rewrite flattened_pieces, flat_map_pieces_whole.
  set (prefix := "--prefix=/" +:+ Path.strip "/" (deps_folder setup)).
  intros Hnil. apply fmap_nil_inv in Hnil. apply fmap_nil_inv in Hnil.
  assert (Hin : prefix ∈ filter (λ s, s ≠ "")
            (leaves (PSeq [ PSeq (PStr <$> String.words (c_configure_program (cls self)));
                            PSeq ([PStr prefix]
                                  ++ (PStr <$> c_configure_flags (cls self))) ]))).
  { apply list_elem_of_filter. split; [done|].
    change (leaves (PSeq [?a; ?b])) with (leaves a ++ leaves b ++ []).
    rewrite !elem_of_app. right. left. simpl. left. }
  rewrite Hnil in Hin. by apply elem_of_nil in Hin.
Qed.

Lemma Runs_configure_make (setup : BuildSetup) (self : ModuleBuilder) :
  configurable setup self →
  Runs (ModuleBuilder.configure_make setup self) [] (protocol_calls setup self).
Proof.
  intros Hconf. unfold ModuleBuilder.configure_make, protocol_calls.
  apply (Runs_seq _ _ [] []).
  - unfold ModuleBuilder.run_configure, when.
    destruct (Py.truthy_str (c_configure_program (cls self))) eqn:Hprog;
      [|apply Runs_ret].
    destruct (Hconf Hprog) as (argv & -> & Hne). by apply Runs_run.
  - unfold ModuleBuilder.run_make_install.
    apply (Runs_seq _ _ [] [] [_] [_]); by apply Runs_run.
Qed.

Lemma Runs_call_build_step (setup : BuildSetup) (self : ModuleBuilder)
    (func_name : string) :
  configurable setup self →
  Runs (ModuleBuilder.call_build_step setup self func_name)
    (build_calls self func_name) (protocol_calls setup self).
Proof.
  intros Hconf. unfold ModuleBuilder.call_build_step, build_calls.
  destruct (String.eqb func_name "_do_darwin_compile").
  - unfold ModuleBuilder._do_darwin_compile, ModuleBuilder._do_linux_compile.
    apply (Runs_seq _ _ [_] [_] [] _); [apply Runs_called|].
    apply (Runs_seq _ _ [_] [] [] _); [apply Runs_called|].
    by apply Runs_configure_make.
  - destruct (String.eqb_spec func_name "_do_linux_compile") as [->|_].
    + unfold ModuleBuilder._do_linux_compile.
      apply (Runs_seq _ _ [_] [] [] _); [apply Runs_called|].
      by apply Runs_configure_make.
    + apply (Runs_seq _ _ [_] [] [] _); [apply Runs_called|].
      by apply Runs_configure_make.
Qed.

(** X8. ModuleBuilder._do_linux_compile, a failing configure: when the class has
    a configure program, its command line can be computed and is not empty,
    and running it raises, the exception is passed on and the configure
    command, with every argument as often as it is given, is the last
    external call: neither [make] nor [make install] is started. *)
Theorem configure_failure_stops (setup : BuildSetup) (self : ModuleBuilder)
    (argv : list string) (e : exn) (rest : list ext_result) (s : State) :
  Py.truthy_str (c_configure_program (cls self)) = true →
  ModuleBuilder.run_configure_args setup self = Some argv → argv ≠ [] →
  externals s = XRaise e :: rest →
  let r := ModuleBuilder.configure_make setup self s in
  r.1 = Raise e
  ∧ ext_calls (trace r.2)
    = ext_calls (trace s) ++ [XRun (ModuleBuilder.configure_folder self) argv].
Proof.
  intros Hprog Hargs Hargv Hx r.
  assert (Hrun : ModuleBuilder.configure_make setup self s
                 = (Raise e,
                    set_externals (λ _, rest)
                      (emit (EvExternal (XRun (ModuleBuilder.configure_folder self)
                                           argv)) s))).
  { unfold ModuleBuilder.configure_make.
    unfold bind at 1. unfold ModuleBuilder.run_configure.
    rewrite Hprog, Hargs. unfold when.
    unfold ModuleBuilder.run.
    destruct argv as [|a argv]; [done|].
    unfold external. cbn. by rewrite Hx. }
  subst r. rewrite Hrun. cbn. by rewrite ext_calls_app.
Qed.

Lemma configure_failure_stops_witness :
  let s := set_externals (λ _, [XRaise (Failure "configure")]) Sample.start in
  let r := ModuleBuilder.configure_make (Sample.setup_for Sample.on_linux [])
             Sample.bdb s in
  r.1 = Raise (Failure "configure")
  ∧ ext_calls (trace r.2)
    = [XRun "/work/build/cpython-3.9.6/build/bdb/build_unix"
         ["../dist/configure"; "--prefix=/work/build/cpython-3.9.6/deps";
          "--enable-dbm"]].
Proof.
  apply (configure_failure_stops (Sample.setup_for Sample.on_linux []) Sample.bdb
           ["../dist/configure"; "--prefix=/work/build/cpython-3.9.6/deps";
            "--enable-dbm"]
           (Failure "configure") []
           (set_externals (λ _, [XRaise (Failure "configure")]) Sample.start)).
  - reflexivity.
  - reflexivity.
  - discriminate.
  - reflexivity.
Defined.

(** ** ModuleBuilder.download and unpack *)

Lemma download_present (setup : BuildSetup) (self : ModuleBuilder) (s : State) :
  path_exists (ModuleBuilder.download_path setup self) s = true →
  ModuleBuilder.download setup self s
  = (Ret tt, emit (EvLog INFO ("Already downloaded: " +:+ url (cls self))) s).
Proof. intros H. unfold ModuleBuilder.download, bind, gets. by rewrite H. Qed.

Lemma download_absent (setup : BuildSetup) (self : ModuleBuilder) (s : State) :
  path_exists (ModuleBuilder.download_path setup self) s = false →
  all_ok (externals s) →
  ∃ s',
    ModuleBuilder.download setup self s = (Ret tt, s')
    ∧ ran [] [XDownload (url (cls self)) (ModuleBuilder.download_path setup self)] s s'
    ∧ (dryrun s = false → ModuleBuilder.download_path setup self ∈ files s').
Proof.
  intros H Hok. unfold ModuleBuilder.download, bind at 1, gets. rewrite H.
  unfold bind.
  destruct (Runs_external
              (XDownload (url (cls self)) (ModuleBuilder.download_path setup self))
              s Hok) as (s1 & -> & Hc & Hx & Hok1 & Hh & Hd).
  unfold modify. eexists. split; [reflexivity|].
  split.
  - destruct (dryrun s1) eqn:Hd1; unfold ran; cbn; rewrite ?Hc, ?Hx;
      split_and!; try done; congruence.
  - intros Hdry. rewrite Hd, Hdry. cbn. set_solver.
Qed.

(** X9. ModuleBuilder.download, a second time: outside dry-run mode, once a
    download has succeeded, downloading again makes no external call and
    leaves the files and folders as they are. *)
Theorem download_twice (setup : BuildSetup) (self : ModuleBuilder) (s : State) :
  dryrun s = false → all_ok (externals s) →
  let first := ModuleBuilder.download setup self s in
  let second := ModuleBuilder.download setup self first.2 in
  first.1 = Ret tt
  ∧ path_exists (ModuleBuilder.download_path setup self) first.2 = true
  ∧ second.1 = Ret tt
  ∧ ext_calls (trace second.2) = ext_calls (trace first.2)
  ∧ files second.2 = files first.2
  ∧ dirs second.2 = dirs first.2.
Proof.
  intros Hdry Hok first second.
  assert (Hfirst : first.1 = Ret tt
                   ∧ path_exists (ModuleBuilder.download_path setup self) first.2 = true).
  { subst first second.
    destruct (path_exists (ModuleBuilder.download_path setup self) s) eqn:Hthere.
    - rewrite download_present by done. split; [done|]. exact Hthere.
    - destruct (download_absent setup self s Hthere Hok) as (s' & -> & _ & Hin).
      split; [done|]. unfold path_exists. cbn.
      rewrite (bool_decide_eq_true_2 (_ ∈ files s')) by by apply Hin.
      apply orb_true_r. }
  destruct Hfirst as [H1 H2]. split; [done|]. split; [done|].
  subst second. rewrite download_present by done. cbn.
  rewrite ext_calls_app. cbn. by rewrite app_nil_r.
Qed.

Lemma download_twice_witness :
  let first := ModuleBuilder.download (Sample.setup_for Sample.on_linux [])
                 Sample.bdb Sample.start in
  let second := ModuleBuilder.download (Sample.setup_for Sample.on_linux [])
                  Sample.bdb first.2 in
  first.1 = Ret tt
  ∧ path_exists (ModuleBuilder.download_path (Sample.setup_for Sample.on_linux [])
                   Sample.bdb) first.2 = true
  ∧ second.1 = Ret tt
  ∧ ext_calls (trace second.2) = ext_calls (trace first.2)
  ∧ files second.2 = files first.2
  ∧ dirs second.2 = dirs first.2.
Proof.
  apply (download_twice (Sample.setup_for Sample.on_linux []) Sample.bdb Sample.start).
  - reflexivity.
  - intros e He. by apply elem_of_nil in He.
Defined.

Lemma unpack_runs (setup : BuildSetup) (self : ModuleBuilder) (s : State) :
  all_ok (externals s) →
  ∃ s' fetched,
    ModuleBuilder.unpack setup self s = (Ret tt, s')
    ∧ ran [(ModuleBuilder.module_builder_name self, "unpack")]
        (fetched ++ [XDecompress (ModuleBuilder.download_path setup self)
                       (build_folder self)]) s s'
    ∧ fetched
      = (if path_exists (ModuleBuilder.download_path setup self) s then []
         else [XDownload (url (cls self)) (ModuleBuilder.download_path setup self)]).
Proof.
  intros Hok. unfold ModuleBuilder.unpack.
  unfold bind at 1.
  destruct (Runs_called (ModuleBuilder.module_builder_name self) "unpack" s Hok)
    as (s1 & Hs1 & Hr1). rewrite Hs1.
  assert (Hsame : path_exists (ModuleBuilder.download_path setup self) s1
                  = path_exists (ModuleBuilder.download_path setup self) s).
  { unfold called, modify in Hs1. by injection Hs1 as <-. }
  assert (Hdl : ∃ s2, ModuleBuilder.download setup self s1 = (Ret tt, s2)
            ∧ ran [] (if path_exists (ModuleBuilder.download_path setup self) s
                      then []
                      else [XDownload (url (cls self))
                              (ModuleBuilder.download_path setup self)]) s1 s2).
  { rewrite <- Hsame.
    destruct (path_exists (ModuleBuilder.download_path setup self) s1) eqn:Hthere.
    - rewrite download_present by done. eexists. split; [done|].
      destruct (Runs_LOG INFO ("Already downloaded: " +:+ url (cls self)) s1)
        as (s2 & [= <-] & Hr2); [apply Hr1|done].
    - destruct (download_absent setup self s1 Hthere) as (s2 & -> & Hr2 & _);
        [apply Hr1|]. eauto. }
  destruct Hdl as (s2 & Hs2 & Hr2).
  unfold bind at 1. rewrite Hs2.
  unfold bind.
  destruct (Runs_external
              (XDecompress (ModuleBuilder.download_path setup self) (build_folder self))
              s2) as (s3 & -> & Hr3); [apply Hr2|].
  unfold modify. eexists _, _. split; [reflexivity|]. split; [|reflexivity].
  assert (Hr4 : ran [] [] s3
            (if dryrun s3 then s3
             else set_dirs (λ d, {[build_folder self]} ∪ d) s3)).
  { destruct Hr3 as (_ & _ & Hok3 & _).
    destruct (dryrun s3) eqn:Hd3; [by apply ran_refl|].
    unfold ran. cbn. by rewrite !app_nil_r. }
  pose proof (ran_trans _ _ _ _ _ _ _
                (ran_trans _ _ _ _ _ _ _ (ran_trans _ _ _ _ _ _ _ Hr1 Hr2) Hr3) Hr4)
    as Hall.
  by rewrite !app_nil_r in Hall.
Qed.

(** ** ModuleBuilder.compile, step by step *)

Lemma compile_unfold (setup : BuildSetup) (self : ModuleBuilder) (x_debug : bool) :
  ModuleBuilder.compile setup self x_debug
  = (called (ModuleBuilder.module_builder_name self) "compile" ;;
     modify (emit (EvPrint (ModuleBuilder.module_builder_name self))) ;;
     ModuleBuilder.captured_logs setup self (compile_steps setup self x_debug)).
Proof. reflexivity. Qed.

Lemma kept_refl (s : State) : kept s s.
Proof. by unfold kept. Qed.

Lemma kept_trans (s1 s2 s3 : State) : kept s1 s2 → kept s2 s3 → kept s1 s3.
Proof. unfold kept. intros (?&?&?&?&?&?) (?&?&?&?&?&?). split_and!; congruence. Qed.

Lemma kept_emit (e : event) (s : State) :
  match e with EvCall _ _ | EvExternal _ => False | _ => True end →
  kept s (emit e s).
Proof.
  intros He. unfold kept. cbn. rewrite calls_app, ext_calls_app.
  destruct e; try done; cbn; by rewrite !app_nil_r.
Qed.

(** Entering [captured_logs]: the logs folder is ensured, the log file chosen
    and, when the folder is there, a handler attached. *)
Lemma captured_logs_enter (setup : BuildSetup) (self : ModuleBuilder) (s : State) :
  ∃ s1,
    (logs_path <- _get_logs_path setup (ModuleBuilder.module_builder_name self) ;;
     there <- gets (is_dir (Path.parent logs_path)) ;;
     when there
       (h <- fresh ;;
        modify (set_files (λ f, {[logs_path]} ∪ f)) ;;
        modify (set_log_handler (<[oid self := h]>)) ;;
        ModuleBuilder.addHandler h)) s = (Ret tt, s1)
    ∧ kept s s1
    ∧ dirs s1 = (if dryrun s then dirs s else {[logs_folder setup]} ∪ dirs s).
Proof.
  unfold ModuleBuilder.addHandler, _get_logs_path, bind, ensure_folder, delete_file,
    gets, when, fresh, modify, ret.
  cbn.
  destruct (dryrun s) eqn:Hd; cbn; rewrite ?Hd; cbn;
    (destruct (is_dir _ _); repeat (cbn; rewrite ?Hd); eexists;
     (split; [reflexivity|]); (split; [|done]); unfold kept; cbn;
     rewrite !calls_app, !ext_calls_app; cbn; by rewrite !app_nil_r).
Qed.

Lemma prefix_app (p x : string) : String.prefix p (p +:+ x) = true.
Proof.
  induction p as [|c p IH]; [by destruct x|].
  change (String c p +:+ x) with (String c (p +:+ x)). simpl.
  by destruct (ascii_dec c c).
Qed.

Lemma prefix_refl (p : string) : String.prefix p p = true.
Proof. induction p as [|c p IH]; [done|]. simpl. by destruct (ascii_dec c c). Qed.

(** What the entry touches lies in the logs folder: other paths exist
    afterwards exactly when they did before. *)
Lemma captured_logs_enter_paths (setup : BuildSetup) (self : ModuleBuilder)
    (s s1 : State) (p : string) :
  (logs_path <- _get_logs_path setup (ModuleBuilder.module_builder_name self) ;;
   there <- gets (is_dir (Path.parent logs_path)) ;;
   when there
     (h <- fresh ;;
      modify (set_files (λ f, {[logs_path]} ∪ f)) ;;
      modify (set_log_handler (<[oid self := h]>)) ;;
      ModuleBuilder.addHandler h)) s = (Ret tt, s1) →
  Py.startswith p (logs_folder setup) = false →
  path_exists p s1 = path_exists p s.
Proof.
  intros Hrun Hp.
  set (lp := Path.join (logs_folder setup)
               (log_basename (S (log_counter s)) (ModuleBuilder.module_builder_name self))).
  assert (Hlp : p ≠ lp).
  { intros ->. unfold Py.startswith, lp, Path.join in Hp.
    by rewrite prefix_app in Hp. }
  assert (Hlf : p ≠ logs_folder setup).
  { intros ->. unfold Py.startswith in Hp. by rewrite prefix_refl in Hp. }
  revert Hrun.
  unfold ModuleBuilder.addHandler, _get_logs_path, bind, ensure_folder, delete_file,
    gets, when, fresh, modify, ret.
  cbn. fold lp.
  destruct (dryrun s) eqn:Hd; cbn; rewrite ?Hd; cbn;
    (destruct (is_dir _ _); repeat (cbn; rewrite ?Hd); intros [= <-];
     unfold path_exists; cbn; f_equal; apply bool_decide_ext;
     rewrite ?elem_of_union, ?elem_of_difference, ?elem_of_singleton; tauto).
Qed.

Lemma captured_logs_leave (self : ModuleBuilder) (s : State) :
  ∃ s',
    (h <- gets (λ s0, log_handler s0 !! oid self) ;;
     match h with
     | Some h0 =>
         ModuleBuilder.removeHandler h0 ;;
         modify (set_log_handler (delete (oid self)))
     | None => ret tt
     end) s = (Ret tt, s')
    ∧ kept s s' ∧ dirs s' = dirs s ∧ files s' = files s.
Proof.
  unfold bind, gets, modify, ModuleBuilder.removeHandler, ret.
  destruct (log_handler s !! oid self) as [h|]; cbn.
  - eexists. split; [reflexivity|]. split; [|done].
    unfold kept. cbn. rewrite calls_app, ext_calls_app. cbn. by rewrite !app_nil_r.
  - eexists. split; [reflexivity|]. split; [apply kept_refl|done].
Qed.

(** [captured_logs] around a block: the block runs from the state left by the
    entry, and its outcome is the outcome of the whole. *)
Lemma captured_logs_around (setup : BuildSetup) (self : ModuleBuilder) (body : M unit)
    (s : State) :
  ∃ s1 s3,
    kept s s1
    ∧ dirs s1 = (if dryrun s then dirs s else {[logs_folder setup]} ∪ dirs s)
    ∧ (∀ p, Py.startswith p (logs_folder setup) = false →
            path_exists p s1 = path_exists p s)
    ∧ ModuleBuilder.captured_logs setup self body s = ((body s1).1, s3)
    ∧ kept (body s1).2 s3
    ∧ dirs s3 = dirs (body s1).2.
Proof.
  destruct (captured_logs_enter setup self s) as (s1 & Henter & Hk1 & Hd1).
  exists s1.
  destruct (captured_logs_leave self (body s1).2) as (s3 & Hleave & Hk3 & Hd3 & _).
  exists s3. split; [done|]. split; [done|].
  split; [intros p Hp; by apply (captured_logs_enter_paths setup self s s1 p)|].
  split; [|done].
  unfold ModuleBuilder.captured_logs, try_finally.
  assert (Hin : (logs_path <- _get_logs_path setup (ModuleBuilder.module_builder_name self) ;;
                 there <- gets (is_dir (Path.parent logs_path)) ;;
                 when there
                   (h <- fresh ;;
                    modify (set_files (λ f, {[logs_path]} ∪ f)) ;;
                    modify (set_log_handler (<[oid self := h]>)) ;;
                    ModuleBuilder.addHandler h) ;;
                 body) s = body s1).
  { unfold bind at 1. unfold bind at 1 in Henter.
    destruct (_get_logs_path setup (ModuleBuilder.module_builder_name self) s)
      as [[logs_path|e] s0]; [|discriminate Henter].
    unfold bind at 1. unfold bind at 1 in Henter.
    unfold gets at 1. unfold gets at 1 in Henter.
    unfold bind at 1. by rewrite Henter. }
  rewrite Hin. destruct (body s1) as [r s2]. simpl in *. by rewrite Hleave.
Qed.

Lemma ran_kept_l (cs : list (string * string)) (xs : list ext_call) (s s1 s2 : State) :
  kept s s1 → ran cs xs s1 s2 → ran cs xs s s2.
Proof.
  intros (Hc & Hx & _ & Hh & Hd & _) (Hc2 & Hx2 & Hok & Hh2 & Hd2).
  unfold ran. rewrite Hc2, Hx2, Hc, Hx. split_and!; try done; congruence.
Qed.

Lemma ran_kept_r (cs : list (string * string)) (xs : list ext_call) (s s1 s2 : State) :
  ran cs xs s s1 → kept s1 s2 → ran cs xs s s2.
Proof.
  intros (Hc & Hx & Hok & Hh & Hd) (Hc2 & Hx2 & He2 & Hh2 & Hd2 & _).
  unfold ran. rewrite Hc2, Hx2, He2. split_and!; try done; congruence.
Qed.

Lemma export_one_ran (setup : BuildSetup) (self : ModuleBuilder) (func_name : string)
    (a : attr) (s : State) :
  ModuleBuilder.getattr self func_name = Some a → a ≠ BuildStep →
  all_ok (externals s) →
  ∃ s', ModuleBuilder.export_one setup self func_name s = (Ret tt, s') ∧ ran [] [] s s'.
Proof.
  intros Hget Hstep Hok.
  destruct (export_one_exported setup self func_name a s Hget Hstep) as [Hnil Hcons].
  destruct (kept_fragments (fragments_of a (ModuleBuilder.context setup s)))
    as [|f fs] eqn:Hk.
  - rewrite Hnil by done. eexists. split; [done|]. by apply ran_refl.
  - rewrite Hcons by done. eexists. split; [done|].
    unfold ran. cbn. rewrite calls_app, ext_calls_app. cbn. by rewrite !app_nil_r.
Qed.

Lemma Runs_setup_env (setup : BuildSetup) (self : ModuleBuilder) :
  exporters_only self →
  Runs (ModuleBuilder._setup_env setup self)
    [(ModuleBuilder.module_builder_name self, "_setup_env")] [].
Proof.
  intros Honly. unfold ModuleBuilder._setup_env.
  apply (Runs_seq _ _ [_] [] [] []); [apply Runs_called|].
  pose proof (exported_env_vars_sorted self) as (_ & _ & Hnames).
  assert (Hall : ∀ n, n ∈ ModuleBuilder.exported_env_vars self →
            ∃ a, ModuleBuilder.getattr self n = Some a ∧ a ≠ BuildStep).
  { intros n Hn. apply Hnames in Hn as [Hdir Hx].
    destruct (getattr_dir self n Hdir) as [a Ha]. exists a. split; [done|].
    intros ->. by apply (Honly n Hx). }
  revert Hall. generalize (ModuleBuilder.exported_env_vars self).
  intros names. induction names as [|n names IH]; intros Hall; simpl.
  - apply Runs_ret.
  - apply (Runs_seq _ _ [] [] [] []).
    + intros s Hok. destruct (Hall n) as (a & Hget & Hstep); [left|].
      by apply (export_one_ran setup self n a).
    + apply IH. intros m Hm. apply Hall. by right.
Qed.

(** The block of [compile] when it does not resume: unpack, environment,
    prepare, then the build step of the platform and finalize, or the abort
    when the platform has no build step. *)
Lemma compile_steps_run (setup : BuildSetup) (self : ModuleBuilder) (x_debug : bool)
    (s : State) :
  negb x_debug || negb (is_dir (build_folder self) s) = true →
  all_ok (externals s) → exporters_only self →
  let name := ModuleBuilder.module_builder_name self in
  match ModuleBuilder.getattr self (dispatch_name setup) with
  | Some BuildStep =>
      configurable setup self →
      ∃ s',
        compile_steps setup self x_debug s = (Ret tt, s')
        ∧ ran ([(name, "unpack"); (name, "_setup_env"); (name, "_prepare")]
               ++ build_calls self (dispatch_name setup) ++ [(name, "_finalize")])
            (fetched setup self s ++ module_externals setup self) s s'
  | None =>
      ∃ s',
        compile_steps setup self x_debug s
        = (Raise (Abort ("Compiling on platform '"
                         +:+ red (host s) (platform (target_system setup))
                         +:+ "' is not yet supported")), s')
        ∧ ran [(name, "unpack"); (name, "_setup_env"); (name, "_prepare")]
            (fetched setup self s
             ++ [XDecompress (ModuleBuilder.download_path setup self)
                   (build_folder self)]) s s'
  | _ => True
  end.
Proof.
  intros Hcond Hok Honly name.
  unfold compile_steps. fold (dispatch_name setup).
  unfold bind at 1. unfold gets at 1. rewrite Hcond. unfold when.
  destruct (unpack_runs setup self s Hok) as (s1 & got & Hs1 & Hr1 & Hgot).
  change (if path_exists (ModuleBuilder.download_path setup self) s then []
          else [XDownload (url (cls self)) (ModuleBuilder.download_path setup self)])
    with (fetched setup self s) in Hgot. subst got.
  destruct (Runs_setup_env setup self Honly s1) as (s2 & Hs2 & Hr2); [apply Hr1|].
  destruct (Runs_called name "_prepare" s2) as (s3 & Hs3 & Hr3); [apply Hr2|].
  pose proof (ran_trans _ _ _ _ _ _ _ (ran_trans _ _ _ _ _ _ _ Hr1 Hr2) Hr3) as Hr.
  rewrite !app_nil_r in Hr. cbn [app] in Hr.
  assert (Hhost : host s3 = host s) by apply Hr.
  destruct (ModuleBuilder.getattr self (dispatch_name setup)) as [[y|v|]|] eqn:Hget;
    [done | done | |].
  - intros Hconf.
    destruct (Runs_call_build_step setup self (dispatch_name setup) Hconf s3)
      as (s4 & Hs4 & Hr4); [apply Hr|].
    destruct (Runs_called name "_finalize" s4) as (s5 & Hs5 & Hr5); [apply Hr4|].
    destruct (Runs_LOG INFO ("Compiled " +:+ name +:+ " "
                             +:+ ModuleBuilder.version setup self) s5)
      as (s6 & Hs6 & Hr6); [apply Hr5|].
    exists s6. split.
    + unfold bind at 1. unfold bind at 1. rewrite Hs1.
      unfold bind at 1. rewrite Hs2.
      unfold bind at 1. unfold ModuleBuilder._prepare. fold name. rewrite Hs3.
      unfold bind at 1. unfold gets at 1.
      rewrite Hs4.
      unfold bind at 1. unfold ModuleBuilder._finalize, fix_lib_permissions.
      fold name. unfold bind at 1. rewrite Hs5. unfold ret at 1.
      exact Hs6.
    + pose proof (ran_trans _ _ _ _ _ _ _
                    (ran_trans _ _ _ _ _ _ _ (ran_trans _ _ _ _ _ _ _ Hr Hr4) Hr5) Hr6)
        as Hall.
      rewrite !app_nil_r in Hall. unfold module_externals.
      rewrite <- !app_assoc in Hall. exact Hall.
  - exists s3. split; [|done].
    unfold bind at 1. unfold gets at 1. rewrite Hcond. unfold when.
    unfold bind at 1. unfold bind at 1. rewrite Hs1.
    unfold bind at 1. rewrite Hs2.
    unfold bind at 1. unfold ModuleBuilder._prepare. fold name. rewrite Hs3.
    unfold bind at 1. unfold gets at 1. unfold abort, raise. by rewrite Hhost.
Qed.

(** [compile] is its block, run between the entry and the exit of
    [captured_logs]. *)
Lemma compile_around (setup : BuildSetup) (self : ModuleBuilder) (x_debug : bool)
    (s : State) :
  ∃ s1 s3,
    ModuleBuilder.compile setup self x_debug s
    = ((compile_steps setup self x_debug s1).1, s3)
    ∧ calls (trace s1)
      = calls (trace s) ++ [(ModuleBuilder.module_builder_name self, "compile")]
    ∧ ext_calls (trace s1) = ext_calls (trace s)
    ∧ externals s1 = externals s
    ∧ host s1 = host s
    ∧ dryrun s1 = dryrun s
    ∧ environ s1 = environ s
    ∧ dirs s1 = (if dryrun s then dirs s else {[logs_folder setup]} ∪ dirs s)
    ∧ (∀ p, Py.startswith p (logs_folder setup) = false →
            path_exists p s1 = path_exists p s)
    ∧ kept (compile_steps setup self x_debug s1).2 s3.
Proof.
  rewrite compile_unfold.
  set (s0 := emit (EvPrint (ModuleBuilder.module_builder_name self))
               (emit (EvCall (ModuleBuilder.module_builder_name self) "compile") s)).
  destruct (captured_logs_around setup self (compile_steps setup self x_debug) s0)
    as (s1 & s3 & (Hc & Hx & He & Hh & Hd & Hv) & Hdirs & Hpaths & Hrun & Hk & _).
  exists s1, s3. split; [exact Hrun|].
  rewrite Hc, Hx, He, Hh, Hd, Hv, Hdirs. subst s0. cbn.
  rewrite !calls_app, !ext_calls_app. cbn. rewrite !app_nil_r.
  by split_and!.
Qed.

(** X4. ModuleBuilder.compile, resuming: in debug mode, when the module's build
    folder is there, [compile] calls [_finalize] and nothing else: no unpack, no
    environment setup, no build step, no external call, and the environment
    is left as it is; it always returns. *)
Theorem compile_resumes (setup : BuildSetup) (self : ModuleBuilder) (s : State) :
  is_dir (build_folder self) s = true →
  let r := ModuleBuilder.compile setup self true s in
  let name := ModuleBuilder.module_builder_name self in
  r.1 = Ret tt
  ∧ calls (trace r.2) = calls (trace s) ++ [(name, "compile"); (name, "_finalize")]
  ∧ ext_calls (trace r.2) = ext_calls (trace s)
  ∧ environ r.2 = environ s.
Proof.
  intros Hdir r name.
  destruct (compile_around setup self true s)
    as (s1 & s3 & Hrun & Hc & Hx & He & Hh & Hd & Hv & Hdirs & _ & Hk).
  assert (Hdir1 : is_dir (build_folder self) s1 = true).
  { unfold is_dir in *. apply bool_decide_eq_true in Hdir.
    apply bool_decide_eq_true. rewrite Hdirs.
    destruct (dryrun s); [done|]. apply elem_of_union. by right. }
  assert (Hsteps : compile_steps setup self true s1
            = (Ret tt,
               emit (EvLog INFO ("Compiled " +:+ name +:+ " "
                                 +:+ ModuleBuilder.version setup self))
                 (emit (EvCall name "_finalize") s1))).
  { unfold compile_steps. unfold bind at 1. unfold gets at 1. by rewrite Hdir1. }
  rewrite Hsteps in Hrun, Hk. cbn [fst snd] in Hrun, Hk.
  subst r. rewrite Hrun. cbn [fst snd].
  destruct Hk as (Hc3 & Hx3 & _ & _ & _ & Hv3).
  rewrite Hc3, Hx3, Hv3. cbn. rewrite !calls_app, !ext_calls_app, Hc, Hx. cbn.
  rewrite !app_nil_r, <- app_assoc. by split_and!.
Qed.

Lemma compile_resumes_witness :
  let s := set_dirs (λ _, {["/work/build/cpython-3.9.6/build/bdb"]}) Sample.start in
  let r := ModuleBuilder.compile (Sample.setup_for Sample.on_linux []) Sample.bdb
             true s in
  r.1 = Ret tt
  ∧ calls (trace r.2) = calls (trace s) ++ [("bdb", "compile"); ("bdb", "_finalize")]
  ∧ ext_calls (trace r.2) = ext_calls (trace s)
  ∧ environ r.2 = environ s.
Proof.
  apply (compile_resumes (Sample.setup_for Sample.on_linux []) Sample.bdb
           (set_dirs (λ _, {["/work/build/cpython-3.9.6/build/bdb"]}) Sample.start)).
  vm_compute. reflexivity.
Defined.

Lemma not_resuming (setup : BuildSetup) (self : ModuleBuilder) (x_debug : bool)
    (s s1 : State) :
  starts_afresh setup self x_debug s →
  dirs s1 = (if dryrun s then dirs s else {[logs_folder setup]} ∪ dirs s) →
  negb x_debug || negb (is_dir (build_folder self) s1) = true.
Proof.
  intros [-> | [Hdir Hlogs]] Hdirs; [done|].
  rewrite orb_true_iff. right. rewrite negb_true_iff.
  unfold is_dir in *. apply bool_decide_eq_false in Hdir.
  apply bool_decide_eq_false. rewrite Hdirs.
  destruct Hlogs as [-> | Hne]; [done|].
  destruct (dryrun s); [done|].
  rewrite elem_of_union, elem_of_singleton. tauto.
Qed.

(** A full run of [compile]; the download is decided in the state [s1] in
    which the block starts, where the tarball is there exactly when it was at
    the call, unless it lies in the logs folder. *)
Lemma compile_ran (setup : BuildSetup) (self : ModuleBuilder) (x_debug : bool)
    (s : State) :
  starts_afresh setup self x_debug s →
  all_ok (externals s) → buildable setup self →
  ∃ s1 s',
    (tarball_apart setup self → fetched setup self s1 = fetched setup self s)
    ∧ ModuleBuilder.compile setup self x_debug s = (Ret tt, s')
    ∧ ran (module_calls setup self)
        (fetched setup self s1 ++ module_externals setup self) s s'.
Proof.
  intros Hmode Hok (Honly & Hstep & Hconf).
  destruct (compile_around setup self x_debug s)
    as (s1 & s3 & Hrun & Hc & Hx & He & Hh & Hd & Hv & Hdirs & Hpaths & Hk).
  pose proof (compile_steps_run setup self x_debug s1) as Hsteps.
  rewrite Hstep in Hsteps.
  destruct Hsteps as (s2 & Hs2 & Hr2);
    [by eapply not_resuming | by rewrite He | done | done |].
  rewrite Hs2 in Hrun, Hk. cbn [fst snd] in Hrun, Hk.
  exists s1, s3. split; [|split; [done|]].
  { intros Hapart. unfold fetched. by rewrite Hpaths. }
  eapply ran_kept_r; [|exact Hk].
  destruct Hr2 as (Hc2 & Hx2 & Hok2 & Hh2 & Hd2).
  unfold ran, module_calls. rewrite Hc2, Hx2, Hc, Hx, <- !app_assoc.
  split_and!; try done; congruence.
Qed.

(** X3. ModuleBuilder.compile, a full run: outside debug mode, or when the build
    folder is not there (and is not the logs folder), as long as no external
    call fails, [compile] of a buildable builder whose tarball does not lie in
    the logs folder calls unpack, environment setup, prepare, the build step
    and finalize in this order and returns; its external calls are the
    download exactly when the tarball is not there at the call, then the
    decompression, then configure when a configure program is set, make and
    make install, each command line with every argument as often as it is
    given. *)
Theorem compile_full_run (setup : BuildSetup) (self : ModuleBuilder) (x_debug : bool)
    (s : State) :
  starts_afresh setup self x_debug s →
  all_ok (externals s) → buildable setup self → tarball_apart setup self →
  let r := ModuleBuilder.compile setup self x_debug s in
  r.1 = Ret tt
  ∧ ran (module_calls setup self)
      (fetched setup self s ++ module_externals setup self) s r.2.
Proof.
  intros Hmode Hok Hb Hapart r.
  destruct (compile_ran setup self x_debug s Hmode Hok Hb)
    as (s1 & s' & Hf & Hrun & Hran).
  subst r. rewrite Hrun. split; [done|]. cbn [snd]. by rewrite <- (Hf Hapart).
Qed.

Lemma all_ok_nil : all_ok [].
Proof. intros e He. by apply elem_of_nil in He. Qed.

Lemma buildable_plain (setup : BuildSetup) (self : ModuleBuilder) :
  namespace (cls self) = [] → is_python_builder (cls self) = false →
  deps_folder setup ≠ "" →
  ModuleBuilder.getattr self (dispatch_name setup) = Some BuildStep →
  buildable setup self.
Proof.
  intros Hns Hpy Hdeps Hstep.
  split; [by apply exporters_only_plain|]. split; [done|].
  by apply configurable_module.
Qed.

Lemma compile_full_run_witness :
  let setup := Sample.setup_for Sample.on_linux [] in
  let r := ModuleBuilder.compile setup Sample.bdb false Sample.start in
  let p := ModuleBuilder.compile setup Sample.python false Sample.start in
  (r.1 = Ret tt
   ∧ calls (trace r.2)
     = [("bdb", "compile"); ("bdb", "unpack"); ("bdb", "_setup_env"); ("bdb", "_prepare");
        ("bdb", "_do_linux_compile"); ("bdb", "_finalize")]
   ∧ ext_calls (trace r.2)
     = [ XDownload "https://ftp.osuosl.org/pub/blfs/conglomeration/db/db-6.2.32.tar.gz"
           "/work/build/downloads/db-6.2.32.tar.gz";
         XDecompress "/work/build/downloads/db-6.2.32.tar.gz"
           "/work/build/cpython-3.9.6/build/bdb";
         XRun "/work/build/cpython-3.9.6/build/bdb/build_unix"
           ["../dist/configure"; "--prefix=/work/build/cpython-3.9.6/deps";
            "--enable-dbm"];
         XRun "/work/build/cpython-3.9.6/build/bdb/build_unix" ["make"];
         XRun "/work/build/cpython-3.9.6/build/bdb/build_unix" ["make"; "install"] ])
  ∧ (p.1 = Ret tt
     ∧ ext_calls (trace p.2)
       = [ XDownload "https://www.python.org/ftp/python/3.9.6/Python-3.9.6.tar.xz"
             "/work/build/downloads/Python-3.9.6.tar.xz";
           XDecompress "/work/build/downloads/Python-3.9.6.tar.xz"
             "/work/build/cpython-3.9.6/build/cpython";
           XRun "/work/build/cpython-3.9.6/build/cpython"
             ["./configure"; "--prefix=/3.9.6"];
           XRun "/work/build/cpython-3.9.6/build/cpython" ["make"];
           XRun "/work/build/cpython-3.9.6/build/cpython"
             ["make"; "install"; "DESTDIR=/work/build/cpython-3.9.6"] ]).
Proof.
  split.
  - destruct (compile_full_run (Sample.setup_for Sample.on_linux []) Sample.bdb false
                Sample.start) as (Hret & Hc & Hx & _).
    + by left.
    + apply all_ok_nil.
    + by apply buildable_plain.
    + reflexivity.
    + split; [exact Hret|]. split; [exact Hc | exact Hx].
  - destruct (compile_full_run (Sample.setup_for Sample.on_linux []) Sample.python
                false Sample.start) as (Hret & _ & Hx & _).
    + by left.
    + apply all_ok_nil.
    + split; [by apply exporters_only_plain|]. split; [reflexivity|].
      intros _. eexists. split; [reflexivity|discriminate].
    + reflexivity.
    + split; [exact Hret | exact Hx].
Defined.

(** X5. ModuleBuilder.compile, no build step for the platform: outside debug
    mode, or when the build folder is not there (and is not the logs
    folder), as long as no external call fails, [compile] of a builder
    without [_do_<platform>_compile], none of whose [xenv_] attributes is a
    build step and whose tarball does not lie in the logs folder, unpacks
    (with a download exactly when the tarball is not there at the call), sets
    the environment up, calls prepare and then aborts: no program is run and
    [_finalize] is not called. *)
Theorem compile_unsupported_platform (setup : BuildSetup) (self : ModuleBuilder)
    (x_debug : bool) (s : State) :
  starts_afresh setup self x_debug s →
  all_ok (externals s) → exporters_only self → tarball_apart setup self →
  ModuleBuilder.getattr self (dispatch_name setup) = None →
  let r := ModuleBuilder.compile setup self x_debug s in
  let name := ModuleBuilder.module_builder_name self in
  r.1 = Raise (Abort ("Compiling on platform '"
                      +:+ red (host s) (platform (target_system setup))
                      +:+ "' is not yet supported"))
  ∧ calls (trace r.2)
    = calls (trace s)
      ++ [(name, "compile"); (name, "unpack"); (name, "_setup_env"); (name, "_prepare")]
  ∧ ext_calls (trace r.2)
    = ext_calls (trace s)
      ++ fetched setup self s
      ++ [XDecompress (ModuleBuilder.download_path setup self) (build_folder self)].
Proof.
  intros Hmode Hok Honly Hapart Hstep r name.
  destruct (compile_around setup self x_debug s)
    as (s1 & s3 & Hrun & Hc & Hx & He & Hh & Hd & Hv & Hdirs & Hpaths & Hk).
  pose proof (compile_steps_run setup self x_debug s1) as Hsteps.
  rewrite Hstep in Hsteps.
  destruct Hsteps as (s2 & Hs2 & Hr2);
    [by eapply not_resuming | by rewrite He | done |].
  rewrite Hs2 in Hrun, Hk. cbn [fst snd] in Hrun, Hk.
  subst r. rewrite Hrun. cbn [fst snd].
  split; [by rewrite Hh|].
  destruct Hk as (Hc3 & Hx3 & _). destruct Hr2 as (Hc2 & Hx2 & _).
  assert (Hf : fetched setup self s1 = fetched setup self s).
  { unfold fetched. by rewrite Hpaths. }
  rewrite Hc3, Hx3, Hc2, Hx2, Hc, Hx, Hf, <- !app_assoc. done.
Qed.

Lemma compile_unsupported_platform_witness :
  let setup := Sample.setup_for Sample.on_windows [] in
  let r := ModuleBuilder.compile setup Sample.bdb false Sample.start in
  r.1 = Raise (Abort "Compiling on platform 'windows' is not yet supported")
  ∧ calls (trace r.2)
    = [("bdb", "compile"); ("bdb", "unpack"); ("bdb", "_setup_env");
       ("bdb", "_prepare")]
  ∧ ext_calls (trace r.2)
    = [ XDownload "https://ftp.osuosl.org/pub/blfs/conglomeration/db/db-6.2.32.tar.gz"
          "/work/build/downloads/db-6.2.32.tar.gz";
        XDecompress "/work/build/downloads/db-6.2.32.tar.gz"
          "/work/build/cpython-3.9.6/build/bdb" ].
Proof.
  apply (compile_unsupported_platform (Sample.setup_for Sample.on_windows [])
           Sample.bdb false Sample.start).
  - by left.
  - apply all_ok_nil.
  - by apply exporters_only_plain.
  - reflexivity.
  - reflexivity.
Defined.

(** ** BuildSetup.compile, the order of the build *)

Lemma compile_module_calls (setup : BuildSetup) (self : ModuleBuilder) (s : State) :
  all_ok (externals s) → buildable setup self →
  ∃ s',
    ModuleBuilder.compile setup self false s = (Ret tt, s')
    ∧ calls (trace s') = calls (trace s) ++ module_calls setup self
    ∧ all_ok (externals s').
Proof.
  intros Hok Hb.
  destruct (compile_ran setup self false s (or_introl eq_refl) Hok Hb)
    as (s1 & s' & _ & Hrun & Hc & _ & Hok' & _).
  by exists s'.
Qed.

Lemma for_each_module_calls (setup : BuildSetup) (l : list ModuleBuilder) (s : State) :
  all_ok (externals s) →
  (∀ m, m ∈ l → buildable setup m) →
  ∃ s',
    for_each l (λ m, ModuleBuilder.compile setup m false) s = (Ret tt, s')
    ∧ calls (trace s') = calls (trace s) ++ flat_map (module_calls setup) l
    ∧ all_ok (externals s').
Proof.
  revert s. induction l as [|m l IH]; intros s Hok Hall; simpl.
  - exists s. by rewrite app_nil_r.
  - destruct (compile_module_calls setup m s Hok) as (s1 & Hs1 & Hc1 & Hok1).
    { apply Hall. left. }
    destruct (IH s1 Hok1) as (s2 & Hs2 & Hc2 & Hok2).
    { intros m' Hm'. apply Hall. by right. }
    exists s2. unfold bind. rewrite Hs1, Hs2.
    split; [done|]. split; [|done]. by rewrite Hc2, Hc1, <- app_assoc.
Qed.

Lemma for_each_snoc {A} (l : list A) (x : A) (body : A → M unit) (s : State) :
  for_each (l ++ [x]) body s = (for_each l body ;; body x) s.
Proof.
  revert s. induction l as [|a l IH]; intros s; simpl.
  - unfold bind, ret. by destruct (body x s) as [[[]|e] s1].
  - specialize (IH (body a s).2). unfold bind in *.
    destruct (body a s) as [[[]|e] s1]; [|done]. exact IH.
Qed.

(** [BuildSetup.compile] without unknown module: the compilations of the
    active modules, then that of the interpreter's builder, or the
    [AttributeError] of the call on [None]. *)
Lemma build_compile_loop (setup : BuildSetup) (x_debug : bool) (s : State) :
  unknown_modules setup = [] →
  BuildSetup.compile setup x_debug s
  = (for_each (active_modules setup ++ option_list (python_builder setup))
       (λ m, ModuleBuilder.compile setup m x_debug) ;;
     match python_builder setup with
     | Some _ => ret tt
     | None => raise (Failure "AttributeError")
     end) (build_start setup x_debug s).
Proof.
  intros Hu. unfold BuildSetup.compile. rewrite Hu.
  destruct (python_builder setup) as [p|].
  - change (option_list (Some p)) with [p]. unfold build_start.
    unfold bind, ensure_folder, gets, LOG, modify, ret.
    cbn [fst snd]. rewrite for_each_snoc. unfold bind.
    destruct (for_each (active_modules setup) _ _) as [[[]|?] ?]; [|done].
    by destruct (ModuleBuilder.compile setup p x_debug _) as [[[]|?] ?].
  - change (option_list None) with (@nil ModuleBuilder). rewrite app_nil_r.
    reflexivity.
Qed.

(** X6. BuildSetup.compile, the order of a build: outside debug mode, with no
    unknown module, as long as no external call fails and every builder of
    the setup is buildable, [compile] builds the active modules one after
    the other in the order of [active_modules], each through its full
    pipeline, then the interpreter, and returns; when the setup has no
    builder for the interpreter it raises [AttributeError] once the active
    modules are built. *)
Theorem build_in_order (setup : BuildSetup) (s : State) :
  unknown_modules setup = [] → all_ok (externals s) →
  (∀ m, m ∈ active_modules setup ++ option_list (python_builder setup) →
        buildable setup m) →
  let r := BuildSetup.compile setup false s in
  r.1 = match python_builder setup with
        | Some _ => Ret tt
        | None => Raise (Failure "AttributeError")
        end
  ∧ calls (trace r.2)
    = calls (trace s)
      ++ flat_map (module_calls setup)
           (active_modules setup ++ option_list (python_builder setup)).
Proof.
  intros Hu Hok Hall r. subst r. rewrite build_compile_loop by done.
  assert (H0 : calls (trace (build_start setup false s)) = calls (trace s)
               ∧ externals (build_start setup false s) = externals s).
  { unfold build_start, ensure_folder, modify. cbn.
    destruct (dryrun s); cbn; rewrite !calls_app; cbn; by rewrite !app_nil_r. }
  destruct H0 as [Hc0 He0].
  destruct (for_each_module_calls setup
              (active_modules setup ++ option_list (python_builder setup))
              (build_start setup false s)) as (s' & Hrun & Hc & _);
    [by rewrite He0 | done |].
  unfold bind. rewrite Hrun, <- Hc0, <- Hc.
  by destruct (python_builder setup).
Qed.

Lemma build_in_order_witness :
  let setup := Sample.setup_for Sample.on_linux [] in
  let r := BuildSetup.compile setup false Sample.start in
  r.1 = Ret tt
  ∧ calls (trace r.2)
    = [("bdb", "compile"); ("bdb", "unpack"); ("bdb", "_setup_env"); ("bdb", "_prepare");
       ("bdb", "_do_linux_compile"); ("bdb", "_finalize");
       ("cpython", "compile"); ("cpython", "unpack"); ("cpython", "_setup_env");
       ("cpython", "_prepare"); ("cpython", "_do_linux_compile");
       ("cpython", "_finalize")].
Proof.
  apply (build_in_order (Sample.setup_for Sample.on_linux []) Sample.start).
  - reflexivity.
  - apply all_ok_nil.
  - intros m Hm. cbn in Hm.
    apply elem_of_cons in Hm as [-> | Hm];
      [|apply list_elem_of_singleton in Hm as ->].
    + by apply buildable_plain.
    + split; [by apply exporters_only_plain|]. split; [reflexivity|].
      intros _. eexists. split; [reflexivity|discriminate].
Defined.

(** ** AvailableBuilders: declare, then look up *)

Lemma keys_dict_set {A} (k : string) (v : A) (d : list (string * A)) :
  fst <$> AvailableBuilders.dict_set k v d
  = if bool_decide (k ∈ (fst <$> d)) then fst <$> d else (fst <$> d) ++ [k].
Proof.
  induction d as [|[k0 v0] d IH]; [done|].
  cbn [AvailableBuilders.dict_set].
  destruct (String.eqb_spec k0 k) as [->|Hne]; rewrite !fmap_cons; cbn [fst].
  - rewrite bool_decide_eq_true_2; [done|]. apply elem_of_cons. by left.
  - rewrite IH. destruct (bool_decide_reflect (k ∈ (fst <$> d))) as [Hin|Hin].
    + rewrite bool_decide_eq_true_2; [done|]. apply elem_of_cons. by right.
    + rewrite bool_decide_eq_false_2; [done|].
      intros [?|?]%elem_of_cons; congruence.
Qed.

Lemma NoDup_keys_declare (registry : AvailableBuilders.t) (c : ModuleClass) :
  NoDup (AvailableBuilders.keys registry) →
  NoDup (AvailableBuilders.keys (AvailableBuilders.declare registry c)).
Proof.
  intros Hnd. unfold AvailableBuilders.keys, AvailableBuilders.declare. simpl.
  rewrite keys_dict_set. case_bool_decide as Hin; [done|].
  apply NoDup_app. split; [done|]. split; [|apply NoDup_singleton].
  intros x Hx Hx'. apply list_elem_of_singleton in Hx' as ->. done.
Qed.

(** X11. AvailableBuilders.declare and get_builder: a declared class is found
    under its name in lower case, and [get_builder] returns a new builder of
    this class whose build folder is [<setup build folder>/build/<name>]; other
    names are looked up as before; the registered names stay without
    duplicates, a new name is appended and a name declared again keeps its
    place. *)
Theorem declare_then_get_builder (registry : AvailableBuilders.t) (c : ModuleClass)
    (folder : string) (s : State) :
  let name := Py.lower (cls_name c) in
  let registry' := AvailableBuilders.declare registry c in
  AvailableBuilders.get_builder registry' folder name s
  = (Ret (Some (mkModuleBuilder (next_id s) c
                  (Path.join (Path.join folder "build") name))),
     set_next_id S s)
  ∧ (∀ other, other ≠ name →
       AvailableBuilders.get_builder registry' folder other s
       = AvailableBuilders.get_builder registry folder other s)
  ∧ AvailableBuilders.keys registry'
    = (if bool_decide (name ∈ AvailableBuilders.keys registry)
       then AvailableBuilders.keys registry
       else AvailableBuilders.keys registry ++ [name])
  ∧ (NoDup (AvailableBuilders.keys registry) → NoDup (AvailableBuilders.keys registry')).
Proof.
  intros name registry'. split_and!.
  - rewrite get_builder_lookup. unfold registry', AvailableBuilders.declare. simpl.
    rewrite assoc_dict_set. unfold AvailableBuilders.module_builder_name.
    fold name. by rewrite String.eqb_refl.
  - intros other Hother. rewrite !get_builder_lookup.
    unfold registry', AvailableBuilders.declare. simpl.
    rewrite assoc_dict_set. unfold AvailableBuilders.module_builder_name. fold name.
    by rewrite (proj2 (String.eqb_neq name other)) by done.
  - unfold registry', AvailableBuilders.keys, AvailableBuilders.declare. simpl.
    by rewrite keys_dict_set.
  - apply NoDup_keys_declare.
Qed.

(** An unregistered name gives no builder, and the state is untouched. *)
Lemma get_builder_unregistered (registry : AvailableBuilders.t) (folder name : string)
    (s : State) :
  name ∉ AvailableBuilders.keys registry →
  AvailableBuilders.get_builder registry folder name s = (Ret None, s).
Proof.
  intros Hn. rewrite get_builder_lookup.
  destruct (assoc name (AvailableBuilders.available registry)) as [c|] eqn:Hc; [|done].
  exfalso. apply Hn. apply assoc_elem_of in Hc.
  unfold AvailableBuilders.keys. apply list_elem_of_fmap. by exists (name, c).
Qed.

(** ** Selection by tell-tale *)

Lemma assoc_NoDup {A} (name : string) (v : A) (d : list (string * A)) :
  NoDup (fst <$> d) → (name, v) ∈ d → assoc name d = Some v.
Proof.
  induction d as [|[k w] d IH]; simpl; intros Hnd Hin.
  - by apply elem_of_nil in Hin.
  - apply NoDup_cons in Hnd as [Hk Hnd].
    apply elem_of_cons in Hin as [[= -> ->]|Hin].
    + by rewrite String.eqb_refl.
    + destruct (String.eqb_spec k name) as [->|_]; [|by apply IH].
      exfalso. apply Hk. apply list_elem_of_fmap. by exists (name, v).
Qed.

Lemma applicable_no_skip (c : ModuleClass) (target : TargetSystem) :
  Target.is_applicable target (needs_platforms c) = true →
  class_skip_reason c target = None.
Proof.
  unfold class_skip_reason, ModuleBuilder.skip_reason. cbn [cls].
  intros ->. by destruct (needs_platforms c).
Qed.

Lemma without_telltale_active (registry : AvailableBuilders.t) (target : TargetSystem)
    (s : State) (name : string) :
  NoDup (AvailableBuilders.keys registry) →
  name ∈ BuildSetup.without_telltale registry target s →
  placement_of registry target name = Active.
Proof.
  intros Hnd Hin. unfold BuildSetup.without_telltale in Hin.
  apply list_elem_of_fmap in Hin as ([k c] & -> & Hin).
  apply list_elem_of_filter in Hin as [Hp Hin]. cbn in Hp |- *.
  apply Is_true_true in Hp. rewrite !andb_true_iff in Hp.
  destruct Hp as [[_ Happ] _].
  unfold placement_of. rewrite (assoc_NoDup k c) by done.
  by rewrite applicable_no_skip.
Qed.

(** X12. The constructor with an empty selection: once the spec has passed
    validation, for a build folder whose path holds no space and a registry as
    [declare] builds it (every class under its own builder name, no name
    twice), the modules are those picked by tell-tale, and all of them are
    active: none is unknown, none is skipped. *)
Theorem auto_selection_all_active (supported : SupportedPythonVersions.t)
    (registry python_builders : AvailableBuilders.t) (pfx : option string)
    (spec : PythonSpec) (modules : pyval) (build_folder dist_folder : string)
    (target : option string) (s : State) :
  declared registry → NoDup (AvailableBuilders.keys registry) →
  (SupportedPythonVersions.validate supported spec s).1 = Ret tt →
  Py.contains " " build_folder = false →
  truthy modules = false →
  ∃ setup s',
    BuildSetup.__init__ supported registry python_builders pfx spec modules
      build_folder dist_folder target s = (Ret setup, s')
    ∧ unknown_modules setup = []
    ∧ skipped_modules setup = []
    ∧ builder_names (active_modules setup)
      = BuildSetup.without_telltale registry (target_system setup) s.
Proof.
  intros Hd Hnd Hv Hsp Hfalsy.
  destruct (init_classified supported registry python_builders pfx spec modules
              build_folder dist_folder target s Hd Hv Hsp)
    as (setup & s' & names & Hinit & Hnames & Hreg & _ & (Hu & Hs & Ha) & _).
  assert (Hres : names = BuildSetup.without_telltale registry (target_system setup) s).
  { unfold BuildSetup.resolved_module_names in Hnames.
    assert (Hn : BuildSetup.is_str modules "none" = false) by by destruct modules as [|[|]|].
    assert (Ha' : BuildSetup.is_str modules "all" = false) by by destruct modules as [|[|]|].
    rewrite Hn, Ha', Hfalsy, Hreg in Hnames. cbn in Hnames. by injection Hnames as <-. }
  exists setup, s'. split; [done|].
  assert (Hall : ∀ n, n ∈ names → placement_of registry (target_system setup) n = Active).
  { intros n Hn. rewrite Hres in Hn. by eapply without_telltale_active. }
  split_and!.
  - rewrite Hu. apply filter_none. intros n Hn. by rewrite (Hall n Hn).
  - apply fmap_nil_inv with (f := ModuleBuilder.module_builder_name).
    fold (builder_names (skipped_modules setup)). rewrite Hs.
    apply filter_none. intros n Hn. by rewrite (Hall n Hn).
  - rewrite Ha, <- Hres. by apply filter_all.
Qed.

Lemma auto_selection_all_active_witness :
  ∃ setup s',
    BuildSetup.__init__ SupportedPythonVersions.__init__ Db.module_builders
      Sample.python_builders None Sample.cpython_396 PNone "/work/build" "/work/dist"
      (Some "darwin-arm64") Sample.start = (Ret setup, s')
    ∧ unknown_modules setup = []
    ∧ skipped_modules setup = []
    ∧ builder_names (active_modules setup)
      = BuildSetup.without_telltale Db.module_builders (target_system setup)
          Sample.start.
Proof.
  apply auto_selection_all_active.
  - apply declared_db.
  - unfold Db.module_builders. repeat apply NoDup_keys_declare. constructor.
  - reflexivity.
  - reflexivity.
  - reflexivity.
Defined.

(** ** TargetSystem, there and back *)

Lemma partition_before_no_dash (s : string) : no_dash (Py.partition "-" s).1.1.
Proof.
  induction s as [|c t IH]; simpl; [done|].
  destruct (Ascii.eqb_spec c "-"%char) as [->|Hc]; [done|].
  destruct (Py.partition "-" t) as [[h m] tl]. simpl in *. done.
Qed.

Lemma no_dash_lower_host (h : Host) (target : option string) :
  no_dash (Py.lower (system h)) →
  no_dash (platform (Target.__init__ h target)).
Proof.
  intros Hh. unfold Target.__init__.
  destruct target as [t|]; [|done].
  destruct (Py.truthy_str t); [|done].
  pose proof (partition_before_no_dash t) as Hp.
  destruct (Py.partition "-" t) as [[plat sep] arch]. simpl in *.
  by destruct (Py.truthy_str plat).
Qed.

Lemma or_else_nonempty (a : option string) (b : string) : b ≠ "" → Py.or_else a b ≠ "".
Proof.
  intros Hb. unfold Py.or_else. destruct a as [x|]; [|done].
  unfold Py.truthy_str. by destruct (String.eqb_spec x "").
Qed.

(** X16. TargetSystem.__repr__ and __init__: on a host whose system name has no
    ["-"] and whose system and machine names are not empty, the text of a
    target built by the constructor, whatever the target string given, reads
    back as the same target, on any host. *)
Theorem target_repr_round_trip (h h' : Host) (target : option string) :
  no_dash (Py.lower (system h)) → system h ≠ "" → machine h ≠ "" →
  let t := Target.__init__ h target in
  Target.__init__ h' (Some (Target.__repr__ t)) = t.
Proof.
  intros Hd Hs Hm t.
  assert (Hdash : no_dash (platform t)) by by apply no_dash_lower_host.
  assert (Hplat : platform t ≠ "").
  { subst t. unfold Target.__init__.
    assert (Hl : Py.lower (system h) ≠ "") by by destruct (system h).
    destruct target as [x|]; [|done]. destruct (Py.truthy_str x); [|done].
    destruct (Py.partition "-" x) as [[plat sep] arch]. by apply or_else_nonempty. }
  assert (Harch : architecture t ≠ "").
  { subst t. unfold Target.__init__.
    destruct target as [x|]; [|done]. destruct (Py.truthy_str x); [|done].
    destruct (Py.partition "-" x) as [[plat sep] arch]. by apply or_else_nonempty. }
  destruct t as [arch plat]. simpl in *.
  unfold Target.__init__, Target.__repr__. simpl.
  rewrite truthy_str_true by (by destruct plat).
  rewrite partition_at_dash by done. simpl.
  by rewrite !truthy_str_true.
Qed.

Lemma target_repr_round_trip_witness :
  Target.__init__ Sample.linux
    (Some (Target.__repr__ (Target.__init__ Sample.linux (Some "darwin-arm64-e"))))
  = Target.__init__ Sample.linux (Some "darwin-arm64-e").
Proof.
  apply (target_repr_round_trip Sample.linux Sample.linux (Some "darwin-arm64-e")).
  - simpl. repeat split; discriminate.
  - discriminate.
  - discriminate.
Defined.

(** ** ModuleBuilder.skip_reason *)

Lemma stringified_strings (l : list string) :
  (λ x, Runez.stringified (Some x)) <$> l = l.
Proof. induction l as [|x l IH]; [done|]. by rewrite fmap_cons, IH. Qed.

(** X15. ModuleBuilder.skip_reason: a builder reports a reason exactly when its
    class names platforms and the target's platform is not one of them; the
    reason is then these platforms, separated by ["/"], followed by [" only"]. *)
Theorem skip_reason_text (m : ModuleBuilder) (target : TargetSystem) :
  ModuleBuilder.skip_reason m target
  = if bool_decide (needs_platforms (cls m) ≠ []
                    ∧ platform target ∉ needs_platforms (cls m))
    then Some (Py.join "/" (needs_platforms (cls m)) +:+ " only")
    else None.
Proof.
  unfold ModuleBuilder.skip_reason, Target.is_applicable.
  destruct (needs_platforms (cls m)) as [|p ps] eqn:Hn.
  - rewrite bool_decide_eq_false_2; [done|]. by intros [? _].
  - rewrite joined_strings, stringified_strings.
    destruct (bool_decide_reflect (platform target ∈ p :: ps)) as [Hin|Hin]; simpl.
    + rewrite bool_decide_eq_false_2; [done|]. by intros [_ ?].
    + by rewrite bool_decide_eq_true_2.
Qed.

(** ** BuildSetup._get_logs_path, up to ninety-nine compilations *)

Lemma compare_lt_le (a b : string) : String.compare a b = Lt → String.le a b.
Proof. unfold String.le, String.leb. by intros ->. Qed.

Lemma strictly_sorted_le (l : list string) :
  StronglySorted (λ a b, String.compare a b = Lt) l → StronglySorted String.le l.
Proof.
  induction 1 as [|x l Hl IH Hx]; constructor; [done|].
  eapply Forall_impl; [exact Hx|]. intros y. apply compare_lt_le.
Qed.

(** X17. BuildSetup._get_logs_path: as long as the counter stays below one
    hundred, the log files of successive compilations are named so that each
    sorts strictly before the next, whatever the module names: sorting the
    names gives the order of the compilations. *)
Theorem log_names_sorted_up_to_99 (self : BuildSetup) (names : list string) (s : State) :
  log_counter s + length names ≤ 99 →
  ∃ paths,
    (allocate_logs self names s).1 = Ret paths
    ∧ length paths = length names
    ∧ StronglySorted (λ a b, String.compare a b = Lt) paths
    ∧ Py.sorted paths = paths.
Proof.
  intros Hlen. exists (expected_logs (logs_folder self) (log_counter s) names).
  pose proof (expected_logs_sorted (logs_folder self) names (log_counter s) Hlen) as Hs.
  split; [apply allocate_logs_paths|]. split; [|split; [done|]].
  - clear. generalize (log_counter s). induction names as [|n names IH]; intros k; [done|].
    simpl. by rewrite IH.
  - unfold Py.sorted. apply (StronglySorted_unique String.le).
    + apply StronglySorted_merge_sort; apply _.
    + by apply strictly_sorted_le.
    + apply merge_sort_Permutation.
Qed.

Lemma log_names_sorted_up_to_99_witness :
  ∃ paths,
    (allocate_logs (Sample.setup_for Sample.on_linux []) ["zlib"; "bdb"; "cpython"]
       Sample.start).1 = Ret paths
    ∧ length paths = 3
    ∧ StronglySorted (λ a b, String.compare a b = Lt) paths
    ∧ Py.sorted paths = paths.
Proof.
  apply (log_names_sorted_up_to_99 (Sample.setup_for Sample.on_linux [])
           ["zlib"; "bdb"; "cpython"] Sample.start).
  cbn. lia.
Defined.

(** ** Selection by tell-tale of the modules of [db.py] *)

Lemma applicable_linux_only (target : TargetSystem) :
  Target.is_applicable target ["linux"] = Target.is_linux target.
Proof.
  unfold Target.is_applicable, Target.is_linux.
  destruct (String.eqb_spec (platform target) "linux") as [Heq|Hne].
  - apply bool_decide_eq_true_2. rewrite Heq. by apply list_elem_of_singleton.
  - apply bool_decide_eq_false_2. by intros ?%list_elem_of_singleton.
Qed.

Lemma existing_telltale_single (c : ModuleClass) (file : string)
    (target : TargetSystem) (s : State) :
  telltale c = PStr file →
  Py.truthy_str (Path.format_include file (Target.sys_include target)) = true →
  Py.truthy_opt (ModuleBuilder.existing_telltale c target s)
  = path_exists (Path.format_include file (Target.sys_include target)) s.
Proof.
  intros Ht Hfile. unfold ModuleBuilder.existing_telltale. rewrite Ht.
  assert (Hflat : Runez.flattened (PStr file) Runez.KeepNone None false = [Some file]).
  { unfold Runez.flattened. cbn. unfold Runez.flatten_piece, Runez.push. cbn.
    destruct file; [done|done]. }
  rewrite Hflat. cbn [fmap list_fmap Runez.stringified].
  rewrite filter_cons, filter_nil.
  destruct (path_exists _ s) eqn:Hp.
  - rewrite decide_True by done. done.
  - rewrite decide_False by (by intros []). done.
Qed.

(** X13. The modules of [db.py] picked when no module is requested: [gdbm] on a
    linux target without [gdbm.h] in the system's include folder, [sqlite] on
    any target without [sqlite3.h] there, in this order; [bdb], which has no
    tell-tale, is never picked. *)
Theorem db_auto_selection (target : TargetSystem) (s : State) :
  BuildSetup.without_telltale Db.module_builders target s
  = (if Target.is_linux target
        && negb (path_exists (Target.sys_include target +:+ "/gdbm.h") s)
     then ["gdbm"] else [])
    ++ (if negb (path_exists (Target.sys_include target +:+ "/sqlite3.h") s)
        then ["sqlite"] else []).
Proof.
  assert (Hav : AvailableBuilders.available Db.module_builders
                = [("gdbm", Db.Gdbm); ("bdb", Db.Bdb); ("sqlite", Db.Sqlite)])
    by (vm_compute; reflexivity).
  assert (Hinc : ∀ file, Py.truthy_str (Target.sys_include target +:+ file) = true).
  { intros file. unfold Target.sys_include, Target.sdk_folder.
    by destruct (Target.is_macos target). }
  unfold BuildSetup.without_telltale. rewrite Hav.
  rewrite !filter_cons, filter_nil. cbn [snd].
  rewrite (existing_telltale_single Db.Gdbm "{include}/gdbm.h") by (done || apply Hinc).
  rewrite (existing_telltale_single Db.Sqlite "{include}/sqlite3.h") by (done || apply Hinc).
  change (Path.format_include "{include}/gdbm.h" (Target.sys_include target))
    with (Target.sys_include target +:+ "/gdbm.h").
  change (Path.format_include "{include}/sqlite3.h" (Target.sys_include target))
    with (Target.sys_include target +:+ "/sqlite3.h").
  change (needs_platforms Db.Gdbm) with ["linux"].
  rewrite applicable_linux_only.
  destruct (Target.is_linux target);
    destruct (path_exists (Target.sys_include target +:+ "/gdbm.h") s);
    destruct (path_exists (Target.sys_include target +:+ "/sqlite3.h") s);
    reflexivity.
Qed.

(** ** The environment of a module without exporters of its own *)

Lemma kept_fragments_cons (x : pyval) (rest : list pyval) :
  kept_fragments (PSeq (x :: rest)) = kept_fragments x ++ kept_fragments (PSeq rest).
Proof. unfold kept_fragments. cbn [leaves flat_map]. apply filter_app. Qed.

Lemma kept_fragments_checked (c : Ctx) (subs : list string) :
  kept_fragments (PSeq (ModuleBuilder.checked_deps_folder c <$> subs))
  = existing_under c subs.
Proof.
  unfold existing_under. induction subs as [|sub subs IH]; [done|].
  rewrite !fmap_cons, kept_fragments_cons, IH, filter_cons.
  unfold ModuleBuilder.checked_deps_folder.
  destruct (ctx_is_dir c (Path.join (ctx_deps c) sub)) eqn:Hd.
  - rewrite decide_True by done. unfold kept_fragments. cbn [leaves].
    rewrite filter_cons, filter_nil, decide_True; [done|].
    unfold Path.join. by destruct (ctx_deps c).
  - rewrite decide_False by done. done.
Qed.

Lemma kept_fragments_checked_one (c : Ctx) (sub : string) :
  kept_fragments (ModuleBuilder.checked_deps_folder c sub) = existing_under c [sub].
Proof.
  rewrite <- (kept_fragments_checked c [sub]), fmap_cons, fmap_nil, kept_fragments_cons.
  change (kept_fragments (PSeq [])) with (@nil string). by rewrite app_nil_r.
Qed.

Lemma export_generator (h : Host) (c : Ctx) (self : ModuleBuilder)
    (env : gmap string string) (func_name : string) (yields : Ctx → list pyval)
    (name delimiter : string) (fragments : list string) :
  ModuleBuilder.getattr self func_name = Some (Generator yields) →
  exported_name func_name = name →
  (if Py.endswith name "PATH" then pathsep h else " ") = delimiter →
  kept_fragments (PSeq (yields c)) = fragments →
  export h c self env func_name = set_joined delimiter name fragments env.
Proof.
  intros Hget Hname Hdel Hfrag. unfold export, set_joined, exported_value.
  rewrite Hget. cbn [fragments_of]. rewrite Hfrag, Hname, Hdel.
  by destruct fragments.
Qed.

(** X10. ModuleBuilder._setup_env for a class that defines no attribute of its
    own, such as those of [db.py]: [ARCHFLAGS] is set to ["-arch"] and the
    target's architecture, [PATH] is replaced by the dependencies' [bin] folder
    (when it exists) followed by [/usr/bin] and [/bin],
    [MACOSX_DEPLOYMENT_TARGET] is set on a macOS target only, and [CPATH],
    [LD_LIBRARY_PATH], [LIBRARY_PATH] and [PKG_CONFIG_PATH] are set to those of
    their folders under the dependencies' folder that exist, and left as
    they are when none exists. *)
Theorem plain_module_environment (setup : BuildSetup) (self : ModuleBuilder)
    (s : State) :
  namespace (cls self) = [] →
  let c := ModuleBuilder.context setup s in
  let sep := pathsep (host s) in
  ∃ s',
    ModuleBuilder._setup_env setup self s = (Ret tt, s')
    ∧ environ s'
      = set_joined sep "PKG_CONFIG_PATH" (existing_under c ["lib/pkgconfig"])
          (set_joined sep "PATH" (existing_under c ["bin"] ++ ["/usr/bin"; "/bin"])
             (set_joined " " "MACOSX_DEPLOYMENT_TARGET"
                (if Target.is_macos (target_system setup) then ["10.14"] else [])
                (set_joined sep "LIBRARY_PATH" (existing_under c ["lib"])
                   (set_joined sep "LD_LIBRARY_PATH" (existing_under c ["lib"])
                      (set_joined sep "CPATH"
                         (existing_under c
                            ["include"; "include/readline"; "include/uuid";
                             "include/openssl"])
                         (set_joined " " "ARCHFLAGS"
                            (filter (λ x, x ≠ "")
                               ["-arch"; architecture (target_system setup)])
                            (environ s))))))).
Proof.
  intros Hns c sep.
  assert (Hnames : ModuleBuilder.exported_env_vars self
                   = ["xenv_archflags"; "xenv_cpath"; "xenv_ld_library_path";
                      "xenv_library_path"; "xenv_macosx_deployment_target";
                      "xenv_path"; "xenv_pkg_config_path"]).
  { unfold ModuleBuilder.exported_env_vars, ModuleBuilder.dir. rewrite Hns.
    vm_compute. reflexivity. }
  assert (Hget : ∀ n, ModuleBuilder.getattr self n
                      = assoc n ModuleBuilder.base_namespace).
  { intros n. unfold ModuleBuilder.getattr. by rewrite Hns. }
  unfold ModuleBuilder._setup_env, bind, called, modify.
  destruct (for_each_export setup self (ModuleBuilder.exported_env_vars self)
              (emit (EvCall (ModuleBuilder.module_builder_name self) "_setup_env") s))
    as (s' & Hrun & Henv & _).
  { intros n Hn. rewrite Hnames in Hn. rewrite Hget.
    repeat (apply elem_of_cons in Hn as [->|Hn]; [eexists; split; [reflexivity|done]|]).
    by apply elem_of_nil in Hn. }
  exists s'. split; [done|]. rewrite Henv, Hnames.
  change (host (emit (EvCall (ModuleBuilder.module_builder_name self) "_setup_env") s))
    with (host s).
  change (ModuleBuilder.context setup
            (emit (EvCall (ModuleBuilder.module_builder_name self) "_setup_env") s))
    with c.
  cbn [fold_left environ emit].
  rewrite (export_generator (host s) c self _ "xenv_archflags"
             ModuleBuilder.xenv_archflags "ARCHFLAGS" " "
             (filter (λ x, x ≠ "") ["-arch"; architecture (target_system setup)]))
    by (by rewrite ?Hget).
  rewrite (export_generator (host s) c self _ "xenv_cpath"
             ModuleBuilder.xenv_cpath "CPATH" sep
             (existing_under c ["include"; "include/readline"; "include/uuid";
                                "include/openssl"]));
    [| by rewrite Hget | done | done
     | exact (kept_fragments_checked c
                ["include"; "include/readline"; "include/uuid"; "include/openssl"])].
  rewrite (export_generator (host s) c self _ "xenv_ld_library_path"
             ModuleBuilder.xenv_ld_library_path "LD_LIBRARY_PATH" sep
             (existing_under c ["lib"]));
    [| by rewrite Hget | done | done | exact (kept_fragments_checked c ["lib"])].
  rewrite (export_generator (host s) c self _ "xenv_library_path"
             ModuleBuilder.xenv_library_path "LIBRARY_PATH" sep
             (existing_under c ["lib"]));
    [| by rewrite Hget | done | done | exact (kept_fragments_checked c ["lib"])].
  rewrite (export_generator (host s) c self _ "xenv_macosx_deployment_target"
             ModuleBuilder.xenv_macosx_deployment_target "MACOSX_DEPLOYMENT_TARGET" " "
             (if Target.is_macos (target_system setup) then ["10.14"] else []));
    [| by rewrite Hget | done | done
     | unfold ModuleBuilder.xenv_macosx_deployment_target; cbn [ctx_target c];
       by destruct (Target.is_macos _)].
  rewrite (export_generator (host s) c self _ "xenv_path"
             ModuleBuilder.xenv_path "PATH" sep
             (existing_under c ["bin"] ++ ["/usr/bin"; "/bin"]));
    [| by rewrite Hget | done | done
     | unfold ModuleBuilder.xenv_path;
       by rewrite kept_fragments_cons, kept_fragments_checked_one].
  rewrite (export_generator (host s) c self _ "xenv_pkg_config_path"
             ModuleBuilder.xenv_pkg_config_path "PKG_CONFIG_PATH" sep
             (existing_under c ["lib/pkgconfig"]));
    [| by rewrite Hget | done | done
     | exact (kept_fragments_checked c ["lib/pkgconfig"])].
  done.
Qed.

Lemma plain_module_environment_witness :
  ∃ s',
    ModuleBuilder._setup_env (Sample.setup_for Sample.on_linux []) Sample.bdb
      Sample.with_deps = (Ret tt, s')
    ∧ environ s' !! "PATH" = Some "/usr/bin:/bin"
    ∧ environ s' !! "CPATH" = Some "/work/build/cpython-3.9.6/deps/include"
    ∧ environ s' !! "PKG_CONFIG_PATH" = None.
Proof.
  destruct (plain_module_environment (Sample.setup_for Sample.on_linux []) Sample.bdb
              Sample.with_deps) as (s' & Hrun & Henv).
  - reflexivity.
  - exists s'. split; [exact Hrun|]. rewrite Henv.
    split; [vm_compute; reflexivity|]. split; vm_compute; reflexivity.
Defined.

(** ** SupportedPythonVersions: add, then look up *)

(** X18. SupportedPythonVersions._add and family: a family that was added is found
    under its name, whether the lookup is fatal or not, with the versions
    given; the lookup of another name is as before, and for a name that is
    not registered it aborts when fatal and gives [None] otherwise; the name
    is appended to the list of family names. *)
Theorem add_then_family (self : SupportedPythonVersions.t) (name : string)
    (versions : list Version.t) (fatal : bool) (s : State) :
  let self' := SupportedPythonVersions._add self name versions in
  SupportedPythonVersions.family self' name fatal s
  = (Ret (Some (SupportedPythonVersions.mkPythonVersions name versions)), s)
  ∧ SupportedPythonVersions.all_family_names self'
    = SupportedPythonVersions.all_family_names self ++ [name]
  ∧ (∀ other, other ≠ name →
       SupportedPythonVersions.family self' other fatal s
       = SupportedPythonVersions.family self other fatal s)
  ∧ (∀ other, other ≠ name →
       SupportedPythonVersions.family_by_name self !! other = None →
       SupportedPythonVersions.family self' other true s
       = (Raise (Abort ("Python family '" +:+ other +:+ "' is not yet supported")), s)
       ∧ SupportedPythonVersions.family self' other false s = (Ret None, s)).
Proof.
  intros self'. unfold SupportedPythonVersions.family, self', SupportedPythonVersions._add.
  cbn [SupportedPythonVersions.family_by_name SupportedPythonVersions.family_list].
  split_and!.
  - rewrite lookup_insert_eq. rewrite bool_decide_eq_true_2 by eauto.
    by rewrite andb_false_r.
  - unfold SupportedPythonVersions.all_family_names. cbn. by rewrite fmap_app.
  - intros other Hother. by rewrite lookup_insert_ne.
  - intros other Hother Hnone. rewrite lookup_insert_ne by done. rewrite Hnone.
    rewrite bool_decide_eq_false_2 by (by intros [? ?]). done.
Qed.

(** ** The builders a constructor creates *)

Lemma string_app_inv_head (p a b : string) : p +:+ a = p +:+ b → a = b.
Proof. induction p as [|c p IH]; simpl; [done|]. intros [= H]. by apply IH. Qed.

Lemma builders_add_skipped (self : BuildSetup) (m : ModuleBuilder) :
  builders (BuildSetup.add_skipped self m) ≡ₚ m :: builders self.
Proof.
  unfold builders. cbn [python_builder skipped_modules active_modules BuildSetup.add_skipped].
  rewrite <- (app_assoc (skipped_modules self) [m]). cbn [app].
  rewrite (app_assoc (option_list _)), <- Permutation_middle.
  by rewrite <- app_assoc.
Qed.

Lemma builders_add_active (self : BuildSetup) (m : ModuleBuilder) :
  builders (BuildSetup.add_active self m) ≡ₚ m :: builders self.
Proof.
  unfold builders. cbn [python_builder skipped_modules active_modules BuildSetup.add_active].
  rewrite !app_assoc, <- Permutation_cons_append. done.
Qed.

Lemma well_attached_add (self self' : BuildSetup) (c : ModuleClass) (s s' : State) :
  let m := mkModuleBuilder (next_id s) c
             (Path.join (Path.join (setup_build_folder self) "build")
                (AvailableBuilders.module_builder_name c)) in
  well_attached self s →
  builders self' ≡ₚ m :: builders self →
  setup_build_folder self' = setup_build_folder self →
  logs_folder self' = logs_folder self →
  deps_folder self' = deps_folder self →
  next_id s' = S (next_id s) →
  well_attached self' s'.
Proof.
  intros m (Hlogs & Hdeps & Hatt & Hlt & Hnd) Hperm Hf Hl Hdp Hn.
  unfold well_attached. rewrite Hf, Hl, Hdp, Hn.
  split_and!; [done | done | | |].
  - eapply Permutation_Forall; [symmetry; exact Hperm|]. by constructor.
  - eapply Permutation_Forall; [symmetry; exact Hperm|].
    constructor; [cbn; lia|]. eapply Forall_impl; [exact Hlt|]. cbn. lia.
  - apply (NoDup_Permutation_proper _ _ (fmap_Permutation oid _ _ Hperm)).
    rewrite fmap_cons. apply NoDup_cons. split; [|done].
    intros Hin. apply list_elem_of_fmap in Hin as (m' & Heq & Hin).
    rewrite Forall_forall in Hlt. specialize (Hlt m' Hin). cbn in Heq. lia.
Qed.

Lemma classify_well_attached (self : BuildSetup) (name : string) (s : State) :
  well_attached self s →
  ∃ self' s',
    BuildSetup.classify self name s = (Ret self', s')
    ∧ setup_build_folder self' = setup_build_folder self
    ∧ well_attached self' s'.
Proof.
  intros Hw. unfold BuildSetup.classify, bind. rewrite get_builder_lookup.
  destruct (assoc name (AvailableBuilders.available (module_builders self))) as [c|].
  - destruct (Py.truthy_opt _).
    + eexists _, _. split; [reflexivity|]. split; [done|].
      eapply well_attached_add; [exact Hw | apply builders_add_skipped | done..].
    + eexists _, _. split; [reflexivity|]. split; [done|].
      eapply well_attached_add; [exact Hw | apply builders_add_active | done..].
  - eexists _, _. split; [reflexivity|]. split; [done|]. exact Hw.
Qed.

Lemma classify_all_well_attached (names : list string) (self : BuildSetup) (s : State) :
  well_attached self s →
  ∃ self' s',
    BuildSetup.classify_all self names s = (Ret self', s')
    ∧ setup_build_folder self' = setup_build_folder self
    ∧ well_attached self' s'.
Proof.
  revert self s. induction names as [|name rest IH]; intros self s Hw; simpl.
  - by eexists _, _.
  - unfold bind.
    destruct (classify_well_attached self name s Hw) as (self1 & s1 & -> & Hf1 & Hw1).
    destruct (IH self1 s1 Hw1) as (self2 & s2 & -> & Hf2 & Hw2).
    eexists _, _. split; [reflexivity|]. split; [congruence|done].
Qed.

Lemma string_app_assoc (a b c : string) : (a +:+ b) +:+ c = a +:+ (b +:+ c).
Proof.
  induction a as [|x a IH]; [done|].
  change (String x ((a +:+ b) +:+ c) = String x (a +:+ (b +:+ c))). by f_equal.
Qed.

Lemma attached_not_logs_deps (folder : string) (m : ModuleBuilder) :
  attached_under folder m →
  build_folder m ≠ Path.join folder "logs" ∧ build_folder m ≠ Path.join folder "deps".
Proof.
  unfold attached_under, Path.join. intros ->.
  rewrite !string_app_assoc.
  split; intros H%string_app_inv_head; discriminate H.
Qed.

Lemma validate_next_id (self : SupportedPythonVersions.t) (spec : PythonSpec)
    (s : State) :
  next_id (SupportedPythonVersions.validate self spec s).2 = next_id s.
Proof.
  unfold SupportedPythonVersions.validate, SupportedPythonVersions.family,
    bind, gets, when, abort, raise, ret, LOG, modify.
  destruct (match spec_version spec with
            | None => true | Some v => negb (Version.is_valid v) end);
    simpl; [done|].
  destruct (SupportedPythonVersions.family_by_name self !! spec_family spec); simpl;
    [|done].
  destruct (spec_version spec); simpl; [|done].
  by destruct (negb _).
Qed.

Lemma constructor_refuses (supported : SupportedPythonVersions.t)
    (registry python_builders : AvailableBuilders.t) (pfx : option string)
    (spec : PythonSpec) (modules : pyval) (folder dist : string)
    (target : option string) (s : State) :
  (SupportedPythonVersions.validate supported spec s).1 = Ret tt →
  Py.contains " " folder = true →
  ∃ message s',
    BuildSetup.__init__ supported registry python_builders pfx spec modules
      folder dist target s = (Raise (Abort message), s')
    ∧ next_id s' = next_id s.
Proof.
  intros Hv Hsp. unfold BuildSetup.__init__.
  unfold bind at 1.
  pose proof (validate_next_id supported spec s) as Hnext.
  destruct (SupportedPythonVersions.validate supported spec s) as [[[]|e] s0];
    [|discriminate Hv]. cbn [fst snd] in Hnext.
  unfold bind at 1. unfold gets at 1.
  unfold bind at 1. unfold modify at 1.
  rewrite Hsp. unfold when, bind, abort, raise. cbn.
  eexists _, _. split; [reflexivity|exact Hnext].
Qed.

Lemma constructor_attaches (supported : SupportedPythonVersions.t)
    (registry python_builders : AvailableBuilders.t) (pfx : option string)
    (spec : PythonSpec) (modules : pyval) (folder dist : string)
    (target : option string) (s : State) :
  (SupportedPythonVersions.validate supported spec s).1 = Ret tt →
  Py.contains " " folder = false →
  ∃ setup s',
    BuildSetup.__init__ supported registry python_builders pfx spec modules
      folder dist target s = (Ret setup, s')
    ∧ setup_build_folder setup
      = Path.join (absolute (host s) folder)
          (Py.replace_char ":" "-" (spec_text spec))
    ∧ Forall (attached_under (setup_build_folder setup)) (builders setup)
    ∧ NoDup (oid <$> builders setup)
    ∧ Forall (λ m, oid m < next_id s') (builders setup)
    ∧ Forall (λ m, build_folder m ≠ logs_folder setup
                   ∧ build_folder m ≠ deps_folder setup) (builders setup).
Proof.
  intros Hv Hsp. unfold BuildSetup.__init__.
  unfold bind at 1.
  pose proof (validate_same_world supported spec s) as (Hhost & _).
  destruct (SupportedPythonVersions.validate supported spec s) as [[[]|e] s0];
    [|discriminate Hv]. cbn [fst snd] in Hhost.
  unfold bind at 1. unfold gets at 1.
  unfold bind at 1. unfold modify at 1.
  rewrite Hsp. unfold when.
  unfold bind at 1. unfold ret at 1.
  unfold bind at 1. rewrite get_builder_lookup.
  set (s1 := set_log_counter (λ _, 0) s0).
  rewrite Hhost.
  set (sbf := Path.join (absolute (host s) folder)
                (Py.replace_char ":" "-" (spec_text spec))).
  assert (Hfin : ∀ (dist' dl : string) (pb : option ModuleBuilder) (s2 : State),
    Forall (attached_under sbf) (option_list pb) →
    Forall (λ m, oid m < next_id s2) (option_list pb) →
    ∃ setup s',
      (modules0 <- BuildSetup.resolved_module_names
                     (mkBuildSetup spec (Target.__init__ (host s) target) sbf dist'
                        (Path.join sbf "deps") dl
                        (Path.join sbf "logs") registry pb [] [] [] pfx) modules ;;
       BuildSetup.classify_all
         (mkBuildSetup spec (Target.__init__ (host s) target) sbf dist'
            (Path.join sbf "deps") dl
            (Path.join sbf "logs") registry pb [] [] [] pfx) modules0) s2
      = (Ret setup, s')
      ∧ setup_build_folder setup = sbf
      ∧ Forall (attached_under (setup_build_folder setup)) (builders setup)
      ∧ NoDup (oid <$> builders setup)
      ∧ Forall (λ m, oid m < next_id s') (builders setup)
      ∧ Forall (λ m, build_folder m ≠ logs_folder setup
                     ∧ build_folder m ≠ deps_folder setup) (builders setup)).
  { intros dist' dl pb s2 Hatt Hlt.
    set (self0 := mkBuildSetup spec (Target.__init__ (host s) target) sbf dist'
                    (Path.join sbf "deps") dl
                    (Path.join sbf "logs") registry pb [] [] [] pfx).
    unfold bind at 1.
    destruct (resolved_module_names_pure self0 modules s2) as [names Hn]. rewrite Hn.
    destruct (classify_all_well_attached names self0 s2)
      as (setup & s' & -> & Hf & Hlogs & Hdeps & Ha & Hl & Hnd).
    { unfold well_attached, builders. cbn. rewrite !app_nil_r.
      split_and!; [done..|]. destruct pb; cbn; [apply NoDup_singleton | apply NoDup_nil_2]. }
    exists setup, s'. split_and!; try done.
    rewrite Hlogs, Hdeps. eapply Forall_impl; [exact Ha|].
    intros m Hm. by apply attached_not_logs_deps. }
  destruct (assoc (spec_family spec) (AvailableBuilders.available python_builders))
    as [c|]; apply Hfin; cbn; repeat constructor.
Qed.

(** X14. BuildSetup.__init__, the builders it creates: once the spec has passed
    validation, the constructor aborts, without creating a builder, when the
    path given for the build folder holds a space; otherwise it returns a
    setup whose build folder is the absolute path of the folder given
    followed by the spec's text with [":"] replaced by ["-"]; the
    interpreter's builder and the builders of the skipped and active modules
    are distinct objects, each attached under [<build folder>/build/<name>],
    and none of these folders is the setup's logs folder or its dependencies
    folder. *)
Theorem constructor_builders (supported : SupportedPythonVersions.t)
    (registry python_builders : AvailableBuilders.t) (pfx : option string)
    (spec : PythonSpec) (modules : pyval) (folder dist : string)
    (target : option string) (s : State) :
  (SupportedPythonVersions.validate supported spec s).1 = Ret tt →
  let r := BuildSetup.__init__ supported registry python_builders pfx spec modules
             folder dist target s in
  (Py.contains " " folder = true →
   ∃ message s', r = (Raise (Abort message), s') ∧ next_id s' = next_id s)
  ∧ (Py.contains " " folder = false →
     ∃ setup s',
       r = (Ret setup, s')
       ∧ setup_build_folder setup
         = Path.join (absolute (host s) folder)
             (Py.replace_char ":" "-" (spec_text spec))
       ∧ Forall (attached_under (setup_build_folder setup)) (builders setup)
       ∧ NoDup (oid <$> builders setup)
       ∧ Forall (λ m, oid m < next_id s') (builders setup)
       ∧ Forall (λ m, build_folder m ≠ logs_folder setup
                      ∧ build_folder m ≠ deps_folder setup) (builders setup)).
Proof.
  intros Hv r. split; intros Hsp.
  - by apply constructor_refuses.
  - by apply constructor_attaches.
Qed.

Lemma constructor_builders_witness :
  (∃ message s',
     BuildSetup.__init__ SupportedPythonVersions.__init__ Db.module_builders
       Sample.python_builders None Sample.cpython_396 (PStr "all")
       "/work/my build" "/work/dist" (Some "darwin-arm64") Sample.start
     = (Raise (Abort message), s')
     ∧ next_id s' = next_id Sample.start)
  ∧ ∃ setup s',
      Sample.new_setup (PStr "all") (Some "darwin-arm64") Sample.start = (Ret setup, s')
      ∧ setup_build_folder setup = "/work/build/cpython-3.9.6"
      ∧ Forall (attached_under (setup_build_folder setup)) (builders setup)
      ∧ NoDup (oid <$> builders setup)
      ∧ Forall (λ m, oid m < next_id s') (builders setup)
      ∧ Forall (λ m, build_folder m ≠ logs_folder setup
                     ∧ build_folder m ≠ deps_folder setup) (builders setup).
Proof.
  split.
  - apply (constructor_builders SupportedPythonVersions.__init__ Db.module_builders
             Sample.python_builders None Sample.cpython_396 (PStr "all")
             "/work/my build" "/work/dist" (Some "darwin-arm64") Sample.start eq_refl).
    reflexivity.
  - apply (constructor_builders SupportedPythonVersions.__init__ Db.module_builders
             Sample.python_builders None Sample.cpython_396 (PStr "all") "/work/build"
             "/work/dist" (Some "darwin-arm64") Sample.start eq_refl).
    reflexivity.
Defined.

(** ** BuildSetup.compile stops at the first failure *)

Lemma for_each_raises {A} (l : list A) (body : A → M unit) (s s' : State) (e : exn) :
  for_each l body s = (Raise e, s') →
  ∃ before x after s1,
    l = before ++ x :: after
    ∧ for_each before body s = (Ret tt, s1)
    ∧ body x s1 = (Raise e, s').
Proof.
  revert s. induction l as [|a l IH]; intros s; simpl; [done|].
  unfold bind. destruct (body a s) as [[[]|e1] s1] eqn:Ha.
  - intros H. destruct (IH s1 H) as (before & x & after & s2 & -> & Hrun & Hx).
    exists (a :: before), x, after, s2. split; [done|]. split; [|done].
    simpl. unfold bind. by rewrite Ha.
  - intros [= -> ->]. by exists [], a, l, s.
Qed.

(** *** Steps that start no compilation *)

Lemma compilations_app (t1 t2 : list event) :
  compilations (t1 ++ t2) = compilations t1 ++ compilations t2.
Proof. apply omap_app. Qed.

Lemma inner_refl (s : State) : inner s s.
Proof. exists []. by rewrite app_nil_r. Qed.

Lemma inner_same (s s' : State) : trace s' = trace s → inner s s'.
Proof. intros Ht. exists []. by rewrite app_nil_r. Qed.

Lemma inner_trans (s1 s2 s3 : State) : inner s1 s2 → inner s2 s3 → inner s1 s3.
Proof.
  intros (n1 & Ht1 & Hc1) (n2 & Ht2 & Hc2). exists (n1 ++ n2).
  by rewrite Ht2, Ht1, app_assoc, compilations_app, Hc1, Hc2.
Qed.

Lemma inner_emit (e : event) (s : State) : compilations [e] = [] → inner s (emit e s).
Proof. intros He. by exists [e]. Qed.

Ltac inner_state :=
  cbn;
  repeat match goal with
         | |- context [if ?b then _ else _] => destruct b
         end;
  first [ apply inner_refl
        | (apply inner_same; reflexivity)
        | (eexists; split; [cbn; reflexivity | reflexivity]) ].

Lemma Inner_ret {A} (a : A) : Inner (ret a).
Proof. intros s. apply inner_refl. Qed.

Lemma Inner_raise {A} (e : exn) : Inner (@raise A e).
Proof. intros s. apply inner_refl. Qed.

Lemma Inner_abort {A} (message : string) : Inner (@abort A message).
Proof. intros s. apply inner_refl. Qed.

Lemma Inner_gets {A} (f : State → A) : Inner (gets f).
Proof. intros s. apply inner_refl. Qed.

Lemma Inner_fresh : Inner fresh.
Proof. intros s. by apply inner_same. Qed.

Lemma Inner_modify (f : State → State) : (∀ s, inner s (f s)) → Inner (modify f).
Proof. intros Hf s. apply Hf. Qed.

Lemma Inner_bind {A B} (m : M A) (k : A → M B) :
  Inner m → (∀ a, Inner (k a)) → Inner (bind m k).
Proof.
  intros Hm Hk s. unfold bind. specialize (Hm s).
  destruct (m s) as [[a|e] s1]; simpl in *; [|done].
  eapply inner_trans; [done|]. apply Hk.
Qed.

Lemma Inner_when (b : bool) (m : M unit) : Inner m → Inner (when b m).
Proof. intros Hm. destruct b; [done|]. apply Inner_ret. Qed.

Lemma Inner_for_each {A} (l : list A) (body : A → M unit) :
  (∀ x, x ∈ l → Inner (body x)) → Inner (for_each l body).
Proof.
  induction l as [|x l IH]; intros Hb; simpl; [apply Inner_ret|].
  apply Inner_bind; [apply Hb; left|]. intros _. apply IH.
  intros y Hy. apply Hb. by right.
Qed.

Lemma Inner_try_finally {A} (body : M A) (cleanup : M unit) :
  Inner body → Inner cleanup → Inner (try_finally body cleanup).
Proof.
  intros Hb Hc s. unfold try_finally. specialize (Hb s).
  destruct (body s) as [r s1]. specialize (Hc s1).
  destruct (cleanup s1) as [[[]|e] s2]; simpl in *; by eapply inner_trans.
Qed.

Lemma Inner_LOG (level : log_level) (message : string) : Inner (LOG level message).
Proof. apply Inner_modify. intros s. by apply inner_emit. Qed.

Lemma Inner_called (self method : string) :
  String.eqb method "compile" = false → Inner (called self method).
Proof.
  intros Hm. apply Inner_modify. intros s. apply inner_emit. cbn. by rewrite Hm.
Qed.

Lemma Inner_external (c : ext_call) : Inner (external c).
Proof.
  intros s. unfold external.
  destruct (externals (emit (EvExternal c) s)) as [|[created|e] rest]; simpl;
    by exists [EvExternal c].
Qed.

Lemma Inner_ensure_folder (path : string) (clean : bool) :
  Inner (ensure_folder path clean).
Proof. apply Inner_modify. intros s. inner_state. Qed.

Lemma Inner_delete_file (path : string) : Inner (delete_file path).
Proof. apply Inner_modify. intros s. inner_state. Qed.

Create HintDb inner.
#[local] Hint Resolve Inner_ret Inner_raise Inner_abort Inner_gets Inner_fresh Inner_LOG
  Inner_called Inner_external Inner_ensure_folder Inner_delete_file : inner.
#[local] Hint Extern 1 (String.eqb _ _ = false) => reflexivity : inner.

Ltac inner :=
  repeat (intros;
          match goal with
          | |- Inner (bind _ _) => apply Inner_bind
          | |- Inner (when _ _) => apply Inner_when
          | |- Inner (if ?b then _ else _) => destruct b
          | |- Inner (match ?x with _ => _ end) => destruct x
          | |- Inner (modify _) => apply Inner_modify; intros; inner_state
          | |- Inner _ => solve [eauto with inner]
          end).

Lemma Inner_configure_make (setup : BuildSetup) (self : ModuleBuilder) :
  Inner (ModuleBuilder.configure_make setup self).
Proof.
  unfold ModuleBuilder.configure_make, ModuleBuilder.run_configure,
    ModuleBuilder.run_make_install, ModuleBuilder.run.
  inner.
Qed.

#[local] Hint Resolve Inner_configure_make : inner.

Lemma Inner_call_build_step (setup : BuildSetup) (self : ModuleBuilder)
    (func_name : string) :
  String.eqb func_name "compile" = false →
  Inner (ModuleBuilder.call_build_step setup self func_name).
Proof.
  intros Hname.
  unfold ModuleBuilder.call_build_step, ModuleBuilder._do_darwin_compile,
    ModuleBuilder._do_linux_compile.
  inner.
Qed.

#[local] Hint Resolve Inner_call_build_step : inner.

Lemma exporter_not_compile (name : string) :
  Py.startswith name "xenv_" = true → String.eqb name "compile" = false.
Proof.
  intros H. destruct name as [|c name]; [done|].
  unfold Py.startswith in H. cbn [String.prefix] in H.
  destruct (ascii_dec "x" c) as [<-|]; [reflexivity | discriminate H].
Qed.

Lemma Inner_export_one (setup : BuildSetup) (self : ModuleBuilder) (func_name : string) :
  String.eqb func_name "compile" = false →
  Inner (ModuleBuilder.export_one setup self func_name).
Proof.
  intros Hname. unfold ModuleBuilder.export_one, ModuleBuilder.setenv. inner.
Qed.

Lemma Inner_setup_env (setup : BuildSetup) (self : ModuleBuilder) :
  Inner (ModuleBuilder._setup_env setup self).
Proof.
  unfold ModuleBuilder._setup_env. apply Inner_bind; [by apply Inner_called|].
  intros _. apply Inner_for_each. intros name Hname.
  apply Inner_export_one, exporter_not_compile.
  unfold ModuleBuilder.exported_env_vars in Hname.
  apply list_elem_of_filter in Hname as [Hx _]. by apply Is_true_true.
Qed.

Lemma Inner_unpack (setup : BuildSetup) (self : ModuleBuilder) :
  Inner (ModuleBuilder.unpack setup self).
Proof. unfold ModuleBuilder.unpack, ModuleBuilder.download. inner. Qed.

Lemma Inner_finalize (setup : BuildSetup) (self : ModuleBuilder) :
  Inner (ModuleBuilder._finalize setup self).
Proof. unfold ModuleBuilder._finalize, fix_lib_permissions. inner. Qed.

Lemma Inner_prepare (self : ModuleBuilder) : Inner (ModuleBuilder._prepare self).
Proof. unfold ModuleBuilder._prepare. inner. Qed.

#[local] Hint Resolve Inner_setup_env Inner_unpack Inner_finalize Inner_prepare : inner.

Lemma Inner_compile_steps (setup : BuildSetup) (self : ModuleBuilder) (x_debug : bool) :
  Inner (compile_steps setup self x_debug).
Proof. unfold compile_steps. inner. Qed.

Lemma Inner_captured_logs (setup : BuildSetup) (self : ModuleBuilder) (body : M unit) :
  Inner body → Inner (ModuleBuilder.captured_logs setup self body).
Proof.
  intros Hbody.
  unfold ModuleBuilder.captured_logs, _get_logs_path, ModuleBuilder.addHandler,
    ModuleBuilder.removeHandler.
  apply Inner_try_finally; inner.
Qed.

(** A compilation starts one compilation: its own. *)
Lemma compile_compilations (setup : BuildSetup) (self : ModuleBuilder) (x_debug : bool)
    (s : State) :
  ∃ new,
    trace (ModuleBuilder.compile setup self x_debug s).2 = trace s ++ new
    ∧ compilations new = [ModuleBuilder.module_builder_name self].
Proof.
  rewrite compile_unfold.
  unfold bind at 1. unfold called at 1. unfold modify at 1.
  unfold bind at 1. unfold modify at 1.
  set (s1 := emit (EvPrint (ModuleBuilder.module_builder_name self))
               (emit (EvCall (ModuleBuilder.module_builder_name self) "compile") s)).
  destruct (Inner_captured_logs setup self (compile_steps setup self x_debug)
              (Inner_compile_steps setup self x_debug) s1) as (new & Ht & Hc).
  exists ([EvCall (ModuleBuilder.module_builder_name self) "compile";
           EvPrint (ModuleBuilder.module_builder_name self)] ++ new).
  split; [rewrite Ht; subst s1; cbn; by rewrite <- !app_assoc|].
  by rewrite compilations_app, Hc.
Qed.

Lemma for_each_compilations (setup : BuildSetup) (x_debug : bool)
    (l : list ModuleBuilder) (s s' : State) :
  for_each l (λ m, ModuleBuilder.compile setup m x_debug) s = (Ret tt, s') →
  ∃ new,
    trace s' = trace s ++ new
    ∧ compilations new = ModuleBuilder.module_builder_name <$> l.
Proof.
  revert s. induction l as [|a l IH]; intros s; simpl.
  - intros [= <-]. exists []. by rewrite app_nil_r.
  - unfold bind.
    destruct (compile_compilations setup a x_debug s) as (n1 & Ht1 & Hc1).
    destruct (ModuleBuilder.compile setup a x_debug s) as [[[]|e] s1]; [|done].
    intros Hrest. destruct (IH s1 Hrest) as (n2 & Ht2 & Hc2).
    exists (n1 ++ n2). simpl in Ht1.
    by rewrite Ht2, Ht1, app_assoc, compilations_app, Hc1, Hc2.
Qed.

Lemma build_start_inner (setup : BuildSetup) (x_debug : bool) (s : State) :
  inner s (build_start setup x_debug s).
Proof.
  unfold build_start. eapply inner_trans; [apply Inner_ensure_folder|].
  by apply inner_emit.
Qed.

(** X7. BuildSetup.compile stops at the first failure: when no module is
    unknown and [compile] raises, either the exception is that of one
    compilation, of an active module or of the interpreter's builder when the
    setup has one: the compilations before it, in the order of
    [active_modules], had returned, the state at the end is the one this
    compilation left, and the compilations started during the call are those
    of the builders before it and its own, in order: none was started after
    it; or the setup has no builder for the interpreter, every active module
    was compiled, and the exception is the [AttributeError] of the call on
    [None], raised in the state the last compilation left. *)
Theorem build_stops_at_first_failure (setup : BuildSetup) (x_debug : bool)
    (s : State) (e : exn) :
  unknown_modules setup = [] →
  (BuildSetup.compile setup x_debug s).1 = Raise e →
  (∃ before m after s1,
     active_modules setup ++ option_list (python_builder setup) = before ++ m :: after
     ∧ for_each before (λ m, ModuleBuilder.compile setup m x_debug)
         (build_start setup x_debug s) = (Ret tt, s1)
     ∧ ModuleBuilder.compile setup m x_debug s1
       = (Raise e, (BuildSetup.compile setup x_debug s).2)
     ∧ ∃ new,
         trace (BuildSetup.compile setup x_debug s).2 = trace s ++ new
         ∧ compilations new = ModuleBuilder.module_builder_name <$> (before ++ [m]))
  ∨ (python_builder setup = None
     ∧ e = Failure "AttributeError"
     ∧ for_each (active_modules setup) (λ m, ModuleBuilder.compile setup m x_debug)
         (build_start setup x_debug s)
       = (Ret tt, (BuildSetup.compile setup x_debug s).2)
     ∧ ∃ new,
         trace (BuildSetup.compile setup x_debug s).2 = trace s ++ new
         ∧ compilations new
           = ModuleBuilder.module_builder_name <$> active_modules setup).
Proof.
  intros Hu Hr. rewrite build_compile_loop in * by done.
  destruct (build_start_inner setup x_debug s) as (n0 & Ht0 & Hc0).
  unfold bind in *.
  destruct (for_each _ _ (build_start setup x_debug s)) as [[[]|e'] s'] eqn:Hrun.
  - destruct (python_builder setup) as [p|] eqn:Hp; [discriminate Hr|].
    right. cbn in Hr. injection Hr as <-.
    change (option_list None) with (@nil ModuleBuilder) in Hrun.
    rewrite app_nil_r in Hrun. cbn [raise snd]. split_and!; try done.
    destruct (for_each_compilations _ _ _ _ _ Hrun) as (n1 & Ht1 & Hc1).
    exists (n0 ++ n1).
    by rewrite Ht1, Ht0, app_assoc, compilations_app, Hc0, Hc1.
  - left. cbn in Hr. injection Hr as ->. cbn [snd].
    destruct (for_each_raises _ _ _ _ _ Hrun)
      as (before & m & after & s1 & Hl & Hbefore & Hm).
    exists before, m, after, s1. split_and!; try done.
    destruct (for_each_compilations _ _ _ _ _ Hbefore) as (n1 & Ht1 & Hc1).
    destruct (compile_compilations setup m x_debug s1) as (n2 & Ht2 & Hc2).
    rewrite Hm in Ht2. cbn [snd] in Ht2.
    exists (n0 ++ n1 ++ n2). split.
    + by rewrite Ht2, Ht1, Ht0, <- !app_assoc.
    + by rewrite !compilations_app, Hc0, Hc1, Hc2, fmap_app.
Qed.

Lemma build_stops_at_first_failure_witness :
  let setup := Sample.setup_for Sample.on_linux [] in
  let final := (BuildSetup.compile setup false Sample.broken_tarball).2 in
  (∃ before m after s1,
     [Sample.bdb; Sample.python] = before ++ m :: after
     ∧ for_each before (λ m, ModuleBuilder.compile setup m false)
         (build_start setup false Sample.broken_tarball) = (Ret tt, s1)
     ∧ ModuleBuilder.compile setup m false s1
       = (Raise (Abort "decompress failed"), final)
     ∧ ∃ new,
         trace final = trace Sample.broken_tarball ++ new
         ∧ compilations new = ModuleBuilder.module_builder_name <$> (before ++ [m]))
  ∨ (python_builder setup = None
     ∧ Abort "decompress failed" = Failure "AttributeError"
     ∧ for_each (active_modules setup) (λ m, ModuleBuilder.compile setup m false)
         (build_start setup false Sample.broken_tarball) = (Ret tt, final)
     ∧ ∃ new,
         trace final = trace Sample.broken_tarball ++ new
         ∧ compilations new
           = ModuleBuilder.module_builder_name <$> active_modules setup).
Proof.
  apply (build_stops_at_first_failure (Sample.setup_for Sample.on_linux [])
           false Sample.broken_tarball (Abort "decompress failed")).
  - reflexivity.
  - vm_compute. reflexivity.
Defined.

(** ** The log capture of a compilation is a scoped resource *)

Lemma Quiet_compile_steps (setup : BuildSetup) (self : ModuleBuilder) (x_debug : bool) :
  Quiet (compile_steps setup self x_debug).
Proof. unfold compile_steps. quiet. Qed.

(** What [released] says of the handlers, with the bound on the handlers
    attached at once. *)
Lemma released_scoped (self : ModuleBuilder) (s s' : State) :
  handlers_fresh s → log_handler s !! oid self = None → released s s' →
  ∃ new,
    trace s' = trace s ++ new
    ∧ (handler_events new = []
       ∨ handler_events new = [EvAddHandler (next_id s); EvRemoveHandler (next_id s)])
    ∧ root_handlers s' = root_handlers s
    ∧ log_handler s' !! oid self = None
    ∧ log_handler s' = log_handler s
    ∧ peak_handlers (root_handlers s) new ≤ length (root_handlers s) + 1.
Proof.
  intros Hfresh Hnone Hrel.
  destruct (released_bracketed s s' Hfresh Hrel) as ((new' & Ht' & _ & Hpeak) & _).
  destruct Hrel as ((new & Ht & Hh) & Hr & Hl & _).
  assert (new' = new) as ->.
  { apply (app_inv_head (trace s)). congruence. }
  exists new. split_and!; try done. by rewrite Hl.
Qed.

Lemma compile_capture_released (setup : BuildSetup) (self : ModuleBuilder)
    (x_debug : bool) (s : State) :
  handlers_fresh s → log_handler s !! oid self = None →
  released s (ModuleBuilder.compile setup self x_debug s).2.
Proof.
  intros Hfresh Hnone. rewrite compile_unfold.
  unfold bind at 1. unfold called at 1. unfold modify at 1.
  unfold bind at 1. unfold modify at 1.
  set (s1 := emit (EvPrint (ModuleBuilder.module_builder_name self))
               (emit (EvCall (ModuleBuilder.module_builder_name self) "compile") s)).
  destruct (captured_logs_released setup self (compile_steps setup self x_debug) s1)
    as ((new & Ht & Hh) & Hr & Hl & Hn).
  - apply Quiet_compile_steps.
  - intros h Hh. by apply Hfresh.
  - done.
  - split; [|done].
    exists ([EvCall (ModuleBuilder.module_builder_name self) "compile";
             EvPrint (ModuleBuilder.module_builder_name self)] ++ new).
    split; [rewrite Ht; subst s1; cbn; by rewrite <- !app_assoc|].
    rewrite handler_events_app. exact Hh.
Qed.

(** C9. The log capture of a module's compilation is a scoped resource: on
    every exit of [with self.captured_logs()], whatever the block under it
    returns or raises (the block itself leaving the logging root alone), and
    so on every exit of [ModuleBuilder.compile], success, failure of an
    external tool or unexpected fault alike, the only handler events are
    none, or the attachment of one new handler followed by its removal; the
    handlers attached to the logging root are afterwards those attached
    before the call, the builder's [_log_handler] is [None] again, no other
    builder's reference has changed, and at any time during the call at most
    one handler more than before was attached. Handlers are new objects
    ([handlers_fresh]) and the builder starts without handler, as after
    its creation and after every call. *)
Theorem log_capture_scoped (setup : BuildSetup) (self : ModuleBuilder) (x_debug : bool)
    (s : State) :
  handlers_fresh s → log_handler s !! oid self = None →
  (∀ body : M unit, Quiet body →
     let r := ModuleBuilder.captured_logs setup self body s in
     ∃ new,
       trace r.2 = trace s ++ new
       ∧ (handler_events new = []
          ∨ handler_events new
            = [EvAddHandler (next_id s); EvRemoveHandler (next_id s)])
       ∧ root_handlers r.2 = root_handlers s
       ∧ log_handler r.2 !! oid self = None
       ∧ log_handler r.2 = log_handler s
       ∧ peak_handlers (root_handlers s) new ≤ length (root_handlers s) + 1)
  ∧ (let r := ModuleBuilder.compile setup self x_debug s in
     ∃ new,
       trace r.2 = trace s ++ new
       ∧ (handler_events new = []
          ∨ handler_events new
            = [EvAddHandler (next_id s); EvRemoveHandler (next_id s)])
       ∧ root_handlers r.2 = root_handlers s
       ∧ log_handler r.2 !! oid self = None
       ∧ log_handler r.2 = log_handler s
       ∧ peak_handlers (root_handlers s) new ≤ length (root_handlers s) + 1).
Proof.
  intros Hfresh Hnone. split.
  - intros body Hbody r. apply (released_scoped self); [done..|].
    by apply captured_logs_released.
  - intros r. apply (released_scoped self); [done..|].
    by apply compile_capture_released.
Qed.

Lemma log_capture_scoped_witness :
  let setup := Sample.setup_for Sample.on_linux [] in
  let r := ModuleBuilder.compile setup Sample.bdb false Sample.broken_tarball in
  r.1 = Raise (Abort "decompress failed")
  ∧ handler_events (trace r.2) = [EvAddHandler 8; EvRemoveHandler 8]
  ∧ root_handlers r.2 = [7]
  ∧ log_handler r.2 !! 1 = None
  ∧ log_handler r.2 = ∅.
Proof.
  pose proof (log_capture_scoped (Sample.setup_for Sample.on_linux []) Sample.bdb false
                Sample.broken_tarball) as H.
  destruct H as [_ (new & _ & _ & Hr & Hl & Hall & _)].
  - intros h Hh. apply list_elem_of_singleton in Hh as ->. cbn. lia.
  - reflexivity.
  - split; [vm_compute; reflexivity|]. split; [vm_compute; reflexivity|].
    split; [exact Hr|]. split; [exact Hl | exact Hall].
Defined.

(** ** ModuleBuilder.compile: resuming in debug mode, or the full sequence *)

(** C8, counterexample: for a windows target the base builder has no build
    step: outside debug mode [compile] of the module [bdb] aborts after
    [_prepare], and neither a build step nor [_finalize] is called. *)
Lemma debug_resume_counterexample : ¬ debug_resume_as_stated.
Proof.
  intros H.
  destruct (H (Sample.setup_for Sample.on_windows []) Sample.bdb false Sample.start)
    as [_ Hfull].
  specialize (Hfull (or_introl eq_refl)).
  vm_compute in Hfull. discriminate Hfull.
Qed.

Lemma compile_finalize_only (setup : BuildSetup) (self : ModuleBuilder) (s : State) :
  is_dir (build_folder self) s = true →
  let r := ModuleBuilder.compile setup self true s in
  let name := ModuleBuilder.module_builder_name self in
  r.1 = Ret tt
  ∧ calls (trace r.2) = calls (trace s) ++ [(name, "compile"); (name, "_finalize")]
  ∧ ext_calls (trace r.2) = ext_calls (trace s).
Proof.
  intros Hdir r name.
  destruct (compile_around setup self true s)
    as (s1 & s3 & Hrun & Hc & Hx & He & Hh & Hd & Hv & Hdirs & _ & Hk).
  assert (Hdir1 : is_dir (build_folder self) s1 = true).
  { unfold is_dir in *. apply bool_decide_eq_true in Hdir.
    apply bool_decide_eq_true. rewrite Hdirs.
    destruct (dryrun s); [done|]. apply elem_of_union. by right. }
  assert (Hsteps : compile_steps setup self true s1
            = (Ret tt,
               emit (EvLog INFO ("Compiled " +:+ name +:+ " "
                                 +:+ ModuleBuilder.version setup self))
                 (emit (EvCall name "_finalize") s1))).
  { unfold compile_steps. unfold bind at 1. unfold gets at 1. by rewrite Hdir1. }
  rewrite Hsteps in Hrun, Hk. cbn [fst snd] in Hrun, Hk.
  subst r. rewrite Hrun. cbn [fst snd].
  destruct Hk as (Hc3 & Hx3 & _).
  rewrite Hc3, Hx3. cbn. rewrite !calls_app, !ext_calls_app, Hc, Hx. cbn.
  rewrite !app_nil_r, <- app_assoc. by split_and!.
Qed.

(** When [compile] does not resume, its block starts with [unpack], whatever
    comes of it. *)
Lemma compile_steps_unpack (setup : BuildSetup) (self : ModuleBuilder) (x_debug : bool)
    (s : State) :
  negb x_debug || negb (is_dir (build_folder self) s) = true →
  ∃ rest,
    calls (trace (compile_steps setup self x_debug s).2)
    = calls (trace s) ++ (ModuleBuilder.module_builder_name self, "unpack") :: rest.
Proof.
  intros Hcond.
  assert (Hhead : ∀ (a b : string) (U K1 K2 : unit → M unit) (s0 : State),
            bind (bind (bind (called a b) U) K1) K2 s0
            = bind (bind (U tt) K1) K2 (emit (EvCall a b) s0)) by reflexivity.
  unfold compile_steps. unfold bind at 1. unfold gets at 1. rewrite Hcond.
  unfold when, ModuleBuilder.unpack. rewrite Hhead.
  match goal with
  | |- context [(?m (emit ?e s)).2] =>
      assert (Hq : Quiet m) by (quiet; unfold ModuleBuilder.download; quiet)
  end.
  match goal with
  | |- context [(?m (emit ?e s)).2] =>
      destruct (Hq (emit e s)) as ((new & Ht & _) & _)
  end.
  exists (calls new). rewrite Ht. cbn. rewrite !calls_app. cbn.
  by rewrite <- app_assoc.
Qed.

Lemma compile_unpacks (setup : BuildSetup) (self : ModuleBuilder) (x_debug : bool)
    (s : State) :
  starts_afresh setup self x_debug s →
  let name := ModuleBuilder.module_builder_name self in
  ∃ rest,
    calls (trace (ModuleBuilder.compile setup self x_debug s).2)
    = calls (trace s) ++ (name, "compile") :: (name, "unpack") :: rest.
Proof.
  intros Hmode name.
  destruct (compile_around setup self x_debug s)
    as (s1 & s3 & Hrun & Hc & _ & _ & _ & _ & _ & Hdirs & _ & Hk).
  destruct (compile_steps_unpack setup self x_debug s1) as [rest Hrest];
    [by eapply not_resuming|].
  exists rest. rewrite Hrun. cbn [snd].
  destruct Hk as (-> & _). rewrite Hrest, Hc, <- app_assoc. done.
Qed.

(** Without build step for the platform, [compile] aborts after [_prepare]. *)
Lemma compile_stops_before_build (setup : BuildSetup) (self : ModuleBuilder)
    (x_debug : bool) (s : State) :
  starts_afresh setup self x_debug s →
  all_ok (externals s) → exporters_only self →
  ModuleBuilder.getattr self (dispatch_name setup) = None →
  let r := ModuleBuilder.compile setup self x_debug s in
  let name := ModuleBuilder.module_builder_name self in
  r.1 = Raise (Abort ("Compiling on platform '"
                      +:+ red (host s) (platform (target_system setup))
                      +:+ "' is not yet supported"))
  ∧ calls (trace r.2)
    = calls (trace s)
      ++ [(name, "compile"); (name, "unpack"); (name, "_setup_env"); (name, "_prepare")].
Proof.
  intros Hmode Hok Honly Hstep r name.
  destruct (compile_around setup self x_debug s)
    as (s1 & s3 & Hrun & Hc & Hx & He & Hh & Hd & Hv & Hdirs & Hpaths & Hk).
  pose proof (compile_steps_run setup self x_debug s1) as Hsteps.
  rewrite Hstep in Hsteps.
  destruct Hsteps as (s2 & Hs2 & Hr2);
    [by eapply not_resuming | by rewrite He | done |].
  rewrite Hs2 in Hrun, Hk. cbn [fst snd] in Hrun, Hk.
  subst r. rewrite Hrun. cbn [fst snd].
  split; [by rewrite Hh|].
  destruct Hk as (Hc3 & _). destruct Hr2 as (Hc2 & _).
  rewrite Hc3, Hc2, Hc, <- !app_assoc. done.
Qed.

(** C8. ModuleBuilder.compile, resuming or not: in debug mode, when the
    module's build folder is there, [compile] calls neither [unpack], nor the
    environment setup, nor a build step: it calls [_finalize] and returns,
    without external call. Outside debug mode, or when the build folder is
    not there (and is not the logs folder, which the log capture creates
    first), [compile] starts the full sequence: [unpack] is called first,
    whatever comes of it; as long as no external call fails, the sequence
    unpack, environment setup, prepare, build step, finalize runs to its end
    and [compile] returns when the builder is buildable on the platform,
    and [compile] aborts after [_prepare], without build step and without
    [_finalize], when the builder has no [_do_<platform>_compile] (none of
    its [xenv_] attributes being a build step). *)
Theorem compile_debug_resume (setup : BuildSetup) (self : ModuleBuilder)
    (x_debug : bool) (s : State) :
  let r := ModuleBuilder.compile setup self x_debug s in
  let name := ModuleBuilder.module_builder_name self in
  (x_debug = true → is_dir (build_folder self) s = true →
   r.1 = Ret tt
   ∧ calls (trace r.2) = calls (trace s) ++ [(name, "compile"); (name, "_finalize")]
   ∧ ext_calls (trace r.2) = ext_calls (trace s))
  ∧ (starts_afresh setup self x_debug s →
     (∃ rest,
        calls (trace r.2)
        = calls (trace s) ++ (name, "compile") :: (name, "unpack") :: rest)
     ∧ (all_ok (externals s) → buildable setup self →
        r.1 = Ret tt
        ∧ calls (trace r.2) = calls (trace s) ++ module_calls setup self)
     ∧ (all_ok (externals s) → exporters_only self →
        ModuleBuilder.getattr self (dispatch_name setup) = None →
        r.1 = Raise (Abort ("Compiling on platform '"
                            +:+ red (host s) (platform (target_system setup))
                            +:+ "' is not yet supported"))
        ∧ calls (trace r.2)
          = calls (trace s)
            ++ [(name, "compile"); (name, "unpack"); (name, "_setup_env");
                (name, "_prepare")])).
Proof.
  intros r name. split.
  - intros -> Hdir. by apply compile_finalize_only.
  - intros Hmode. split_and!.
    + by apply compile_unpacks.
    + intros Hok Hb.
      destruct (compile_ran setup self x_debug s Hmode Hok Hb)
        as (s1 & s' & _ & Hrun & Hc & _).
      subst r. by rewrite Hrun.
    + intros Hok Honly Hstep. by apply compile_stops_before_build.
Qed.

Lemma compile_debug_resume_witness :
  let setup := Sample.setup_for Sample.on_linux [] in
  let there := set_dirs (λ _, {["/work/build/cpython-3.9.6/build/bdb"]}) Sample.start in
  let resumed := ModuleBuilder.compile setup Sample.bdb true there in
  let full := ModuleBuilder.compile setup Sample.bdb true Sample.start in
  (resumed.1 = Ret tt
   ∧ calls (trace resumed.2) = [("bdb", "compile"); ("bdb", "_finalize")]
   ∧ ext_calls (trace resumed.2) = [])
  ∧ (full.1 = Ret tt
     ∧ calls (trace full.2)
       = [("bdb", "compile"); ("bdb", "unpack"); ("bdb", "_setup_env");
          ("bdb", "_prepare"); ("bdb", "_do_linux_compile"); ("bdb", "_finalize")]).
Proof.
  split.
  - apply (compile_debug_resume (Sample.setup_for Sample.on_linux []) Sample.bdb true
             (set_dirs (λ _, {["/work/build/cpython-3.9.6/build/bdb"]}) Sample.start));
      reflexivity.
  - apply (compile_debug_resume (Sample.setup_for Sample.on_linux []) Sample.bdb true
             Sample.start).
    + right. split; [reflexivity|]. right. discriminate.
    + apply all_ok_nil.
    + by apply buildable_plain.
Defined.
